(** * nats-fs: HTTP-style file transfer over NATS with windowed flow control

    A shallow embedding of the two programs of the repository:

    - [server/main.go]: the response writer [nrw] ([Header], [WriteHeader],
      [Write], [processFlowAck]) and the per-request goroutine of
      [natsHandleFunc];
    - [client/main.go]: header validation, the body receive loop and
      [isPrintable].

    Go values are embedded as follows.  A Go [string] is a Rocq [string]
    (a sequence of 8-bit characters), a [[]byte] is a [list byte], an [int]
    is a [Z] kept in the 64-bit signed range by [wrap_int], a [nats.Header]
    is a [gmap string (list string)].  Methods on [*nrw] are computations
    in a small state-and-trace monad over the [nrw] record; the trace
    records, in program order, every operation on the mutex, the
    connection, the log and the gate channel.

    Outside the model: flag parsing, the connection set-up, the decoding
    of the request in [natsHandleFunc] and the handler itself
    ([http.ServeFile]), which appears only as the sequence of calls it
    makes on the writer. *)

From Stdlib Require Import ZArith Lia List String Ascii Strings.Byte Bool.
From stdpp Require Import base option list strings gmap.

Local Open Scope string_scope.
Local Open Scope Z_scope.

(** ** Go's built-in and standard-library operations used by the programs *)

Module Go.

(** [int] on a 64-bit platform. *)
Definition int_min : Z := - 2 ^ 63.
Definition int_max : Z := 2 ^ 63 - 1.

Definition wrap_int (z : Z) : Z := (z + 2 ^ 63) mod 2 ^ 64 - 2 ^ 63.

Definition in_int (z : Z) : Prop := int_min <= z <= int_max.

(** [len(s)] and [len(data)]. *)
Definition len (s : string) : Z := Z.of_nat (String.length s).
Definition blen (data : list byte) : Z := Z.of_nat (List.length data).

(** [string(data)] and [[]byte(s)]. *)
Definition string_of_bytes (data : list byte) : string := string_of_list_byte data.
Definition bytes_of_string (s : string) : list byte := list_byte_of_string s.

(** The numeric value of one byte of a string. *)
Definition byteZ (c : ascii) : Z := Z.of_N (N_of_ascii c).

(** [s[:n]] for [0 <= n <= len(s)]. *)
Fixpoint slice_to (n : nat) (s : string) : string :=
  match n, s with
  | S k, String c r => String c (slice_to k r)
  | _, _ => EmptyString
  end.

(** [strings.HasPrefix(s, p)]. *)
Definition HasPrefix (s p : string) : bool := String.prefix p s.

(** [strings.Contains(s, sub)]. *)
Fixpoint Contains (s sub : string) : bool :=
  String.prefix sub s ||
  match s with
  | EmptyString => false
  | String _ r => Contains r sub
  end.

(** [strings.IndexByte(s, c) >= 0]. *)
Fixpoint ContainsByte (s : string) (c : ascii) : bool :=
  match s with
  | EmptyString => false
  | String x r => Ascii.eqb x c || ContainsByte r c
  end.

(** [strings.Split(s, sep)] for a one-byte separator: the tokens between
    the separators, always at least one. *)
Fixpoint Split (s : string) (sep : ascii) : list string :=
  match s with
  | EmptyString => [EmptyString]
  | String c r =>
      if Ascii.eqb c sep then EmptyString :: Split r sep
      else match Split r sep with
           | t :: ts => String c t :: ts
           | [] => [String c EmptyString]
           end
  end.

(** [strings.Join(parts, sep)]. *)
Fixpoint Join (parts : list string) (sep : string) : string :=
  match parts with
  | [] => EmptyString
  | [p] => p
  | p :: ps => p +:+ sep +:+ Join ps sep
  end.

(** *** [strconv.Atoi] *)

Definition is_digit (c : ascii) : bool :=
  (48 <=? byteZ c) && (byteZ c <=? 57).

(** The value of a non-empty run of decimal digits, most significant
    first, read with an accumulator as Go's loop [n = n*10 + int(ch)]. *)
Fixpoint parse_digits (acc : Z) (s : string) : option Z :=
  match s with
  | EmptyString => Some acc
  | String c r =>
      if is_digit c then parse_digits (acc * 10 + (byteZ c - 48)) r else None
  end.

Definition parse_unsigned (s : string) : option Z :=
  match s with
  | EmptyString => None
  | _ => parse_digits 0 s
  end.

(** [strconv.Atoi]: an optional sign, then one or more decimal digits;
    [None] stands for a non-nil error (syntax, or value out of the range
    of [int]). *)
Definition Atoi (s : string) : option Z :=
  match s with
  | EmptyString => None
  | String c r =>
      let signed :=
        if Ascii.eqb c "-"%char then option_map Z.opp (parse_unsigned r)
        else if Ascii.eqb c "+"%char then parse_unsigned r
        else parse_unsigned s in
      match signed with
      | Some n => if (int_min <=? n) && (n <=? int_max) then Some n else None
      | None => None
      end
  end.

(** *** The verb [%d] of [fmt.Sprintf] *)

Definition digit_char (d : Z) : ascii := ascii_of_N (Z.to_N (48 + d)).

Fixpoint fmt_digits (fuel : nat) (n : Z) (acc : string) : string :=
  let acc' := String (digit_char (n mod 10)) acc in
  match fuel with
  | O => acc'
  | S f => if n <? 10 then acc' else fmt_digits f (n / 10) acc'
  end.

Definition fmt_d (n : Z) : string :=
  if n <? 0 then String "-"%char (fmt_digits (Z.to_nat (Z.log2 (- n))) (- n) EmptyString)
  else fmt_digits (Z.to_nat (Z.log2 n)) n EmptyString.

(** *** UTF-8 decoding, as done by [for _, r := range s] *)

Definition RuneError : Z := 0xFFFD.
Definition RuneSelf : Z := 0x80.
Definition MaxRune : Z := 0x10FFFF.
Definition surrogateMin : Z := 0xD800.
Definition surrogateMax : Z := 0xDFFF.
Definition rune1Max : Z := 0x7F.
Definition rune2Max : Z := 0x7FF.
Definition rune3Max : Z := 0xFFFF.
Definition t2 : Z := 0xC0.
Definition t3 : Z := 0xE0.
Definition t4 : Z := 0xF0.
Definition t5 : Z := 0xF8.
Definition tx : Z := 0x80.
Definition maskx : Z := 0x3F.
Definition mask2 : Z := 0x1F.
Definition mask3 : Z := 0x0F.
Definition mask4 : Z := 0x07.
Definition locb : Z := 0x80.
Definition hicb : Z := 0xBF.

Definition is_cont (b : Z) : bool := (locb <=? b) && (b <=? hicb).

(** The runtime's [decoderune] at the head of [s]: the rune and the
    number of bytes it takes.  Anything that is not a well-formed,
    shortest-form encoding of a scalar value yields [RuneError] and
    consumes one byte. *)
Definition decoderune (s : string) : Z * nat :=
  match s with
  | EmptyString => (RuneError, 1%nat)
  | String c0 rest =>
      let s0 := byteZ c0 in
      if (t2 <=? s0) && (s0 <? t3) then
        match rest with
        | String c1 _ =>
            let r := Z.lor (Z.shiftl (Z.land s0 mask2) 6) (Z.land (byteZ c1) maskx) in
            if is_cont (byteZ c1) && (rune1Max <? r) then (r, 2%nat)
            else (RuneError, 1%nat)
        | _ => (RuneError, 1%nat)
        end
      else if (t3 <=? s0) && (s0 <? t4) then
        match rest with
        | String c1 (String c2 _) =>
            let r := Z.lor (Z.lor (Z.shiftl (Z.land s0 mask3) 12)
                                  (Z.shiftl (Z.land (byteZ c1) maskx) 6))
                           (Z.land (byteZ c2) maskx) in
            if is_cont (byteZ c1) && is_cont (byteZ c2) && (rune2Max <? r)
               && negb ((surrogateMin <=? r) && (r <=? surrogateMax))
            then (r, 3%nat) else (RuneError, 1%nat)
        | _ => (RuneError, 1%nat)
        end
      else if (t4 <=? s0) && (s0 <? t5) then
        match rest with
        | String c1 (String c2 (String c3 _)) =>
            let r := Z.lor (Z.lor (Z.lor (Z.shiftl (Z.land s0 mask4) 18)
                                         (Z.shiftl (Z.land (byteZ c1) maskx) 12))
                                  (Z.shiftl (Z.land (byteZ c2) maskx) 6))
                           (Z.land (byteZ c3) maskx) in
            if is_cont (byteZ c1) && is_cont (byteZ c2) && is_cont (byteZ c3)
               && (rune3Max <? r) && (r <=? MaxRune)
            then (r, 4%nat) else (RuneError, 1%nat)
        | _ => (RuneError, 1%nat)
        end
      else (RuneError, 1%nat)
  end.

(** One step of a [range] loop over a non-empty string. *)
Definition next_rune (s : string) : Z * nat :=
  match s with
  | EmptyString => (RuneError, 1%nat)
  | String c0 _ =>
      if byteZ c0 <? RuneSelf then (byteZ c0, 1%nat) else decoderune s
  end.

(** The runes a [range] loop over [s] visits, in order.  [skip] counts the
    bytes of the current rune that are still to be stepped over. *)
Fixpoint runes_from (skip : nat) (s : string) : list Z :=
  match s with
  | EmptyString => []
  | String _ rest =>
      match skip with
      | S k => runes_from k rest
      | O => let '(r, w) := next_rune s in r :: runes_from (Nat.pred w) rest
      end
  end.

Definition runes (s : string) : list Z := runes_from 0 s.

(** *** UTF-8 encoding ([utf8.AppendRune]) *)

Definition byte_char (b : Z) : ascii := ascii_of_N (Z.to_N (Z.land b 0xFF)).

Definition AppendRune (r : Z) : string :=
  if (0 <=? r) && (r <=? rune1Max) then String (byte_char r) EmptyString
  else if (0 <=? r) && (r <=? rune2Max) then
    String (byte_char (Z.lor t2 (Z.shiftr r 6)))
   (String (byte_char (Z.lor tx (Z.land r maskx))) EmptyString)
  else if ((0 <=? r) && (r <? surrogateMin)) || ((surrogateMax <? r) && (r <=? rune3Max)) then
    String (byte_char (Z.lor t3 (Z.shiftr r 12)))
   (String (byte_char (Z.lor tx (Z.land (Z.shiftr r 6) maskx)))
   (String (byte_char (Z.lor tx (Z.land r maskx))) EmptyString))
  else if (rune3Max <? r) && (r <=? MaxRune) then
    String (byte_char (Z.lor t4 (Z.shiftr r 18)))
   (String (byte_char (Z.lor tx (Z.land (Z.shiftr r 12) maskx)))
   (String (byte_char (Z.lor tx (Z.land (Z.shiftr r 6) maskx)))
   (String (byte_char (Z.lor tx (Z.land r maskx))) EmptyString)))
  else String "239" (String "191" (String "189" EmptyString)).

Definition ValidRune (r : Z) : bool :=
  ((0 <=? r) && (r <? surrogateMin)) || ((surrogateMax <? r) && (r <=? MaxRune)).

(** *** [strconv.Quote], the verb [%q] of [fmt] on a string

    [IsPrint] is Go's printable-rune predicate ([unicode.IsPrint], which
    [strconv.IsPrint] equals); its Unicode tables are not part of the
    programs and stay a parameter. *)

Definition dquote : ascii := "034".
Definition backslash : ascii := "092".

Definition lowerhex (d : Z) : ascii :=
  if d <? 10 then ascii_of_N (Z.to_N (48 + d)) else ascii_of_N (Z.to_N (87 + d)).

(** The hexadecimal digits of [r] from bit [4 * n - 4] down to bit 0. *)
Fixpoint hex_digits (n : nat) (r : Z) : string :=
  match n with
  | O => EmptyString
  | S k => String (lowerhex (Z.land (Z.shiftr r (4 * Z.of_nat k)) 0xF)) (hex_digits k r)
  end.

Section Quote.
Variable IsPrint : Z -> bool.

Definition appendEscapedRune (r : Z) : string :=
  if (r =? byteZ dquote) || (r =? byteZ backslash) then
    String backslash (String (byte_char r) EmptyString)
  else if IsPrint r then AppendRune r
  else if r =? 7 then String backslash "a"
  else if r =? 8 then String backslash "b"
  else if r =? 12 then String backslash "f"
  else if r =? 10 then String backslash "n"
  else if r =? 13 then String backslash "r"
  else if r =? 9 then String backslash "t"
  else if r =? 11 then String backslash "v"
  else if (r <? 32) || (r =? 0x7F) then String backslash (String "x" (hex_digits 2 r))
  else if negb (ValidRune r) then String backslash (String "u" (hex_digits 4 RuneError))
  else if r <? 0x10000 then String backslash (String "u" (hex_digits 4 r))
  else String backslash (String "U" (hex_digits 8 r)).

(** The loop of [appendQuotedWith] over the bytes of [s]. *)
Fixpoint quote_body (skip : nat) (s : string) : string :=
  match s with
  | EmptyString => EmptyString
  | String c0 rest =>
      match skip with
      | S k => quote_body k rest
      | O =>
          let '(r, width) := next_rune s in
          (if (width =? 1)%nat && (r =? RuneError)
           then String backslash (String "x" (hex_digits 2 (byteZ c0)))
           else appendEscapedRune r)
          +:+ quote_body (Nat.pred width) rest
      end
  end.

Definition Quote (s : string) : string :=
  String dquote (quote_body 0 s +:+ String dquote EmptyString).

(** Strings that [Quote] only wraps in quotes: printable ASCII without
    the double quote and the backslash. *)
Fixpoint plain_ascii (s : string) : bool :=
  match s with
  | EmptyString => true
  | String c r =>
      (byteZ c <? RuneSelf) && IsPrint (byteZ c)
      && negb (byteZ c =? byteZ dquote) && negb (byteZ c =? byteZ backslash)
      && plain_ascii r
  end.

End Quote.

End Go.


(** ** Messages and headers of the NATS client library *)

Module Nats.

(** [nats.Header]: header name to the ordered sequence of its values. *)
Abbreviation Header := (gmap string (list string)).

(** [nats.Msg]. *)
Record Msg : Type := mkMsg {
  Subject : string;
  Reply : string;
  Hdr : Header;
  Data : list byte;
}.

(** [nats.NewMsg(subject)]. *)
Definition NewMsg (subject : string) : Msg :=
  {| Subject := subject; Reply := EmptyString; Hdr := ∅; Data := [] |}.

(** [h.Get(key)] and [h.Add(key, value)], for a key in canonical form
    (such as [Status] and [Content-Length]). *)
Definition Get (h : Header) (key : string) : string :=
  match h !! key with
  | Some (v :: _) => v
  | _ => EmptyString
  end.

Definition Add (h : Header) (key value : string) : Header :=
  <[key := (default [] (h !! key) ++ [value])%list]> h.

Definition with_header (m : Msg) (h : Header) : Msg :=
  {| Subject := Subject m; Reply := Reply m; Hdr := h; Data := Data m |}.

(** The result of [sub.NextMsg(timeout)]: a message, or an error (a
    timeout among them). *)
Inductive recv : Type :=
| RecvErr (err : string)
| RecvMsg (m : Msg).

End Nats.

(** ** Header keys of [net/http] *)

Module Http.

(** [validHeaderFieldByte]: the token characters of a header name. *)
Definition validHeaderFieldByte (c : ascii) : bool :=
  let b := Go.byteZ c in
  ((48 <=? b) && (b <=? 57)) || ((65 <=? b) && (b <=? 90)) || ((97 <=? b) && (b <=? 122))
  || existsb (Z.eqb b) [33; 35; 36; 37; 38; 39; 42; 43; 45; 46; 94; 95; 96; 124; 126].

Fixpoint all_valid (s : string) : bool :=
  match s with
  | EmptyString => true
  | String c r => validHeaderFieldByte c && all_valid r
  end.

(** The second loop of [canonicalMIMEHeaderKey]: a letter is made upper
    case at the start and after a dash, lower case elsewhere. *)
Fixpoint canonical_from (upper : bool) (s : string) : string :=
  match s with
  | EmptyString => EmptyString
  | String c r =>
      let b := Go.byteZ c in
      let b' := if upper && (97 <=? b) && (b <=? 122) then b - 32
                else if negb upper && (65 <=? b) && (b <=? 90) then b + 32
                else b in
      String (Go.byte_char b') (canonical_from (b' =? 45) r)
  end.

(** [textproto.CanonicalMIMEHeaderKey]: a key with a byte that is not a
    token character is left as it is. *)
Definition CanonicalMIMEHeaderKey (s : string) : string :=
  if all_valid s then canonical_from true s else s.

(** [http.Header]'s [Get], [Add] and [Set]. *)
Definition Get (h : Nats.Header) (key : string) : string :=
  Nats.Get h (CanonicalMIMEHeaderKey key).

Definition Add (h : Nats.Header) (key value : string) : Nats.Header :=
  Nats.Add h (CanonicalMIMEHeaderKey key) value.

Definition Set_ (h : Nats.Header) (key value : string) : Nats.Header :=
  <[CanonicalMIMEHeaderKey key := [value]]> h.

End Http.

(** ** The requestor, [client/main.go] *)

Module Client.
Import Nats.

Section Requestor.
(** [unicode.IsPrint]. *)
Variable IsPrint : Z -> bool.

(** The [range] loop of [isPrintable], leaving at the first rune that is
    not printable. *)
Fixpoint all_printable (skip : nat) (s : string) : bool :=
  match s with
  | EmptyString => true
  | String _ rest =>
      match skip with
      | S k => all_printable k rest
      | O =>
          let '(r, w) := Go.next_rune s in
          if negb (IsPrint r) then false else all_printable (Nat.pred w) rest
      end
  end.

Definition snippetSize : Z := 32.

Definition isPrintable (data : list byte) : bool :=
  let s := Go.string_of_bytes data in
  let s := if Go.len s >? snippetSize then Go.slice_to (Z.to_nat snippetSize) s else s in
  all_printable 0 s.

(** What the process has done so far: the lines given to [log.Printf], the
    chunks written to the output file, the reply subjects acknowledged
    with [msg.Respond(nil)], and the number of body messages asked for
    with [sub.NextMsg]. *)
Record progress : Type := mkProgress {
  logged : list string;
  written : list (list byte);
  acked : list string;
  body_reads : nat;
}.

Definition start : progress :=
  {| logged := []; written := []; acked := []; body_reads := 0 |}.

Definition log_line (l : string) (p : progress) : progress :=
  {| logged := (logged p ++ [l])%list; written := written p; acked := acked p;
     body_reads := body_reads p |}.
Definition file_write (d : list byte) (p : progress) : progress :=
  {| logged := logged p; written := (written p ++ [d])%list; acked := acked p;
     body_reads := body_reads p |}.
Definition respond (m : Msg) (p : progress) : progress :=
  {| logged := logged p; written := written p; acked := (acked p ++ [Reply m])%list;
     body_reads := body_reads p |}.
Definition next_msg (p : progress) : progress :=
  {| logged := logged p; written := written p; acked := acked p;
     body_reads := S (body_reads p) |}.

(** How the process ends: [log.Fatalf] with its message, or a return from
    [main] with the number of body bytes counted in [received]. *)
Inductive outcome : Type :=
| Fatal (msg : string) (p : progress)
| Done (received : Z) (p : progress).

Definition binary_warning : string :=
  "Warning, data received is binary, consider using -output FILE".

(** The receive loop of [main].  [incoming] holds the results the
    successive calls of [sub.NextMsg] get; once it is used up nothing more
    arrives and [NextMsg] times out.  [fd] tells whether an output file is
    open. *)
Fixpoint body_loop (fd : bool) (cl : Z) (received : Z) (checked : bool)
    (incoming : list recv) (p : progress) : outcome :=
  if received <? cl then
    match incoming with
    | [] => Done received (next_msg p)
    | RecvErr _ :: _ => Done received (next_msg p)
    | RecvMsg msg :: rest =>
        let p := next_msg p in
        if Go.blen (Data msg) =? 0 then Done received p
        else if negb checked && negb fd && negb (isPrintable (Data msg))
        then Fatal binary_warning p
        else
          let checked := if negb checked && negb fd then true else checked in
          let p := if fd then file_write (Data msg) p
                   else log_line (String "010" (Go.string_of_bytes (Data msg))) p in
          let p := respond msg p in
          body_loop fd cl (Go.wrap_int (received + Go.blen (Data msg))) checked rest p
    end
  else Done received p.

(** The lines printed for [-i]; Go leaves the order of a map iteration
    open, the model takes the order of [map_to_list]. *)
Definition header_lines (m : Msg) : list string :=
  ("Received  [" +:+ Subject m +:+ "]")
  :: map (fun kv : string * list string =>
            String "027" "[1m" +:+ kv.1 +:+ ":" +:+ String "027" "[0m " +:+ Go.Join kv.2 ",")
         (map_to_list (Hdr m)).

(** [main] from the first [sub.NextMsg] on.  [first] is its result,
    [showHeaders] and [output] are the flags, [open_err] is the error of
    [os.OpenFile] if it fails, [incoming] the later receive results. *)
Definition run (showHeaders : bool) (output : string) (open_err : option string)
    (first : recv) (incoming : list recv) : outcome :=
  match first with
  | RecvErr err => Fatal (err +:+ " for request") start
  | RecvMsg msg =>
      let status := Get (Hdr msg) "Status" in
      if negb (Go.HasPrefix status "200")
      then Fatal ("Error retrieving resource " +:+ Go.Quote IsPrint status) start
      else
        match Go.Atoi (Get (Hdr msg) "Content-Length") with
        | None => Fatal "Expected a Content-Length" start
        | Some cl =>
            let p := if showHeaders
                     then {| logged := header_lines msg; written := [];
                             acked := []; body_reads := 0 |}
                     else start in
            match (if String.eqb output EmptyString then None else Some open_err) with
            | Some (Some err) =>
                Fatal ("Error opening output file " +:+ Go.Quote IsPrint output
                       +:+ ": " +:+ err) p
            | Some None => body_loop true cl 0 false incoming p
            | None => body_loop false cl 0 false incoming p
            end
        end
  end.

(** *** The receive loop on a run of chunks *)

(** The body bytes in a run of chunks. *)
Fixpoint body_bytes (chunks : list Msg) : Z :=
  match chunks with
  | [] => 0
  | m :: rest => Go.blen (Data m) + body_bytes rest
  end.

(** Before each chunk of the run is asked for, the bytes counted so far
    are fewer than [cl]. *)
Fixpoint needed (cl received : Z) (chunks : list Msg) : bool :=
  match chunks with
  | [] => true
  | m :: rest => (received <? cl) && needed cl (received + Go.blen (Data m)) rest
  end.

(** The first chunk passes the check for binary data, or there is no
    check because an output file is open or no chunk comes. *)
Definition first_chunk_accepted (fd : bool) (chunks : list Msg) : bool :=
  fd || match chunks with
        | [] => true
        | m :: _ => isPrintable (Data m)
        end.

(** The next receive ends the transfer: nothing arrives in time, the
    receive fails, or an empty chunk arrives. *)
Definition ends_stream (rest : list recv) : bool :=
  match rest with
  | [] => true
  | RecvErr _ :: _ => true
  | RecvMsg m :: _ => Go.blen (Data m) =? 0
  end.

(** The progress after a run of chunks has been received, written or
    printed, and acknowledged. *)
Definition consumed (fd : bool) (chunks : list Msg) (p : progress) : progress :=
  {| logged := (logged p ++ if fd then []
                            else map (fun m => String "010" (Go.string_of_bytes (Data m)))
                                     chunks)%list;
     written := (written p ++ if fd then map Data chunks else [])%list;
     acked := (acked p ++ map Reply chunks)%list;
     body_reads := body_reads p + List.length chunks |}.

End Requestor.

End Client.

(** ** The response writer and the bridge, [server/main.go] *)

Module Server.
Import Nats.

(** [*nats.Subscription]: its subject and whether it is still delivering. *)
Record Subscription : Type := mkSub {
  sub_subject : string;
  sub_active : bool;
}.

(** [type nrw struct].  [mu] is the embedded [sync.Mutex] (held or not),
    [hdr] and [asub] are pointers ([None] is [nil]), [acks] is the gate
    channel of capacity 1 ([None] is the nil channel, [Some k] a channel
    holding [k] signals).  The connection [nc] is not a field of the
    model: every call on it is recorded in the trace. *)
Record nrw : Type := mkNrw {
  mu : bool;
  reply : string;
  hdr : option Msg;
  inbox : string;
  asub : option Subscription;
  acks : option nat;
  index : Z;
  pending : Z;
}.

Definition set_mu (b : bool) (w : nrw) : nrw :=
  mkNrw b (reply w) (hdr w) (inbox w) (asub w) (acks w) (index w) (pending w).
Definition set_hdr (h : option Msg) (w : nrw) : nrw :=
  mkNrw (mu w) (reply w) h (inbox w) (asub w) (acks w) (index w) (pending w).
Definition set_inbox (i : string) (w : nrw) : nrw :=
  mkNrw (mu w) (reply w) (hdr w) i (asub w) (acks w) (index w) (pending w).
Definition set_asub (a : option Subscription) (w : nrw) : nrw :=
  mkNrw (mu w) (reply w) (hdr w) (inbox w) a (acks w) (index w) (pending w).
Definition set_acks (c : option nat) (w : nrw) : nrw :=
  mkNrw (mu w) (reply w) (hdr w) (inbox w) (asub w) c (index w) (pending w).
Definition set_pending (p : Z) (w : nrw) : nrw :=
  mkNrw (mu w) (reply w) (hdr w) (inbox w) (asub w) (acks w) (index w) p.

(** [&nrw{nc: nc, reply: m.Reply}]. *)
Definition new_nrw (r : string) : nrw :=
  mkNrw false r None EmptyString None None 0 0.

(** The operations a method performs on the mutex, the connection, the
    log, the gate and the counter, in program order. *)
Inductive event : Type :=
| ELock
| EUnlock
| ENewInbox (name : string)
| ESubscribe (subject : string) (ok : bool)
| EMakeChan (capacity : nat)
| ESelect (signalled : bool) (timeout : Z)
| EPublishRequest (subject rep : string) (data : list byte) (err : option string)
| EPublishMsg (m : Msg)
| EUnsubscribe (ok : bool)
| ELog (line : string)
| EStorePending (v : Z).

(** The result of running a method: it returns, it panics, or it blocks
    for ever in [Lock] on a mutex that is held. *)
Inductive Res (A : Type) : Type :=
| Ok (a : A) (w : nrw) (tr : list event)
| Panic (why : string) (w : nrw) (tr : list event)
| Blocked (w : nrw) (tr : list event).
Arguments Ok {A} a w tr.
Arguments Panic {A} why w tr.
Arguments Blocked {A} w tr.

Definition M (A : Type) : Type := nrw -> Res A.

Definition ret {A} (a : A) : M A := fun w => Ok a w [].

Definition bind {A B} (m : M A) (f : A -> M B) : M B :=
  fun w =>
    match m w with
    | Ok a w1 t1 =>
        match f a w1 with
        | Ok b w2 t2 => Ok b w2 (t1 ++ t2)%list
        | Panic y w2 t2 => Panic y w2 (t1 ++ t2)%list
        | Blocked w2 t2 => Blocked w2 (t1 ++ t2)%list
        end
    | Panic y w1 t1 => Panic y w1 t1
    | Blocked w1 t1 => Blocked w1 t1
    end.

Notation "x <- m ;; f" := (bind m (fun x => f))
  (at level 100, m at next level, right associativity).
Notation "m ;; f" := (bind m (fun _ => f))
  (at level 100, right associativity).

Definition read {A} (f : nrw -> A) : M A := fun w => Ok (f w) w [].
Definition modify (f : nrw -> nrw) : M unit := fun w => Ok tt (f w) [].
Definition emit (e : event) : M unit := fun w => Ok tt w [e].
Definition panic {A} (why : string) : M A := fun w => Panic why w [].

Definition nil_deref : string :=
  "runtime error: invalid memory address or nil pointer dereference".

(** [w.Lock()] and [w.Unlock()]. *)
Definition Lock : M unit :=
  fun w => if mu w then Blocked w [] else Ok tt (set_mu true w) [ELock].
Definition Unlock : M unit :=
  fun w => if mu w then Ok tt (set_mu false w) [EUnlock]
           else Panic "sync: unlock of unlocked mutex" w [].

Definition store_pending (v : Z) : M unit :=
  modify (set_pending v) ;; emit (EStorePending v).

Definition defaultWindowSize : Z := 32 * 1024 * 1024.

(** [time.Millisecond], in nanoseconds as a [time.Duration]. *)
Definition Millisecond : Z := 1000000.

(** What the outside world answers during one [Write]: the name
    [nats.NewInbox] returns, whether [nc.Subscribe] succeeds, and the
    error of [nc.PublishRequest] if it fails. *)
Record WriteEnv : Type := mkEnv {
  new_inbox : string;
  sub_ok : bool;
  pub_err : option string;
}.

(** The header messages published in a stretch of events. *)
Fixpoint header_messages (tr : list event) : list Msg :=
  match tr with
  | [] => []
  | EPublishMsg m :: rest => m :: header_messages rest
  | _ :: rest => header_messages rest
  end.

(** The chunks handed to [nc.PublishRequest] in a stretch of events. *)
Fixpoint chunks_sent (tr : list event) : list (list byte) :=
  match tr with
  | [] => []
  | EPublishRequest _ _ data _ :: rest => data :: chunks_sent rest
  | _ :: rest => chunks_sent rest
  end.

(** An event other than a [select] that was ended by a signal. *)
Definition by_timeout (e : event) : bool :=
  match e with
  | ESelect true _ => false
  | _ => true
  end.

(** The gate holds no signal. *)
Definition gate_empty (w : nrw) : Prop := acks w = None \/ acks w = Some O.

Section Writer.
(** [unicode.IsPrint] (for [%q]) and [http.StatusText]. *)
Variable IsPrint : Z -> bool.
Variable StatusText : Z -> string.

(** [func (w *nrw) Header() http.Header]: the map of the header message,
    which is allocated on first use.  The map is shared with [w.hdr]. *)
Definition Header : M Nats.Header :=
  h <- read hdr ;;
  match h with
  | None =>
      r <- read reply ;;
      modify (set_hdr (Some (NewMsg r))) ;;
      ret (Hdr (NewMsg r))
  | Some m => ret (Hdr m)
  end.

(** [w.Header().Set(key, value)], as a handler does before [WriteHeader]:
    the store goes through the shared map into [w.hdr], under the
    canonical form of the key. *)
Definition HeaderSet (key value : string) : M unit :=
  Header ;;
  h <- read hdr ;;
  match h with
  | None => panic nil_deref
  | Some m => modify (set_hdr (Some (with_header m (Http.Set_ (Hdr m) key value))))
  end.

(** [func (w *nrw) processFlowAck(m *nats.Msg)]. *)
Definition processFlowAck (m : Msg) : M unit :=
  let tokens := Go.Split (Subject m) "." in
  if (Z.of_nat (List.length tokens) <? 2) then
    emit (ELog ("Bad ack subject " +:+ Go.Quote IsPrint (Subject m)))
  else
    match Go.Atoi (List.last tokens EmptyString) with
    | None => emit (ELog ("Bad ack subject " +:+ Go.Quote IsPrint (Subject m)))
    | Some chunkSize =>
        Lock ;;
        p <- read pending ;;
        store_pending (Go.wrap_int (p - chunkSize)) ;;
        Unlock
    end.

(** The two ways [processFlowAck] can end: the subject is logged as bad and
    nothing changes, or [n] is taken off the counter under the mutex. *)
Definition bad_ack (m : Msg) (w : nrw) : Res unit :=
  Ok tt w [ELog ("Bad ack subject " +:+ Go.Quote IsPrint (Subject m))].

Definition good_ack (n : Z) (w : nrw) : Res unit :=
  Ok tt (set_pending (Go.wrap_int (pending w - n)) w)
     [ELock; EStorePending (Go.wrap_int (pending w - n)); EUnlock].

(** [func (w *nrw) Write(data []byte) (int, error)], in the three
    stretches between which the mutex is free: up to the window test,
    the [select], and the publish. *)
Definition write_enter (env : WriteEnv) : M bool :=
  Lock ;;
  c <- read acks ;;
  (match c with
   | None =>
       modify (set_inbox (new_inbox env)) ;;
       emit (ENewInbox (new_inbox env)) ;;
       i <- read inbox ;;
       modify (set_asub (if sub_ok env then Some (mkSub (i +:+ ".*") true) else None)) ;;
       emit (ESubscribe (i +:+ ".*") (sub_ok env)) ;;
       modify (set_acks (Some O)) ;;
       emit (EMakeChan 1)
   | Some _ => ret tt
   end) ;;
  p <- read pending ;;
  if p >? defaultWindowSize then Unlock ;; ret true else ret false.

(** [select { case <-acks: case <-time.After(time.Millisecond): }] and the
    [w.Lock()] after it: a signal in the channel is taken, otherwise the
    timer fires. *)
Definition write_wait : M unit :=
  c <- read acks ;;
  (match c with
   | Some (S k) => modify (set_acks (Some k)) ;; emit (ESelect true Millisecond)
   | _ => emit (ESelect false Millisecond)
   end) ;;
  Lock.

Definition write_publish (data : list byte) (env : WriteEnv) : M (Z * option string) :=
  i <- read inbox ;;
  let ackReply := i +:+ "." +:+ Go.fmt_d (Go.blen data) in
  r <- read reply ;;
  emit (EPublishRequest r ackReply data (pub_err env)) ;;
  match pub_err env with
  | Some err => Unlock ;; ret (0, Some err)
  | None =>
      p <- read pending ;;
      store_pending (Go.wrap_int (p + Go.blen data)) ;;
      Unlock ;;
      ret (Go.blen data, None)
  end.

Definition Write (data : list byte) (env : WriteEnv) : M (Z * option string) :=
  held_up <- write_enter env ;;
  (if held_up : bool then write_wait else ret tt) ;;
  write_publish data env.

(** [fmt.Sprintf("%d %s", statusCode, http.StatusText(statusCode))]. *)
Definition status_line (statusCode : Z) : string :=
  Go.fmt_d statusCode +:+ " " +:+ StatusText statusCode.

(** [func (w *nrw) WriteHeader(statusCode int)]. *)
Definition WriteHeader (statusCode : Z) : M unit :=
  Lock ;;
  h <- read hdr ;;
  match h with
  | None => panic nil_deref
  | Some m =>
      let m' := with_header m (Add (Hdr m) "Status" (status_line statusCode)) in
      modify (set_hdr (Some m')) ;;
      emit (EPublishMsg m') ;;
      Unlock
  end.

(** The end of the goroutine of [natsHandleFunc], after the handler has
    returned: [w.Lock(); w.asub.Unsubscribe(); w.Unlock()].  On a nil
    subscription [Unsubscribe] returns an error, which is dropped. *)
Definition close : M unit :=
  Lock ;;
  a <- read asub ;;
  (match a with
   | None => emit (EUnsubscribe false)
   | Some sb =>
       modify (set_asub (Some (mkSub (sub_subject sb) false))) ;;
       emit (EUnsubscribe (sub_active sb))
   end) ;;
  Unlock.

(** *** One transfer as a transition system

    The handler's goroutine calls [Write]; the subscription's goroutine
    calls [processFlowAck].  The mutex is free before a [Write], after it,
    and while it sits in the [select]; those are the points where an
    acknowledgement can be processed. *)

(** Where the writing goroutine is. *)
Inductive wpc : Type :=
| Idle
| Waiting (data : list byte) (env : WriteEnv).

Record sys : Type := mkSys {
  obj : nrw;
  pc : wpc;
  history : list event;
}.

Inductive action : Type :=
| ACall (data : list byte) (env : WriteEnv)
| AWake
| AAck (m : Msg).

(** NATS subject matching, token by token: [*] stands for one token and a
    final [>] for one or more. *)
Fixpoint tokens_match (pat subj : list string) : bool :=
  match pat, subj with
  | [], [] => true
  | p :: ps, t :: ts =>
      if String.eqb p ">" then match ps with [] => true | _ => false end
      else (String.eqb p "*" || String.eqb p t)
           && negb (String.eqb t EmptyString) && tokens_match ps ts
  | _, _ => false
  end.

Definition subject_matches (pattern subject : string) : bool :=
  tokens_match (Go.Split pattern ".") (Go.Split subject ".").

(** The connection hands [m] to [processFlowAck] only through the live
    subscription of the writer. *)
Definition delivers (w : nrw) (m : Msg) : bool :=
  match asub w with
  | Some sb => sub_active sb && subject_matches (sub_subject sb) (Subject m)
  | None => false
  end.

Definition finish {A} (r : Res A) (next : wpc) : option (nrw * wpc * list event) :=
  match r with
  | Ok _ w tr => Some (w, next, tr)
  | _ => None
  end.

(** One step, with the events it adds; [None] when the action cannot
    happen in this state. *)
Definition step_events (s : sys) (a : action) : option (nrw * wpc * list event) :=
  match a, pc s with
  | ACall data env, Idle =>
      match write_enter env (obj s) with
      | Ok true w tr => Some (w, Waiting data env, tr)
      | Ok false w tr =>
          match write_publish data env w with
          | Ok _ w' tr' => Some (w', Idle, (tr ++ tr')%list)
          | _ => None
          end
      | _ => None
      end
  | AWake, Waiting data env =>
      finish ((write_wait ;; write_publish data env) (obj s)) Idle
  | AAck m, _ =>
      if delivers (obj s) m then finish (processFlowAck m (obj s)) (pc s) else None
  | _, _ => None
  end.

Definition step (s : sys) (a : action) : option sys :=
  match step_events s a with
  | Some (w, next, tr) => Some (mkSys w next (history s ++ tr)%list)
  | None => None
  end.

Fixpoint run (s : sys) (acts : list action) : option sys :=
  match acts with
  | [] => Some s
  | a :: rest =>
      match step s a with
      | Some s' => run s' rest
      | None => None
      end
  end.

Definition init (r : string) : sys := mkSys (new_nrw r) Idle [].

(** *** Accounting of chunks and acknowledgements *)

(** The byte count an acknowledgement carries, if it is well formed. *)
Definition ack_size (m : Msg) : option Z :=
  let tokens := Go.Split (Subject m) "." in
  if (2 <=? List.length tokens)%nat then Go.Atoi (List.last tokens EmptyString) else None.

(** The sizes of the chunks published without error in a stretch of
    events. *)
Fixpoint published (tr : list event) : list Z :=
  match tr with
  | [] => []
  | EPublishRequest _ _ data None :: rest => Go.blen data :: published rest
  | _ :: rest => published rest
  end.

Fixpoint total (g : list Z) : Z :=
  match g with
  | [] => 0
  | n :: rest => n + total rest
  end.

Fixpoint remove_one (n : Z) (g : list Z) : option (list Z) :=
  match g with
  | [] => None
  | k :: rest =>
      if k =? n then Some rest
      else match remove_one n rest with
           | Some rest' => Some (k :: rest')
           | None => None
           end
  end.

(** [acts] can run from [s], every well-formed acknowledgement in it
    carries the size of a chunk that was published before and is not yet
    acknowledged ([g] holds the sizes of those chunks), and the
    unacknowledged bytes stay within the range of [int]. *)
Fixpoint well_acked (s : sys) (g : list Z) (acts : list action) : bool :=
  match acts with
  | [] => true
  | a :: rest =>
      match step_events s a with
      | None => false
      | Some (w, next, tr) =>
          let s' := mkSys w next (history s ++ tr)%list in
          match a with
          | AAck m =>
              match ack_size m with
              | None => well_acked s' g rest
              | Some n =>
                  match remove_one n g with
                  | Some g' => well_acked s' g' rest
                  | None => false
                  end
              end
          | _ =>
              let g' := (published tr ++ g)%list in
              (total g' <=? Go.int_max) && well_acked s' g' rest
          end
      end
  end.

(** A handler, as the calls it makes on the writer. *)
Inductive call : Type :=
| CHeaderSet (key value : string)
| CWriteHeader (statusCode : Z)
| CWrite (data : list byte) (env : WriteEnv).

Definition do_call (c : call) : M unit :=
  match c with
  | CHeaderSet k v => HeaderSet k v
  | CWriteHeader code => WriteHeader code
  | CWrite data env => Write data env ;; ret tt
  end.

Fixpoint handler (cs : list call) : M unit :=
  match cs with
  | [] => ret tt
  | c :: rest => do_call c ;; handler rest
  end.

(** The goroutine started for a request [m]: the handler, then [close]. *)
Definition serve (m : Msg) (cs : list call) : Res unit :=
  (handler cs ;; close) (new_nrw (Reply m)).

End Writer.

End Server.

(** An instance of the printable predicate that is exact on ASCII
    (printable there means 0x20 to 0x7E) and used for running the model on
    ASCII inputs only. *)
Definition IsPrintASCII (r : Z) : bool := (0x20 <=? r) && (r <=? 0x7E).


(** An excerpt of [http.StatusText], for running the model. *)
Definition StatusTextExcerpt (code : Z) : string :=
  if code =? 200 then "OK"
  else if code =? 404 then "Not Found"
  else if code =? 500 then "Internal Server Error"
  else EmptyString.

(** Inputs for running the model. *)
Module Sample.
Import Nats Server.

Definition env : WriteEnv := mkEnv "_INBOX.x" true None.
Definition env_fail : WriteEnv := mkEnv "_INBOX.x" true (Some "nats: connection closed").
Definition abc : list byte := ["a"%byte; "b"%byte; "c"%byte].
Definition ack (subject : string) : Msg := mkMsg subject EmptyString ∅ [].

(** A writer in the middle of a transfer, with [p] bytes outstanding. *)
Definition streaming (p : Z) : nrw :=
  mkNrw false "_INBOX.r" None "_INBOX.x" (Some (mkSub "_INBOX.x.*" true)) (Some O) 0 p.

(** A transfer that is held up on a full window. *)
Definition held_up : sys := mkSys (streaming 33554433) Idle [].

(** A write that finds the window full, an acknowledgement of 1 MiB that
    arrives while it waits, and its resumption. *)
Definition blocked_then_acked : list action :=
  [ACall abc env; AAck (ack "_INBOX.x.1048576"); AWake].

(** Two chunks of three bytes, each acknowledged once. *)
Definition two_chunks_acked : list action :=
  [ACall abc env; ACall abc env; AAck (ack "_INBOX.x.3"); AAck (ack "_INBOX.x.3")].

(** A status text with a quoted word in it: [404 "x"]. *)
Definition quoted_status : string :=
  "404 " +:+ String Go.dquote ("x" +:+ String Go.dquote EmptyString).

(** A header reply and a body chunk. *)
Definition header_reply (status : string) (cl : option string) : Msg :=
  mkMsg "_INBOX.r" EmptyString
    (match cl with
     | Some v => <["Content-Length" := [v]]> (<["Status" := [status]]> ∅)
     | None => <["Status" := [status]]> ∅
     end) [].
Definition chunk (data : list byte) (n : Z) : Msg :=
  mkMsg "_INBOX.r" ("_INBOX.x." +:+ Go.fmt_d n) ∅ data.

End Sample.

(** ** The request: built in [client/main.go], taken apart in
    [natsHandleFunc] *)

Module Request.
Import Nats.

(** The request message of the client's [main] for the arguments [args]
    (subject, then an optional target); [inbox] is what [nats.NewInbox]
    returns.  Without arguments [main] has left through
    [showUsageAndExit(1)] before. *)
Definition build (args : list string) (inbox : string) : option Msg :=
  match args with
  | [] => None
  | subj :: more =>
      let h := Http.Add ∅ "Accept" "*/*" in
      let h := Http.Add h "User-Agent" "nats-fs-client/0.1" in
      let h := Http.Add h "Method" "GET" in
      let h := match more with
               | target :: _ => Http.Add h "URL" target
               | [] => h
               end in
      Some {| Subject := subj; Reply := inbox; Hdr := h; Data := [] |}
  end.

(** [*http.Request], as far as the callback fills it. *)
Record Req : Type := mkReq {
  Method : string;
  Target : string;
  ReqHeader : Header;
  Body : list byte;
}.

(** How the callback of [natsHandleFunc] ends for one message: the
    goroutine is started with a request and a new writer, or the callback
    panics.  [log] holds the lines printed before. *)
Inductive started : Type :=
| Go_handler (req : Req) (w : Server.nrw) (log : list string)
| Crash (why : string) (log : list string).

Section Callback.
(** The error of [http.NewRequest(method, url, body)], if any. *)
Variable NewRequest_err : string -> string -> option string.

Definition on_message (m : Msg) : started :=
  let method := "GET" in
  let hm := Http.Get (Hdr m) "Method" in
  let method := if negb (String.eqb hm EmptyString) then hm else method in
  let path := Http.Get (Hdr m) "URL" in
  let path := if String.eqb path EmptyString then "/" else path in
  match NewRequest_err method path with
  | Some err =>
      (* [req] is nil here, and [req.Header = m.Header] follows. *)
      Crash Server.nil_deref ["Error creating http request: " +:+ err]
  | None =>
      Go_handler (mkReq method path (Hdr m) (Data m)) (Server.new_nrw (Reply m)) []
  end.

End Callback.

End Request.

(** ** Accounting over traces and scripts *)

Module Transfer.
Import Nats Server.

(** The mutex discipline of a trace, started with the mutex held or not:
    [Lock] only on a free mutex, [Unlock] only on a held one; the calls on
    the connection, the gate's creation and the stores to the counter only
    with the mutex held; the [select] only with the mutex free.  The
    result is the state of the mutex at the end. *)
Fixpoint disciplined (held : bool) (tr : list event) : option bool :=
  match tr with
  | [] => Some held
  | e :: rest =>
      match e with
      | ELock => if held then None else disciplined true rest
      | EUnlock => if held then disciplined false rest else None
      | ESelect _ _ => if held then None else disciplined held rest
      | ELog _ => disciplined held rest
      | _ => if held then disciplined held rest else None
      end
  end.

(** [processFlowAck] for each of a sequence of messages, in order. *)
Fixpoint deliver (IsPrint : Z -> bool) (ms : list Msg) : M unit :=
  match ms with
  | [] => ret tt
  | m :: rest => bind (processFlowAck IsPrint m) (fun _ => deliver IsPrint rest)
  end.

(** The byte counts a sequence of acknowledgements carries. *)
Fixpoint acked_bytes (ms : list Msg) : Z :=
  match ms with
  | [] => 0
  | m :: rest => from_option id 0 (ack_size m) + acked_bytes rest
  end.

(** The payloads a script writes, and the status codes it sends. *)
Fixpoint writes_of (cs : list call) : list (list byte) :=
  match cs with
  | [] => []
  | CWrite data _ :: rest => data :: writes_of rest
  | _ :: rest => writes_of rest
  end.

Fixpoint statuses_of (cs : list call) : list Z :=
  match cs with
  | [] => []
  | CWriteHeader code :: rest => code :: statuses_of rest
  | _ :: rest => statuses_of rest
  end.

(** The writes of a script whose publish succeeds. *)
Fixpoint accepted_of (cs : list call) : list (list byte) :=
  match cs with
  | [] => []
  | CWrite data env :: rest =>
      match pub_err env with
      | None => data :: accepted_of rest
      | Some _ => accepted_of rest
      end
  | _ :: rest => accepted_of rest
  end.

Fixpoint bytes_of (datas : list (list byte)) : Z :=
  match datas with
  | [] => 0
  | d :: rest => Go.blen d + bytes_of rest
  end.

(** The publish requests in a trace: subject, reply address, payload. *)
Fixpoint requests (tr : list event) : list (string * string * list byte) :=
  match tr with
  | [] => []
  | EPublishRequest subject rep data _ :: rest => (subject, rep, data) :: requests rest
  | _ :: rest => requests rest
  end.

(** No [WriteHeader] of the script comes before its first [Header]; [set]
    tells whether the header message exists already. *)
Fixpoint header_safe (set : bool) (cs : list call) : bool :=
  match cs with
  | [] => true
  | CHeaderSet _ _ :: rest => header_safe true rest
  | CWriteHeader _ :: rest => set && header_safe set rest
  | CWrite _ _ :: rest => header_safe set rest
  end.

(** The chunk messages a subscriber of [w.reply] gets from a trace: one
    for each publish request that went through. *)
Fixpoint delivered (tr : list event) : list Msg :=
  match tr with
  | [] => []
  | EPublishRequest subject rep data None :: rest =>
      mkMsg subject rep ∅ data :: delivered rest
  | _ :: rest => delivered rest
  end.

(** The acknowledgements the requestor's [msg.Respond(nil)] calls put on
    the bus: empty messages on the reply subjects. *)
Definition responses (subjects : list string) : list Msg :=
  map (fun subject => mkMsg subject EmptyString ∅ []) subjects.

(** A script of writes whose publishes all succeed. *)
Definition write_all (inbox : string) (datas : list (list byte)) : list call :=
  map (fun d => CWrite d (mkEnv inbox true None)) datas.

(** The inbox a writer uses once [Write] has run with the answers [env]. *)
Definition inbox_after (env : WriteEnv) (w : nrw) : string :=
  match acks w with
  | None => new_inbox env
  | Some _ => inbox w
  end.

(** The subjects subscribed to in a trace. *)
Fixpoint subscribed (tr : list event) : list string :=
  match tr with
  | [] => []
  | ESubscribe subject _ :: rest => subject :: subscribed rest
  | _ :: rest => subscribed rest
  end.

(** A subject without empty tokens and without the wildcard [>]. *)
Definition plain_subject (subject : string) : bool :=
  forallb (fun t => negb (String.eqb t EmptyString) && negb (String.eqb t ">")
                    && negb (String.eqb t "*"))
          (Go.Split subject ".").

(** Whether the header message of the writer exists. *)
Definition has_hdr (w : nrw) : bool :=
  match hdr w with
  | Some _ => true
  | None => false
  end.

(** The publish requests a script makes on a writer whose inbox ends up
    being [inbox]: each payload on [w.reply], with the payload's length
    behind the inbox as the reply address. *)
Definition expected_requests (rp inbox : string) (cs : list call)
    : list (string * string * list byte) :=
  map (fun d => (rp, inbox +:+ "." +:+ Go.fmt_d (Go.blen d), d)) (writes_of cs).

(** The body bytes in all the messages a sequence of receives brings. *)
Fixpoint offered_bytes (incoming : list recv) : Z :=
  match incoming with
  | [] => 0
  | RecvErr _ :: rest => offered_bytes rest
  | RecvMsg m :: rest => Go.blen (Data m) + offered_bytes rest
  end.

(** The byte counts of the well-formed acknowledgements among a
    sequence of actions, in order. *)
Fixpoint ack_sizes (acts : list action) : list Z :=
  match acts with
  | [] => []
  | AAck m :: rest =>
      match ack_size m with
      | Some n => n :: ack_sizes rest
      | None => ack_sizes rest
      end
  | _ :: rest => ack_sizes rest
  end.

(** Three chunks of three bytes, the first two acknowledged. *)
Definition three_chunks_two_acked : list action :=
  [ACall Sample.abc Sample.env; ACall Sample.abc Sample.env;
   AAck (Sample.ack "_INBOX.x.3"); ACall Sample.abc Sample.env;
   AAck (Sample.ack "_INBOX.x.3")].

End Transfer.

(** * Properties *)

Example split_ack : Go.Split "_INBOX.abc.1024" "."%char = ["_INBOX"; "abc"; "1024"].
Proof. reflexivity. Qed.
Example split_empty : Go.Split EmptyString "."%char = [EmptyString].
Proof. reflexivity. Qed.
Example atoi_ok : Go.Atoi "1048576" = Some 1048576.
Proof. reflexivity. Qed.
Example atoi_neg : Go.Atoi "-5" = Some (-5).
Proof. reflexivity. Qed.
Example atoi_bad : Go.Atoi "12a" = None /\ Go.Atoi EmptyString = None /\ Go.Atoi "-" = None.
Proof. repeat split; reflexivity. Qed.
Example atoi_range : Go.Atoi "9223372036854775808" = None
  /\ Go.Atoi "9223372036854775807" = Some Go.int_max
  /\ Go.Atoi "-9223372036854775808" = Some Go.int_min.
Proof. repeat split; vm_compute; reflexivity. Qed.
Example fmt_d_ex : Go.fmt_d 1048576 = "1048576" /\ Go.fmt_d 0 = "0" /\ Go.fmt_d (-42) = "-42"
  /\ Go.fmt_d 9 = "9" /\ Go.fmt_d 10 = "10" /\ Go.fmt_d 99 = "99" /\ Go.fmt_d 100 = "100".
Proof. repeat split; vm_compute; reflexivity. Qed.

Example runes_ascii : Go.runes "hi!" = [104; 105; 33].
Proof. reflexivity. Qed.
(** "é" (C3 A9), "€" (E2 82 AC), U+1F600 (F0 9F 98 80). *)
Example runes_multi :
  Go.runes (String "195" (String "169" (String "226" (String "130" (String "172"
           (String "240" (String "159" (String "152" (String "128" EmptyString)))))))))
  = [0xE9; 0x20AC; 0x1F600].
Proof. vm_compute. reflexivity. Qed.
(** A lone continuation byte, an overlong encoding of "/" (C0 AF), a
    truncated three-byte sequence (E2 82) and a surrogate (ED A0 80). *)
Example runes_invalid :
  Go.runes (String "128" (String "192" (String "175" (String "226" (String "130"
           (String "237" (String "160" (String "128" EmptyString))))))))
  = repeat Go.RuneError 8.
Proof. vm_compute. reflexivity. Qed.

Example quote_plain : Go.Quote IsPrintASCII "404 Not Found"
  = String Go.dquote ("404 Not Found" +:+ String Go.dquote EmptyString).
Proof. vm_compute. reflexivity. Qed.
Example quote_escapes :
  Go.Quote IsPrintASCII (String "009" (String Go.dquote (String "000" (String "255" EmptyString))))
  = String Go.dquote (String Go.backslash ("t" +:+ String Go.backslash (String Go.dquote
      (String Go.backslash ("x00" +:+ String Go.backslash ("xff" +:+ String Go.dquote EmptyString)))))).
Proof. vm_compute. reflexivity. Qed.

(** A reply [200 OK] with [Content-Length: 11] and the single chunk
    [hello world]: the text is printed, nothing is written to a file, the
    chunk is acknowledged. *)
Example requestor_prints_text :
  Client.run IsPrintASCII false EmptyString None
    (Nats.RecvMsg (Sample.header_reply "200 OK" (Some "11")))
    [Nats.RecvMsg (Sample.chunk (Go.bytes_of_string "hello world") 11)]
  = Client.Done 11
      {| Client.logged := [String "010" "hello world"]; Client.written := [];
         Client.acked := ["_INBOX.x.11"]; Client.body_reads := 1 |}.
Proof. vm_compute. reflexivity. Qed.

(** [Content-Length: 5000000], but only three bytes arrive. *)
Example requestor_short_body :
  Client.run IsPrintASCII false EmptyString None
    (Nats.RecvMsg (Sample.header_reply "200 OK" (Some "5000000")))
    [Nats.RecvMsg (Sample.chunk Sample.abc 3)]
  = Client.Done 3
      {| Client.logged := [String "010" "abc"]; Client.written := [];
         Client.acked := ["_INBOX.x.3"]; Client.body_reads := 2 |}.
Proof. vm_compute. reflexivity. Qed.

(** With an output file the same chunks go to the file, binary or not. *)
Example requestor_writes_file :
  Client.run IsPrintASCII false "out.bin" None
    (Nats.RecvMsg (Sample.header_reply "200 OK" (Some "4")))
    [Nats.RecvMsg (Sample.chunk ["000"%byte; "a"%byte] 2);
     Nats.RecvMsg (Sample.chunk ["000"%byte; "b"%byte] 2);
     Nats.RecvMsg (Sample.chunk ["000"%byte; "c"%byte] 2)]
  = Client.Done 4
      {| Client.logged := [];
         Client.written := [["000"%byte; "a"%byte]; ["000"%byte; "b"%byte]];
         Client.acked := ["_INBOX.x.2"; "_INBOX.x.2"]; Client.body_reads := 2 |}.
Proof. vm_compute. reflexivity. Qed.

(** A request served the way [http.ServeFile] does it: headers, status,
    one chunk; then the unsubscribe. *)
Example serve_one_chunk :
  exists w tr,
    Server.serve StatusTextExcerpt (Nats.mkMsg "foo" "_INBOX.r" ∅ [])
      [Server.CHeaderSet "Content-Length" "3"; Server.CWriteHeader 200;
       Server.CWrite Sample.abc Sample.env] = Server.Ok tt w tr
    /\ Server.pending w = 3
    /\ option_map (fun m => (Nats.Get (Nats.Hdr m) "Status",
                             Nats.Get (Nats.Hdr m) "Content-Length"))
                  (Server.hdr w) = Some ("200 OK", "3")
    /\ List.length (Server.header_messages tr) = 1%nat
    /\ Server.chunks_sent tr = [Sample.abc].
Proof. eexists _, _. split; [vm_compute; reflexivity|]. repeat split. Qed.

(** ** Facts about the Go operations *)

Lemma wrap_int_id (z : Z) : Go.in_int z -> Go.wrap_int z = z.
Proof.
  unfold Go.in_int, Go.int_min, Go.int_max, Go.wrap_int. intros H.
  rewrite Z.mod_small; lia.
Qed.

Lemma wrap_int_range (z : Z) : Go.in_int (Go.wrap_int z).
Proof.
  unfold Go.in_int, Go.int_min, Go.int_max, Go.wrap_int.
  pose proof (Z.mod_pos_bound (z + 2 ^ 63) (2 ^ 64) ltac:(lia)). lia.
Qed.

Lemma string_of_bytes_cons (b : byte) (l : list byte) :
  Go.string_of_bytes (b :: l) = String (ascii_of_byte b) (Go.string_of_bytes l).
Proof. reflexivity. Qed.

Lemma len_string_of_bytes (l : list byte) :
  String.length (Go.string_of_bytes l) = List.length l.
Proof.
  induction l as [|b l IH]; [reflexivity|].
  rewrite string_of_bytes_cons. simpl. now rewrite IH.
Qed.

Lemma slice_to_string_of_bytes (n : nat) (l : list byte) :
  Go.slice_to n (Go.string_of_bytes l) = Go.string_of_bytes (take n l).
Proof.
  revert l; induction n as [|n IH]; intros [|b l]; try reflexivity.
  rewrite string_of_bytes_cons. simpl. rewrite IH. reflexivity.
Qed.

Lemma Split_nonempty (s : string) (sep : ascii) : Go.Split s sep <> [].
Proof.
  destruct s as [|c r]; simpl; [discriminate|].
  destruct (Ascii.eqb c sep); [discriminate|].
  destruct (Go.Split r sep); discriminate.
Qed.

(** ** The classifier *)

Section ClassifierFacts.
Variable IsPrint : Z -> bool.

(** The loop of [isPrintable] tests exactly the runes a [range] visits. *)
Lemma all_printable_runes (s : string) : forall skip,
  Client.all_printable IsPrint skip s = forallb IsPrint (Go.runes_from skip s).
Proof.
  induction s as [|c rest IH]; intros skip; [reflexivity|].
  destruct skip as [|k].
  - cbn [Client.all_printable Go.runes_from].
    destruct (Go.next_rune (String c rest)) as [r w].
    cbn [forallb]. rewrite IH. destruct (IsPrint r); reflexivity.
  - cbn [Client.all_printable Go.runes_from]. apply IH.
Qed.

(** The string the loop runs over is the payload cut to 32 bytes. *)
Lemma isPrintable_snippet (data : list byte) :
  Client.isPrintable IsPrint data
  = Client.all_printable IsPrint 0 (Go.string_of_bytes (take 32 data)).
Proof.
  unfold Client.isPrintable, Client.snippetSize, Go.len.
  rewrite len_string_of_bytes.
  destruct (Z.gtb_spec (Z.of_nat (List.length data)) 32) as [Hgt|Hle].
  - change (Z.to_nat 32) with 32%nat. now rewrite slice_to_string_of_bytes.
  - rewrite take_ge by (change (length data) with (List.length data); lia). reflexivity.
Qed.

End ClassifierFacts.

(** C2. [isPrintable] returns true exactly when every rune that Go decodes
    from the first 32 bytes of the payload satisfies [unicode.IsPrint], and
    its result on a payload is its result on the first 32 bytes of that
    payload: what comes after them does not matter. *)
Theorem C2_isPrintable_first_32_bytes (IsPrint : Z -> bool) (data : list byte) :
  (Client.isPrintable IsPrint data = true
   <-> Forall (fun r => IsPrint r = true)
              (Go.runes (Go.string_of_bytes (take 32 data))))
  /\ Client.isPrintable IsPrint data = Client.isPrintable IsPrint (take 32 data).
Proof.
  split.
  - rewrite isPrintable_snippet, all_printable_runes.
    unfold Go.runes. rewrite forallb_forall, List.Forall_forall. reflexivity.
  - rewrite (isPrintable_snippet IsPrint (take 32 data)), take_take.
    apply isPrintable_snippet.
Qed.

(** ** Decimal numbers: [%d] and [strconv.Atoi] agree *)

Lemma digit_char_spec (d : Z) : 0 <= d < 10 ->
  Go.is_digit (Go.digit_char d) = true /\ Go.byteZ (Go.digit_char d) - 48 = d.
Proof.
  intros H.
  assert (d = 0 \/ d = 1 \/ d = 2 \/ d = 3 \/ d = 4 \/ d = 5 \/ d = 6 \/ d = 7
          \/ d = 8 \/ d = 9) as Hd by lia.
  repeat (destruct Hd as [->|Hd]; [split; reflexivity|]). subst d. split; reflexivity.
Qed.

Lemma parse_digit_char (d a : Z) (rest : string) : 0 <= d < 10 ->
  Go.parse_digits a (String (Go.digit_char d) rest) = Go.parse_digits (a * 10 + d) rest.
Proof.
  intros H. destruct (digit_char_spec d H) as [Hdig Hval].
  cbn [Go.parse_digits]. rewrite Hdig, Hval. reflexivity.
Qed.

(** Reading the digits [fmt_digits] writes for [n] appends [n] to the
    number read so far. *)
Lemma parse_fmt_digits (fuel : nat) : forall (n : Z) (acc : string),
  0 <= n < 2 ^ (Z.of_nat fuel + 1) ->
  exists k : Z, 0 <= k /\ forall a : Z,
    Go.parse_digits a (Go.fmt_digits fuel n acc) = Go.parse_digits (a * 10 ^ k + n) acc.
Proof.
  induction fuel as [|f IH]; intros n acc Hn.
  - exists 1. split; [lia|]. intros a. cbn [Go.fmt_digits].
    change (2 ^ (Z.of_nat 0 + 1)) with 2 in Hn.
    rewrite Z.mod_small by lia. rewrite parse_digit_char by lia.
    f_equal.
  - cbn [Go.fmt_digits]. destruct (Z.ltb_spec n 10) as [Hlt|Hge].
    + exists 1. split; [lia|]. intros a.
      rewrite Z.mod_small by lia. rewrite parse_digit_char by lia. f_equal.
    + assert (0 <= n / 10 < 2 ^ (Z.of_nat f + 1)) as Hq.
      { split; [apply Z.div_pos; lia|].
        apply Z.div_lt_upper_bound; [lia|].
        replace (Z.of_nat (S f) + 1) with (Z.succ (Z.of_nat f + 1)) in Hn by lia.
        rewrite Z.pow_succ_r in Hn by lia. lia. }
      destruct (IH (n / 10) (String (Go.digit_char (n mod 10)) acc) Hq) as (k & Hk & Hp).
      exists (k + 1). split; [lia|]. intros a. rewrite Hp.
      rewrite parse_digit_char by (apply Z.mod_pos_bound; lia).
      f_equal. rewrite Z.pow_add_r by lia.
      pose proof (Z.div_mod n 10 ltac:(lia)). lia.
Qed.

Lemma fmt_digits_head (fuel : nat) : forall (n : Z) (acc : string),
  0 <= n ->
  exists c r, Go.fmt_digits fuel n acc = String c r /\ Go.is_digit c = true.
Proof.
  induction fuel as [|f IH]; intros n acc Hn; cbn [Go.fmt_digits].
  - eexists _, _. split; [reflexivity|].
    apply digit_char_spec, Z.mod_pos_bound; lia.
  - destruct (n <? 10).
    + eexists _, _. split; [reflexivity|].
      apply digit_char_spec, Z.mod_pos_bound; lia.
    + apply IH, Z.div_pos; lia.
Qed.

Lemma log2_fuel (n : Z) : 0 <= n -> 0 <= n < 2 ^ (Z.of_nat (Z.to_nat (Z.log2 n)) + 1).
Proof.
  intros Hn. rewrite Z2Nat.id by apply Z.log2_nonneg.
  destruct (Z.eq_dec n 0) as [->|Hnz]; [simpl; lia|].
  pose proof (Z.log2_spec n ltac:(lia)) as [_ H].
  replace (Z.log2 n + 1) with (Z.succ (Z.log2 n)) by lia. lia.
Qed.

Lemma parse_unsigned_fmt_digits (n : Z) : 0 <= n ->
  Go.parse_unsigned (Go.fmt_digits (Z.to_nat (Z.log2 n)) n EmptyString) = Some n.
Proof.
  intros Hn.
  destruct (fmt_digits_head (Z.to_nat (Z.log2 n)) n EmptyString Hn) as (c & r & E & _).
  destruct (parse_fmt_digits _ n EmptyString (log2_fuel n Hn)) as (k & _ & Hp).
  unfold Go.parse_unsigned. rewrite E. rewrite <- E, Hp. reflexivity.
Qed.

Lemma digit_not_sign (c : ascii) : Go.is_digit c = true ->
  Ascii.eqb c "-" = false /\ Ascii.eqb c "+" = false.
Proof.
  intros H. unfold Go.is_digit in H. apply andb_prop in H as [H1 H2].
  apply Z.leb_le in H1.
  split; apply Ascii.eqb_neq; intros ->; vm_compute in H1; congruence.
Qed.

(** What [%d] prints for an [int], [strconv.Atoi] reads back. *)
Lemma Atoi_fmt_d (n : Z) : Go.in_int n -> Go.Atoi (Go.fmt_d n) = Some n.
Proof.
  intros Hr. unfold Go.fmt_d.
  assert (((Go.int_min <=? n) && (n <=? Go.int_max)) = true) as Hb.
  { destruct Hr. apply andb_true_intro. split; apply Z.leb_le; lia. }
  destruct (Z.ltb_spec n 0) as [Hneg|Hpos].
  - cbn [Go.Atoi]. change (Ascii.eqb "-" "-") with true. cbv iota.
    rewrite parse_unsigned_fmt_digits by lia. cbn [option_map].
    rewrite Z.opp_involutive, Hb. reflexivity.
  - destruct (fmt_digits_head (Z.to_nat (Z.log2 n)) n EmptyString Hpos) as (c & r & E & Hd).
    pose proof (parse_unsigned_fmt_digits n Hpos) as Hp. rewrite E in Hp |- *.
    destruct (digit_not_sign c Hd) as [H1 H2].
    cbn [Go.Atoi]. rewrite H1, H2, Hp, Hb. reflexivity.
Qed.

Lemma fmt_digits_no_dot (fuel : nat) : forall (n : Z) (acc : string),
  Go.ContainsByte acc "."%char = false ->
  Go.ContainsByte (Go.fmt_digits fuel n acc) "."%char = false.
Proof.
  assert (forall n acc, Go.ContainsByte acc "."%char = false ->
            Go.ContainsByte (String (Go.digit_char (n mod 10)) acc) "."%char = false) as Hone.
  { intros n acc Hacc. cbn [Go.ContainsByte]. rewrite Hacc, orb_false_r.
    destruct (digit_char_spec (n mod 10) (Z.mod_pos_bound n 10 ltac:(lia))) as [Hd _].
    apply Ascii.eqb_neq. intros E. rewrite E in Hd. discriminate Hd. }
  induction fuel as [|f IH]; intros n acc Hacc; cbn [Go.fmt_digits].
  - now apply Hone.
  - destruct (n <? 10); [now apply Hone|]. apply IH. now apply Hone.
Qed.

Lemma fmt_d_no_dot (n : Z) : Go.ContainsByte (Go.fmt_d n) "."%char = false.
Proof.
  unfold Go.fmt_d. destruct (n <? 0).
  - cbn [Go.ContainsByte]. rewrite fmt_digits_no_dot by reflexivity. reflexivity.
  - now apply fmt_digits_no_dot.
Qed.

Lemma Split_no_sep (t : string) (sep : ascii) :
  Go.ContainsByte t sep = false -> Go.Split t sep = [t].
Proof.
  induction t as [|c r IH]; [reflexivity|].
  cbn [Go.ContainsByte Go.Split]. intros H. apply orb_false_elim in H as [Hc Hr].
  rewrite Hc, (IH Hr). reflexivity.
Qed.

(** The last token of [pre.t] is [t], and there are at least two tokens. *)
Lemma Split_app_last (pre t : string) (sep : ascii) :
  Go.ContainsByte t sep = false ->
  exists toks, toks <> [] /\ Go.Split (pre +:+ String sep t) sep = (toks ++ [t])%list.
Proof.
  intros Ht. induction pre as [|c pre IH].
  - exists [EmptyString]. split; [discriminate|].
    change (EmptyString +:+ String sep t) with (String sep t).
    cbn [Go.Split]. rewrite Ascii.eqb_refl, (Split_no_sep t sep Ht). reflexivity.
  - destruct IH as (toks & Hne & E).
    change (String c pre +:+ String sep t) with (String c (pre +:+ String sep t)).
    cbn [Go.Split]. rewrite E.
    destruct (Ascii.eqb c sep).
    + exists (EmptyString :: toks). split; [discriminate|reflexivity].
    + destruct toks as [|t0 ts]; [congruence|].
      exists (String c t0 :: ts). split; [discriminate|reflexivity].
Qed.

(** ** The response writer *)

Ltac run_m :=
  cbv beta iota zeta delta
    [Server.processFlowAck Server.write_enter Server.write_wait
     Server.write_publish Server.Write Server.WriteHeader Server.Header
     Server.HeaderSet Server.close Server.store_pending Server.Lock Server.Unlock
     Server.bind Server.read Server.modify Server.emit Server.ret Server.panic
     Server.mu Server.reply Server.hdr Server.inbox Server.asub Server.acks
     Server.index Server.pending
     Server.set_mu Server.set_hdr Server.set_inbox Server.set_asub Server.set_acks
     Server.set_pending Server.new_inbox Server.sub_ok Server.pub_err
     Server.sub_subject Server.sub_active app].

Section WriterFacts.
Import Server.
Variable IsPrint : Z -> bool.
Variable StatusText : Z -> string.

Lemma processFlowAck_short (m : Nats.Msg) (w : nrw) :
  (List.length (Go.Split (Nats.Subject m) ".") < 2)%nat ->
  processFlowAck IsPrint m w = bad_ack IsPrint m w.
Proof.
  intros H. unfold processFlowAck.
  destruct (Z.ltb_spec (Z.of_nat (List.length (Go.Split (Nats.Subject m) "."))) 2); [|lia].
  reflexivity.
Qed.

Lemma processFlowAck_not_number (m : Nats.Msg) (w : nrw) :
  Go.Atoi (List.last (Go.Split (Nats.Subject m) ".") EmptyString) = None ->
  processFlowAck IsPrint m w = bad_ack IsPrint m w.
Proof.
  intros H. unfold processFlowAck. rewrite H.
  destruct (_ <? 2); reflexivity.
Qed.

Lemma processFlowAck_number (m : Nats.Msg) (w : nrw) (n : Z) :
  mu w = false ->
  (2 <= List.length (Go.Split (Nats.Subject m) "."))%nat ->
  Go.Atoi (List.last (Go.Split (Nats.Subject m) ".") EmptyString) = Some n ->
  processFlowAck IsPrint m w = good_ack n w.
Proof.
  intros Hmu Hlen H. unfold processFlowAck. rewrite H.
  destruct (Z.ltb_spec (Z.of_nat (List.length (Go.Split (Nats.Subject m) "."))) 2); [lia|].
  destruct w as [m0 r h i a c ix p]. cbn [mu] in Hmu. subst m0.
  unfold good_ack. run_m. reflexivity.
Qed.

(** [processFlowAck] in terms of [ack_size]. *)
Lemma processFlowAck_ack_size (m : Nats.Msg) (w : nrw) :
  mu w = false ->
  processFlowAck IsPrint m w
  = match ack_size m with Some n => good_ack n w | None => bad_ack IsPrint m w end.
Proof.
  intros Hmu. unfold ack_size.
  destruct (Nat.leb_spec 2 (List.length (Go.Split (Nats.Subject m) "."))) as [Hge|Hlt].
  - destruct (Go.Atoi _) as [n|] eqn:E.
    + now apply processFlowAck_number.
    + now apply processFlowAck_not_number.
  - now apply processFlowAck_short.
Qed.

End WriterFacts.

(** C5. [processFlowAck] on a free mutex.  When the subject has at least
    two tokens and its last token reads as the integer [n], the counter
    becomes [pending - n] (in Go's [int] arithmetic) between [Lock] and
    [Unlock], and nothing else changes; this is the case for every subject
    [pre.N] with [N] the decimal text of an [int].  When the subject has
    fewer than two tokens, or its last token is not read as an integer, one
    line is logged and the writer is left as it was.  In every case the
    callback returns normally. *)
Theorem C5_processFlowAck (IsPrint : Z -> bool) (m : Nats.Msg) (w : Server.nrw) :
  Server.mu w = false ->
  let tokens := Go.Split (Nats.Subject m) "." in
  let subtracted (n : Z) :=
    Server.Ok tt (Server.set_pending (Go.wrap_int (Server.pending w - n)) w)
      [Server.ELock; Server.EStorePending (Go.wrap_int (Server.pending w - n));
       Server.EUnlock] in
  let ignored :=
    Server.Ok tt w
      [Server.ELog ("Bad ack subject " +:+ Go.Quote IsPrint (Nats.Subject m))] in
  (forall n, (2 <= List.length tokens)%nat ->
             Go.Atoi (List.last tokens EmptyString) = Some n ->
             Server.processFlowAck IsPrint m w = subtracted n
             /\ (Go.in_int (Server.pending w - n) ->
                 Go.wrap_int (Server.pending w - n) = Server.pending w - n))
  /\ (forall pre n, Go.in_int n -> Nats.Subject m = pre +:+ "." +:+ Go.fmt_d n ->
                    Server.processFlowAck IsPrint m w = subtracted n)
  /\ ((List.length tokens < 2)%nat -> Server.processFlowAck IsPrint m w = ignored)
  /\ (Go.Atoi (List.last tokens EmptyString) = None ->
      Server.processFlowAck IsPrint m w = ignored)
  /\ (exists w' tr, Server.processFlowAck IsPrint m w = Server.Ok tt w' tr).
Proof.
  intros Hmu tokens subtracted ignored. repeat split.
  - now apply processFlowAck_number.
  - apply wrap_int_id.
  - intros pre n Hn Hs.
    destruct (Split_app_last pre (Go.fmt_d n) "." (fmt_d_no_dot n)) as (toks & Hne & E).
    apply processFlowAck_number; [assumption| |]; rewrite Hs;
      change (pre +:+ "." +:+ Go.fmt_d n) with (pre +:+ String "."%char (Go.fmt_d n));
      rewrite E.
    + rewrite List.length_app. destruct toks; [congruence|]. simpl. lia.
    + rewrite List.last_last. now apply Atoi_fmt_d.
  - now apply processFlowAck_short.
  - now apply processFlowAck_not_number.
  - rewrite (processFlowAck_ack_size IsPrint m w Hmu).
    destruct (Server.ack_size m); eexists _, _; reflexivity.
Qed.

Lemma C5_processFlowAck_witness :
  Server.processFlowAck IsPrintASCII (Sample.ack "_INBOX.x.1024") (Sample.streaming 4096)
  = Server.Ok tt (Sample.streaming 3072)
      [Server.ELock; Server.EStorePending 3072; Server.EUnlock]
  /\ Server.processFlowAck IsPrintASCII (Sample.ack "_INBOX.x.oops") (Sample.streaming 4096)
     = Server.Ok tt (Sample.streaming 4096)
         [Server.ELog ("Bad ack subject " +:+ Go.Quote IsPrintASCII "_INBOX.x.oops")].
Proof.
  split.
  - exact (proj1 (proj1 (C5_processFlowAck IsPrintASCII (Sample.ack "_INBOX.x.1024")
                           (Sample.streaming 4096) eq_refl)
                    1024 ltac:(vm_compute; lia) eq_refl)).
  - exact (proj1 (proj2 (proj2 (proj2 (C5_processFlowAck IsPrintASCII
             (Sample.ack "_INBOX.x.oops") (Sample.streaming 4096) eq_refl))))
             eq_refl).
Defined.

(** [Write] once the gate exists and the mutex is free. *)
Lemma Write_streaming_eq (data : list byte) (env : Server.WriteEnv)
    (w : Server.nrw) (k : nat) :
  Server.mu w = false ->
  Server.acks w = Some k ->
  let held_up := Server.pending w >? Server.defaultWindowSize in
  let wait :=
    if held_up
    then [Server.EUnlock;
          Server.ESelect (match k with O => false | S _ => true end) Server.Millisecond;
          Server.ELock]
    else [] in
  let w1 := if held_up then Server.set_acks (Some (Nat.pred k)) w else w in
  let ackReply := Server.inbox w +:+ "." +:+ Go.fmt_d (Go.blen data) in
  let sum := Go.wrap_int (Server.pending w + Go.blen data) in
  Server.Write data env w
  = match Server.pub_err env with
    | None =>
        Server.Ok (Go.blen data, None) (Server.set_pending sum w1)
          ([Server.ELock] ++ wait ++
           [Server.EPublishRequest (Server.reply w) ackReply data None;
            Server.EStorePending sum; Server.EUnlock])%list
    | Some err =>
        Server.Ok (0, Some err) w1
          ([Server.ELock] ++ wait ++
           [Server.EPublishRequest (Server.reply w) ackReply data (Some err);
            Server.EUnlock])%list
    end.
Proof.
  intros Hmu Hacks. cbv zeta.
  destruct w as [m0 r h i a c ix p]. cbn [Server.mu Server.acks] in Hmu, Hacks. subst m0 c.
  run_m. destruct (p >? Server.defaultWindowSize); run_m;
    destruct k as [|k']; run_m; destruct env as [ni so [e|]]; run_m; reflexivity.
Qed.

(** C3. [Write] in the streaming state (gate created, mutex free).  When
    the counter is above [defaultWindowSize], 32 MiB, the mutex is released
    for one [select] between the gate and a timer of [time.Millisecond],
    and whichever of the two ends it the write goes on; otherwise there is
    no wait.  Then [data] is published on [w.reply] with the reply address
    [inbox.len(data)].  Without a publish error the counter grows by
    [len(data)] (in Go's [int] arithmetic) after the publish and
    [len(data), nil] is returned; with a publish error that error is
    returned with count 0 and the counter keeps its value. *)
Theorem C3_Write_streaming (data : list byte) (env : Server.WriteEnv)
    (w : Server.nrw) (k : nat) :
  Server.mu w = false ->
  Server.acks w = Some k ->
  let held_up := Server.pending w >? Server.defaultWindowSize in
  let wait :=
    if held_up
    then [Server.EUnlock;
          Server.ESelect (match k with O => false | S _ => true end) Server.Millisecond;
          Server.ELock]
    else [] in
  let w1 := if held_up then Server.set_acks (Some (Nat.pred k)) w else w in
  let ackReply := Server.inbox w +:+ "." +:+ Go.fmt_d (Go.blen data) in
  let sum := Go.wrap_int (Server.pending w + Go.blen data) in
  Server.defaultWindowSize = 33554432
  /\ Server.Millisecond = 1000000
  /\ (Go.in_int (Server.pending w + Go.blen data) -> sum = Server.pending w + Go.blen data)
  /\ Server.Write data env w
     = match Server.pub_err env with
       | None =>
           Server.Ok (Go.blen data, None) (Server.set_pending sum w1)
             ([Server.ELock] ++ wait ++
              [Server.EPublishRequest (Server.reply w) ackReply data None;
               Server.EStorePending sum; Server.EUnlock])%list
       | Some err =>
           Server.Ok (0, Some err) w1
             ([Server.ELock] ++ wait ++
              [Server.EPublishRequest (Server.reply w) ackReply data (Some err);
               Server.EUnlock])%list
       end.
Proof.
  intros Hmu Hacks. cbv zeta.
  split; [reflexivity|]. split; [reflexivity|]. split; [apply wrap_int_id|].
  exact (Write_streaming_eq data env w k Hmu Hacks).
Qed.

Lemma C3_Write_streaming_witness :
  Server.Write Sample.abc Sample.env (Sample.streaming 33554433)
  = Server.Ok (3, None) (Sample.streaming 33554436)
      [Server.ELock; Server.EUnlock; Server.ESelect false 1000000; Server.ELock;
       Server.EPublishRequest "_INBOX.r" "_INBOX.x.3" Sample.abc None;
       Server.EStorePending 33554436; Server.EUnlock]
  /\ Server.Write Sample.abc Sample.env_fail (Sample.streaming 10)
     = Server.Ok (0, Some "nats: connection closed") (Sample.streaming 10)
         [Server.ELock;
          Server.EPublishRequest "_INBOX.r" "_INBOX.x.3" Sample.abc
            (Some "nats: connection closed");
          Server.EUnlock].
Proof.
  split.
  - exact (proj2 (proj2 (proj2 (C3_Write_streaming Sample.abc Sample.env
             (Sample.streaming 33554433) 0 eq_refl eq_refl)))).
  - exact (proj2 (proj2 (proj2 (C3_Write_streaming Sample.abc Sample.env_fail
             (Sample.streaming 10) 0 eq_refl eq_refl)))).
Defined.

(** Case analysis over what a method tests, until its result is a value. *)
Ltac split_tests :=
  repeat (run_m;
          match goal with
          | |- context [if ?b then _ else _] => destruct b eqn:?
          | |- context [match ?x with Some _ => _ | None => _ end] => destruct x eqn:?
          | |- context [match ?x with O => _ | S _ => _ end] => destruct x eqn:?
          end).

Section WriterFrames.
Import Server.
Variable IsPrint : Z -> bool.
Variable StatusText : Z -> string.

(** Neither [Write] nor [processFlowAck] touches [w.hdr]. *)
Lemma Write_keeps_hdr (data : list byte) (env : WriteEnv) (w w' : nrw) r tr :
  Write data env w = Ok r w' tr -> hdr w' = hdr w.
Proof.
  destruct w as [m0 rp h i a c ix p], env as [ni so pe].
  split_tests; intros H; inversion H; reflexivity.
Qed.

Lemma processFlowAck_keeps (m : Nats.Msg) (w w' : nrw) tr :
  processFlowAck IsPrint m w = Ok tt w' tr ->
  hdr w' = hdr w /\ acks w' = acks w /\ asub w' = asub w /\ inbox w' = inbox w
  /\ forallb by_timeout tr = true /\ published tr = [].
Proof.
  destruct w as [m0 rp h i a c ix p].
  split_tests; intros H; inversion H; repeat split; reflexivity.
Qed.

Lemma WriteHeader_some (code : Z) (w : nrw) (m : Nats.Msg) :
  mu w = false -> hdr w = Some m ->
  let m' := Nats.with_header m (Nats.Add (Nats.Hdr m) "Status" (status_line StatusText code)) in
  WriteHeader StatusText code w
  = Ok tt (set_hdr (Some m') w) [ELock; EPublishMsg m'; EUnlock].
Proof.
  destruct w as [m0 rp h i a c ix p]. cbn [mu hdr]. intros -> ->. reflexivity.
Qed.

Lemma WriteHeader_none (code : Z) (w : nrw) :
  mu w = false -> hdr w = None ->
  WriteHeader StatusText code w = Panic nil_deref (set_mu true w) [ELock].
Proof.
  destruct w as [m0 rp h i a c ix p]. cbn [mu hdr]. intros -> ->. reflexivity.
Qed.

End WriterFrames.

(** C10. On a writer whose header message has not been allocated,
    [WriteHeader] panics with a nil dereference right after taking the
    mutex, and publishes nothing.  The writer of a new request is in that
    state; [Write] and [processFlowAck] leave it there; a call of
    [Header] first allocates the message, after which [WriteHeader]
    returns and publishes it. *)
Theorem C10_WriteHeader_before_Header (IsPrint : Z -> bool) (StatusText : Z -> string)
    (w : Server.nrw) (code : Z) :
  Server.mu w = false ->
  Server.hdr w = None ->
  Server.WriteHeader StatusText code w
    = Server.Panic Server.nil_deref (Server.set_mu true w) [Server.ELock]
  /\ (forall r, Server.hdr (Server.new_nrw r) = None)
  /\ (forall data env r w' tr,
        Server.Write data env w = Server.Ok r w' tr -> Server.hdr w' = None)
  /\ (forall m w' tr,
        Server.processFlowAck IsPrint m w = Server.Ok tt w' tr -> Server.hdr w' = None)
  /\ (let m' := Nats.with_header (Nats.NewMsg (Server.reply w))
                  (Nats.Add ∅ "Status" (Server.status_line StatusText code)) in
      Server.bind Server.Header (fun _ => Server.WriteHeader StatusText code) w
      = Server.Ok tt (Server.set_hdr (Some m') w)
          [Server.ELock; Server.EPublishMsg m'; Server.EUnlock]).
Proof.
  intros Hmu Hh. repeat split.
  - now apply WriteHeader_none.
  - intros data env r w' tr H. rewrite <- Hh. exact (Write_keeps_hdr data env w w' r tr H).
  - intros m w' tr H. rewrite <- Hh. exact (proj1 (processFlowAck_keeps IsPrint m w w' tr H)).
  - destruct w as [m0 rp h i a c ix p]. cbn [Server.mu Server.hdr] in Hmu, Hh.
    subst m0 h. reflexivity.
Qed.

Lemma C10_WriteHeader_before_Header_witness :
  Server.WriteHeader StatusTextExcerpt 200 (Server.new_nrw "_INBOX.r")
  = Server.Panic Server.nil_deref (Server.set_mu true (Server.new_nrw "_INBOX.r"))
      [Server.ELock].
Proof.
  exact (proj1 (C10_WriteHeader_before_Header IsPrintASCII StatusTextExcerpt
                  (Server.new_nrw "_INBOX.r") 200 eq_refl eq_refl)).
Defined.

(** ** [WriteHeader] called more than once *)

Lemma Add_lookup (h : Nats.Header) (key value : string) :
  default [] (Nats.Add h key value !! key) = (default [] (h !! key) ++ [value])%list.
Proof. unfold Nats.Add. rewrite lookup_insert_eq. reflexivity. Qed.

(** C6, the claim fails: on the writer of a new request, after the handler
    has set a header and called [WriteHeader] once (one header message
    published), a second [WriteHeader] publishes a header message again and
    changes the writer: the message now carries two [Status] values. *)
Lemma C6_WriteHeader_twice_counterexample :
  exists w1 tr1 w2 m2,
    Server.handler StatusTextExcerpt
      [Server.CHeaderSet "Content-Length" "3"; Server.CWriteHeader 200]
      (Server.new_nrw "_INBOX.r") = Server.Ok tt w1 tr1
    /\ List.length (Server.header_messages tr1) = 1%nat
    /\ Server.WriteHeader StatusTextExcerpt 200 w1
       = Server.Ok tt w2 [Server.ELock; Server.EPublishMsg m2; Server.EUnlock]
    /\ Nats.Hdr m2 !! "Status" = Some ["200 OK"; "200 OK"]
    /\ w2 <> w1.
Proof.
  eexists _, _, _, _. split; [vm_compute; reflexivity|].
  split; [reflexivity|]. split; [vm_compute; reflexivity|].
  split; [vm_compute; reflexivity|].
  intros E.
  apply (f_equal (fun w => option_map (fun m => Nats.Get (Nats.Hdr m) "Content-Length"
                                                :: default [] (Nats.Hdr m !! "Status"))
                                      (Server.hdr w))) in E.
  vm_compute in E. discriminate E.
Qed.

Lemma last_cons_default {A} (l : list A) : forall x d : A,
  List.last (x :: l) d = List.last l x.
Proof.
  induction l as [|y l IH]; intros x d; [reflexivity|].
  change (List.last (x :: y :: l) d) with (List.last (y :: l) d).
  now rewrite !IH.
Qed.

(** C6, as amended.  [WriteHeader] has no memory of earlier calls.  On a
    writer whose header message [m] is allocated, a row of calls does
    nothing but, for each call, take the mutex, publish a header message
    and release the mutex.  The message of the call number [k] (from 0) is
    [m] with the status lines of the calls up to and including that one
    appended to its [Status] values, and is otherwise [m]: same subject,
    reply and data, same values under every other key.  The writer ends
    with the last of these messages as its header message and is otherwise
    unchanged. *)
Theorem C6_WriteHeader_publishes_on_every_call (StatusText : Z -> string)
    (codes : list Z) (w : Server.nrw) (m : Nats.Msg) :
  Server.mu w = false ->
  Server.hdr w = Some m ->
  exists msgs,
    Server.handler StatusText (map Server.CWriteHeader codes) w
    = Server.Ok tt (Server.set_hdr (Some (List.last msgs m)) w)
        (flat_map (fun mk => [Server.ELock; Server.EPublishMsg mk; Server.EUnlock]) msgs)
    /\ List.length msgs = List.length codes
    /\ forall (k : nat) (mk : Nats.Msg),
         msgs !! k = Some mk ->
         Nats.Subject mk = Nats.Subject m
         /\ Nats.Reply mk = Nats.Reply m
         /\ Nats.Data mk = Nats.Data m
         /\ Nats.Hdr mk !! "Status"
            = Some (default [] (Nats.Hdr m !! "Status")
                    ++ map (Server.status_line StatusText) (take (S k) codes))%list
         /\ forall key, key <> "Status" -> Nats.Hdr mk !! key = Nats.Hdr m !! key.
Proof.
  revert w m. induction codes as [|code rest IH]; intros w m Hmu Hh.
  - exists []. cbn [map Server.handler List.last flat_map List.length]. unfold Server.ret.
    split; [|split; [reflexivity|intros k mk Hk; discriminate Hk]].
    f_equal. destruct w as [m0 rp h i a c ix p]. cbn [Server.hdr] in Hh. subst h. reflexivity.
  - set (m1 := Nats.with_header m
                 (Nats.Add (Nats.Hdr m) "Status" (Server.status_line StatusText code))).
    destruct (IH (Server.set_hdr (Some m1) w) m1) as (msgs & Hrun & Hlen & Hmsgs).
    { destruct w; exact Hmu. }
    { destruct w; reflexivity. }
    exists (m1 :: msgs). split; [|split].
    + cbn [map Server.handler Server.do_call]. unfold Server.bind at 1.
      rewrite (WriteHeader_some StatusText code w m Hmu Hh). fold m1. rewrite Hrun.
      cbn [flat_map app]. f_equal.
      rewrite last_cons_default.
      destruct w; reflexivity.
    + cbn [List.length]. now rewrite Hlen.
    + assert (Nats.Hdr m1 !! "Status"
              = Some (default [] (Nats.Hdr m !! "Status")
                      ++ [Server.status_line StatusText code])%list) as Hs1.
      { unfold m1, Nats.Add. cbn [Nats.with_header Nats.Hdr]. apply lookup_insert_eq. }
      assert (forall key, key <> "Status" -> Nats.Hdr m1 !! key = Nats.Hdr m !! key) as Ho1.
      { intros key Hk. unfold m1, Nats.Add. cbn [Nats.with_header Nats.Hdr].
        apply lookup_insert_ne. congruence. }
      intros [|k] mk Hk.
      * injection Hk as <-. repeat split; try reflexivity; [|exact Ho1].
        rewrite Hs1. cbn [take map]. rewrite take_0. reflexivity.
      * destruct (Hmsgs k mk Hk) as (H1 & H2 & H3 & H4 & H5).
        repeat split; try assumption.
        -- rewrite H4, Hs1. unfold default. cbn [from_option id take map].
           now rewrite <- app_assoc.
        -- intros key Hkey. rewrite (H5 key Hkey). exact (Ho1 key Hkey).
Qed.

Lemma C6_WriteHeader_publishes_on_every_call_witness :
  exists msgs,
    Server.handler StatusTextExcerpt (map Server.CWriteHeader [200; 404])
      (Server.set_hdr (Some (Nats.NewMsg "_INBOX.r")) (Server.new_nrw "_INBOX.r"))
    = Server.Ok tt
        (Server.set_hdr (Some (List.last msgs (Nats.NewMsg "_INBOX.r")))
           (Server.set_hdr (Some (Nats.NewMsg "_INBOX.r")) (Server.new_nrw "_INBOX.r")))
        (flat_map (fun mk => [Server.ELock; Server.EPublishMsg mk; Server.EUnlock]) msgs)
    /\ List.length msgs = List.length [200; 404]
    /\ forall (k : nat) (mk : Nats.Msg),
         msgs !! k = Some mk ->
         Nats.Subject mk = Nats.Subject (Nats.NewMsg "_INBOX.r")
         /\ Nats.Reply mk = Nats.Reply (Nats.NewMsg "_INBOX.r")
         /\ Nats.Data mk = Nats.Data (Nats.NewMsg "_INBOX.r")
         /\ Nats.Hdr mk !! "Status"
            = Some (default [] (Nats.Hdr (Nats.NewMsg "_INBOX.r") !! "Status")
                    ++ map (Server.status_line StatusTextExcerpt) (take (S k) [200; 404]))%list
         /\ forall key, key <> "Status"
                        -> Nats.Hdr mk !! key = Nats.Hdr (Nats.NewMsg "_INBOX.r") !! key.
Proof.
  exact (C6_WriteHeader_publishes_on_every_call StatusTextExcerpt [200; 404]
           (Server.set_hdr (Some (Nats.NewMsg "_INBOX.r")) (Server.new_nrw "_INBOX.r"))
           (Nats.NewMsg "_INBOX.r") eq_refl eq_refl).
Defined.

(** ** [Write] after the handler has returned *)

Lemma close_eq (w : Server.nrw) :
  Server.mu w = false ->
  Server.close w
  = Server.Ok tt
      (Server.set_asub
         (option_map (fun sb => Server.mkSub (Server.sub_subject sb) false) (Server.asub w)) w)
      [Server.ELock;
       Server.EUnsubscribe (from_option Server.sub_active false (Server.asub w));
       Server.EUnlock].
Proof.
  destruct w as [m0 r h i a c ix p]. cbn [Server.mu]. intros ->.
  destruct a as [sb|]; reflexivity.
Qed.

(** C7, the claim fails: a request whose handler wrote one chunk, then the
    end of its goroutine with the unsubscribe, then one more [Write]: the
    chunk is published and [3, nil] is returned. *)
Lemma C7_Write_after_close_counterexample :
  exists w1 tr1,
    Server.serve StatusTextExcerpt (Nats.mkMsg "foo" "_INBOX.r" ∅ [])
      [Server.CWrite Sample.abc Sample.env] = Server.Ok tt w1 tr1
    /\ Server.asub w1 = Some (Server.mkSub "_INBOX.x.*" false)
    /\ Server.Write Sample.abc Sample.env w1
       = Server.Ok (3, None) (Server.set_pending 6 w1)
           [Server.ELock;
            Server.EPublishRequest "_INBOX.r" "_INBOX.x.3" Sample.abc None;
            Server.EStorePending 6; Server.EUnlock].
Proof.
  eexists _, _. split; [vm_compute; reflexivity|].
  split; vm_compute; reflexivity.
Qed.

(** C7, as amended.  On a streaming writer the end of the goroutine only
    marks the ack subscription as unsubscribed; no closed state is kept.
    A later [Write] publishes its chunk with the usual reply address and,
    unless that publish fails, returns [len(data), nil] and adds
    [len(data)] to the counter; the only error it can return is the
    publish error. *)
Theorem C7_Write_after_close_still_publishes (data : list byte)
    (env : Server.WriteEnv) (w : Server.nrw) (k : nat) :
  Server.mu w = false ->
  Server.acks w = Some k ->
  exists wc trc w' tr,
    Server.close w = Server.Ok tt wc trc
    /\ (forall sb, Server.asub wc = Some sb -> Server.sub_active sb = false)
    /\ Server.Write data env wc
       = Server.Ok (match Server.pub_err env with
                    | None => (Go.blen data, None)
                    | Some err => (0, Some err)
                    end) w' tr
    /\ In (Server.EPublishRequest (Server.reply w)
             (Server.inbox w +:+ "." +:+ Go.fmt_d (Go.blen data)) data (Server.pub_err env)) tr
    /\ Server.pending w'
       = match Server.pub_err env with
         | None => Go.wrap_int (Server.pending w + Go.blen data)
         | Some _ => Server.pending w
         end.
Proof.
  intros Hmu Hacks.
  set (wc := Server.set_asub
               (option_map (fun sb => Server.mkSub (Server.sub_subject sb) false)
                           (Server.asub w)) w).
  assert (Server.mu wc = false) as Hmuc by (destruct w; exact Hmu).
  assert (Server.acks wc = Some k) as Hac by (destruct w; exact Hacks).
  assert (Server.pending wc = Server.pending w) as Hp by (destruct w; reflexivity).
  assert (Server.reply wc = Server.reply w) as Hr by (destruct w; reflexivity).
  assert (Server.inbox wc = Server.inbox w) as Hi by (destruct w; reflexivity).
  pose proof (Write_streaming_eq data env wc k Hmuc Hac) as HW. cbv zeta in HW.
  rewrite Hp, Hr, Hi in HW.
  assert (forall sb, Server.asub wc = Some sb -> Server.sub_active sb = false) as Hsub.
  { intros sb. unfold wc. destruct w as [m0 r h i a c ix p]. cbn.
    destruct a as [sb0|]; cbn; [|discriminate]. intros [= <-]. reflexivity. }
  destruct (Server.pub_err env) as [err|];
    (eexists wc, _, _, _; split; [apply close_eq, Hmu|]; split; [exact Hsub|];
     split; [exact HW|]; split;
     [ apply in_or_app; right; apply in_or_app; right; left; reflexivity
     | destruct (Server.pending w >? Server.defaultWindowSize); unfold wc; destruct w;
       reflexivity ]).
Qed.

Lemma C7_Write_after_close_still_publishes_witness :
  exists wc trc w' tr,
    Server.close (Sample.streaming 3) = Server.Ok tt wc trc
    /\ (forall sb, Server.asub wc = Some sb -> Server.sub_active sb = false)
    /\ Server.Write Sample.abc Sample.env wc = Server.Ok (3, None) w' tr
    /\ In (Server.EPublishRequest "_INBOX.r" ("_INBOX.x" +:+ "." +:+ Go.fmt_d 3)
             Sample.abc None) tr
    /\ Server.pending w' = Go.wrap_int (3 + 3).
Proof.
  exact (C7_Write_after_close_still_publishes Sample.abc Sample.env
           (Sample.streaming 3) 0 eq_refl eq_refl).
Defined.

(** ** One transfer: writes and acknowledgements interleaved *)

Section TransferFacts.
Import Server.
Variable IsPrint : Z -> bool.

Lemma write_enter_shape (env : WriteEnv) (w w1 : nrw) (b : bool) tr :
  write_enter env w = Ok b w1 tr ->
  pending w1 = pending w /\ published tr = [] /\ forallb by_timeout tr = true
  /\ (gate_empty w -> gate_empty w1).
Proof.
  destruct w as [m0 rp h i a c ix p], env as [ni so pe]. unfold gate_empty.
  split_tests; intros H; inversion H; subst; cbn; repeat split; auto.
Qed.

Lemma write_wait_shape (w w1 : nrw) tr :
  write_wait w = Ok tt w1 tr ->
  pending w1 = pending w /\ published tr = []
  /\ (gate_empty w -> gate_empty w1 /\ forallb by_timeout tr = true).
Proof.
  destruct w as [m0 rp h i a c ix p]. unfold gate_empty.
  split_tests; intros H; inversion H; subst; cbn; repeat split; auto;
    match goal with G : _ \/ _ |- _ => destruct G as [E|E]; discriminate E end.
Qed.

Lemma write_publish_shape (data : list byte) (env : WriteEnv) (w w1 : nrw) r tr :
  write_publish data env w = Ok r w1 tr ->
  acks w1 = acks w /\ forallb by_timeout tr = true
  /\ ((published tr = [] /\ pending w1 = pending w)
      \/ (published tr = [Go.blen data]
          /\ pending w1 = Go.wrap_int (pending w + Go.blen data))).
Proof.
  destruct w as [m0 rp h i a c ix p], env as [ni so pe].
  split_tests; intros H; inversion H; subst; cbn; repeat split; auto.
Qed.

Lemma processFlowAck_pending (m : Nats.Msg) (w w1 : nrw) tr :
  processFlowAck IsPrint m w = Ok tt w1 tr ->
  pending w1 = match ack_size m with
               | Some n => Go.wrap_int (pending w - n)
               | None => pending w
               end.
Proof.
  unfold ack_size, processFlowAck.
  destruct (Z.ltb_spec (Z.of_nat (List.length (Go.Split (Nats.Subject m) "."))) 2);
    destruct (Nat.leb_spec 2 (List.length (Go.Split (Nats.Subject m) "."))); try lia.
  - intros E; inversion E; reflexivity.
  - destruct (Go.Atoi _) as [n|]; [|intros E; inversion E; reflexivity].
    destruct w as [m0 rp h i a c ix p].
    split_tests; intros E; inversion E; reflexivity.
Qed.

(** What one step does to the counter, the gate and the trace. *)
Lemma step_events_shape (s : sys) (a : action) (w : nrw) (next : wpc) tr :
  step_events IsPrint s a = Some (w, next, tr) ->
  (gate_empty (obj s) -> gate_empty w /\ forallb by_timeout tr = true)
  /\ match a with
     | AAck m =>
         pending w = match ack_size m with
                     | Some n => Go.wrap_int (pending (obj s) - n)
                     | None => pending (obj s)
                     end
     | _ =>
         (published tr = [] /\ pending w = pending (obj s))
         \/ (exists data, published tr = [Go.blen data]
               /\ pending w = Go.wrap_int (pending (obj s) + Go.blen data))
     end.
Proof.
  unfold step_events. destruct a as [data env| |m].
  - destruct (pc s); [|discriminate].
    destruct (write_enter env (obj s)) as [b w1 t1| |] eqn:E1; try discriminate.
    destruct (write_enter_shape _ _ _ _ _ E1) as (Hp & Hpub & Hq & Hg).
    destruct b.
    + intros [= <- <- <-]. split; [intros G; split; auto|]. left. split; assumption.
    + destruct (write_publish data env w1) as [r w2 t2| |] eqn:E2; try discriminate.
      destruct (write_publish_shape _ _ _ _ _ _ E2) as (Ha & Hq2 & Hcase).
      intros [= <- <- <-]. split.
      * intros G. split.
        -- specialize (Hg G). unfold gate_empty in *. now rewrite Ha.
        -- rewrite forallb_app, Hq, Hq2. reflexivity.
      * rewrite <- Hp.
        assert (forall l, published (t1 ++ l) = published l) as Happ.
        { intros l. clear -Hpub. induction t1 as [|e t IH]; [reflexivity|].
          destruct e; cbn in *; try (apply IH; assumption);
            destruct err; [apply IH; assumption | discriminate]. }
        rewrite Happ. destruct Hcase as [[? ?]|[? ?]]; [left|right; exists data]; auto.
  - destruct (pc s) as [|data env]; [discriminate|].
    unfold finish, bind.
    destruct (write_wait (obj s)) as [[] w1 t1| |] eqn:E1; try discriminate.
    destruct (write_wait_shape _ _ _ E1) as (Hp & Hpub & Hg).
    destruct (write_publish data env w1) as [r w2 t2| |] eqn:E2; try discriminate.
    destruct (write_publish_shape _ _ _ _ _ _ E2) as (Ha & Hq2 & Hcase).
    intros [= <- <- <-]. split.
    + intros G. destruct (Hg G) as [G1 Hq]. split.
      * unfold gate_empty in *. now rewrite Ha.
      * rewrite forallb_app, Hq, Hq2. reflexivity.
    + rewrite <- Hp.
      assert (forall l, published (t1 ++ l) = published l) as Happ.
      { intros l. clear -Hpub. induction t1 as [|e t IH]; [reflexivity|].
        destruct e; cbn in *; try (apply IH; assumption);
          destruct err; [apply IH; assumption | discriminate]. }
      rewrite Happ. destruct Hcase as [[? ?]|[? ?]]; [left|right; exists data]; auto.
  - destruct (delivers (obj s) m); [|discriminate]. unfold finish.
    destruct (processFlowAck IsPrint m (obj s)) as [[] w1 t1| |] eqn:E1; try discriminate.
    intros [= <- <- <-].
    destruct (processFlowAck_keeps IsPrint m _ _ _ E1) as (_ & Ha & _ & _ & Hq & _).
    split; [|exact (processFlowAck_pending _ _ _ _ E1)].
    intros G. split; [|exact Hq]. unfold gate_empty in *. now rewrite Ha.
Qed.

Lemma step_unfold (s s' : sys) (a : action) :
  step IsPrint s a = Some s' ->
  exists w next tr, step_events IsPrint s a = Some (w, next, tr)
                    /\ s' = mkSys w next (history s ++ tr)%list.
Proof.
  unfold step. destruct (step_events IsPrint s a) as [[[w next] tr]|]; [|discriminate].
  intros [= <-]. eauto.
Qed.

Lemma total_nonneg (g : list Z) : Forall (fun n => 0 <= n) g -> 0 <= total g.
Proof. induction 1; cbn [total]; lia. Qed.

Lemma remove_one_total (n : Z) (g g' : list Z) :
  remove_one n g = Some g' ->
  total g = n + total g' /\ (Forall (fun k => 0 <= k) g -> Forall (fun k => 0 <= k) g' /\ 0 <= n).
Proof.
  revert g'. induction g as [|k rest IH]; intros g'; cbn [remove_one]; [discriminate|].
  destruct (Z.eqb_spec k n) as [->|Hne].
  - intros [= <-]. cbn [total]. split; [reflexivity|].
    intros F. apply Forall_cons_1 in F. tauto.
  - destruct (remove_one n rest) as [r'|]; [|discriminate].
    intros [= <-]. destruct (IH r' eq_refl) as [Ht Hf]. cbn [total]. split; [lia|].
    intros F. apply Forall_cons_1 in F as [Hk Hr]. destruct (Hf Hr) as [Hr' Hn].
    split; [constructor; assumption|assumption].
Qed.

(** The counter is the total of the published, unacknowledged chunks as
    long as the acknowledgements match the chunks. *)
Lemma run_well_acked (acts : list action) : forall s g s',
  pending (obj s) = total g -> Forall (fun n => 0 <= n) g -> total g <= Go.int_max ->
  well_acked IsPrint s g acts = true ->
  run IsPrint s acts = Some s' ->
  exists g', pending (obj s') = total g' /\ Forall (fun n => 0 <= n) g'
             /\ total g' <= Go.int_max.
Proof.
  induction acts as [|a rest IH]; intros s g s' Hp Hf Hmax; cbn [run well_acked].
  - intros _ [= <-]. eauto.
  - unfold step.
    destruct (step_events IsPrint s a) as [[[w next] tr]|] eqn:Ev; [|discriminate].
    pose proof (proj2 (step_events_shape _ _ _ _ _ Ev)) as Hs.
    pose proof (total_nonneg g Hf) as Hg0.
    assert (Go.int_min <= 0) as Hmin by (unfold Go.int_min; lia).
    destruct a as [data env| |m].
    + intros Hw. apply andb_prop in Hw as [Hle Hw]. apply Z.leb_le in Hle.
      apply (IH _ (published tr ++ g)%list); [|  |exact Hle|exact Hw]; cbn [obj].
      * destruct Hs as [[Epub Ep]|(d & Epub & Ep)]; rewrite Epub in *; rewrite Ep, Hp;
          [reflexivity|]. cbn [app total] in *.
        rewrite wrap_int_id; [lia|]. unfold Go.in_int, Go.blen in *. lia.
      * destruct Hs as [[Epub _]|(d & Epub & _)]; rewrite Epub; [exact Hf|].
        constructor; [|exact Hf]. unfold Go.blen. lia.
    + intros Hw. apply andb_prop in Hw as [Hle Hw]. apply Z.leb_le in Hle.
      apply (IH _ (published tr ++ g)%list); [|  |exact Hle|exact Hw]; cbn [obj].
      * destruct Hs as [[Epub Ep]|(d & Epub & Ep)]; rewrite Epub in *; rewrite Ep, Hp;
          [reflexivity|]. cbn [app total] in *.
        rewrite wrap_int_id; [lia|]. unfold Go.in_int, Go.blen in *. lia.
      * destruct Hs as [[Epub _]|(d & Epub & _)]; rewrite Epub; [exact Hf|].
        constructor; [|exact Hf]. unfold Go.blen. lia.
    + destruct (ack_size m) as [n|].
      * destruct (remove_one n g) as [g1|] eqn:Er; [|discriminate].
        destruct (remove_one_total _ _ _ Er) as [Ht Hf1]. destruct (Hf1 Hf) as [Hf' Hn].
        pose proof (total_nonneg g1 Hf') as Hg1.
        apply (IH _ g1); [|exact Hf'|lia]. cbn [obj]. rewrite Hs, Hp.
        replace (total g - n) with (total g1) by lia.
        apply wrap_int_id. unfold Go.in_int. lia.
      * apply (IH _ g); [|exact Hf|exact Hmax]. cbn [obj]. now rewrite Hs.
Qed.

End TransferFacts.

(** C1, the claim fails: after one write of three bytes, an acknowledgement
    on the ack subject that carries the count 5 leaves the counter at -2;
    so does, with -3, a second acknowledgement of the same chunk. *)
Lemma C1_pending_negative_counterexample :
  (exists s,
     Server.run IsPrintASCII (Server.init "_INBOX.r")
       [Server.ACall Sample.abc Sample.env; Server.AAck (Sample.ack "_INBOX.x.5")] = Some s
     /\ Server.pending (Server.obj s) = -2)
  /\ (exists s,
        Server.run IsPrintASCII (Server.init "_INBOX.r")
          [Server.ACall Sample.abc Sample.env; Server.AAck (Sample.ack "_INBOX.x.3");
           Server.AAck (Sample.ack "_INBOX.x.3")] = Some s
        /\ Server.pending (Server.obj s) = -3).
Proof.
  split; eexists; (split; [vm_compute; reflexivity|reflexivity]).
Qed.

Lemma published_app (t1 t2 : list Server.event) :
  Server.published (t1 ++ t2) = (Server.published t1 ++ Server.published t2)%list.
Proof.
  induction t1 as [|e t IH]; [reflexivity|].
  destruct e; cbn [app Server.published]; try exact IH.
  destruct err; [exact IH|]. cbn [app]. now rewrite IH.
Qed.

Lemma total_app (g1 g2 : list Z) : Server.total (g1 ++ g2) = Server.total g1 + Server.total g2.
Proof. induction g1 as [|n g IH]; cbn [app Server.total]; lia. Qed.

Lemma total_perm (g1 g2 : list Z) : Permutation g1 g2 -> Server.total g1 = Server.total g2.
Proof. induction 1; cbn [Server.total]; lia. Qed.

Lemma remove_one_perm (n : Z) (g g' : list Z) :
  Server.remove_one n g = Some g' -> Permutation g (n :: g').
Proof.
  revert g'. induction g as [|k rest IH]; intros g'; cbn [Server.remove_one]; [discriminate|].
  destruct (Z.eqb_spec k n) as [->|Hne].
  - intros [= <-]. reflexivity.
  - destruct (Server.remove_one n rest) as [r'|]; [|discriminate].
    intros [= <-]. rewrite (IH r' eq_refl). apply perm_swap.
Qed.

(** The chunks published during a run split into those that are still
    unacknowledged and those the acknowledgements of the run took off; the
    counter is the total of the former. *)
Lemma run_accounting (IsPrint : Z -> bool) (acts : list Server.action) :
  forall (s : Server.sys) (g : list Z) (s' : Server.sys),
  Server.pending (Server.obj s) = Server.total g ->
  Forall (fun n => 0 <= n) g -> Server.total g <= Go.int_max ->
  Server.well_acked IsPrint s g acts = true ->
  Server.run IsPrint s acts = Some s' ->
  exists g' new,
    Server.history s' = (Server.history s ++ new)%list
    /\ Permutation (Server.published new ++ g) (g' ++ Transfer.ack_sizes acts)
    /\ Forall (fun n => 0 <= n) g'
    /\ Server.pending (Server.obj s') = Server.total g'.
Proof.
  induction acts as [|a rest IH]; intros s g s' Hp Hf Hmax;
    cbn [Server.run Server.well_acked Transfer.ack_sizes].
  - intros _ [= <-]. exists g, []. rewrite !app_nil_r. repeat split; auto.
  - unfold Server.step.
    destruct (Server.step_events IsPrint s a) as [[[w next] tr]|] eqn:Ev; [|discriminate].
    pose proof (proj2 (step_events_shape IsPrint _ _ _ _ _ Ev)) as Hs.
    pose proof (total_nonneg g Hf) as Hg0.
    assert (Go.int_min <= 0) as Hmin by (unfold Go.int_min; lia).
    assert (forall g1 : list Z,
              Server.pending w = Server.total g1 -> Forall (fun n => 0 <= n) g1 ->
              Server.total g1 <= Go.int_max ->
              Server.well_acked IsPrint (Server.mkSys w next (Server.history s ++ tr)) g1 rest
              = true ->
              Server.run IsPrint (Server.mkSys w next (Server.history s ++ tr)) rest = Some s' ->
              exists g' new1,
                Server.history s' = (Server.history s ++ tr ++ new1)%list
                /\ Permutation (Server.published new1 ++ g1) (g' ++ Transfer.ack_sizes rest)
                /\ Forall (fun n => 0 <= n) g'
                /\ Server.pending (Server.obj s') = Server.total g') as Next.
    { intros g1 H1 H2 H3 H4 H5.
      destruct (IH (Server.mkSys w next (Server.history s ++ tr)) g1 s' H1 H2 H3 H4 H5)
        as (g' & new1 & Hh & Hperm & Hf' & Hp').
      exists g', new1. cbn [Server.history] in Hh. rewrite <- app_assoc in Hh. auto. }
    assert (forall data env, a = Server.ACall data env \/ a = Server.AWake ->
              (Server.published tr = [] /\ Server.pending w = Server.pending (Server.obj s))
              \/ (exists d, Server.published tr = [Go.blen d]
                    /\ Server.pending w
                       = Go.wrap_int (Server.pending (Server.obj s) + Go.blen d)) ->
              (Server.total (Server.published tr ++ g) <=? Go.int_max)
              && Server.well_acked IsPrint (Server.mkSys w next (Server.history s ++ tr))
                   (Server.published tr ++ g) rest = true ->
              Server.run IsPrint (Server.mkSys w next (Server.history s ++ tr)) rest = Some s' ->
              exists g' new,
                Server.history s' = (Server.history s ++ new)%list
                /\ Permutation (Server.published new ++ g) (g' ++ Transfer.ack_sizes rest)
                /\ Forall (fun n => 0 <= n) g'
                /\ Server.pending (Server.obj s') = Server.total g') as Writes.
    { intros _ _ _ Hcase Hw Hrun. apply andb_prop in Hw as [Hle Hw]. apply Z.leb_le in Hle.
      destruct (Next (Server.published tr ++ g)%list) as (g' & new1 & Hh & Hperm & Hf' & Hp');
        try assumption.
      - destruct Hcase as [[Epub Ep]|(d & Epub & Ep)]; rewrite Epub in *; rewrite Ep, Hp;
          [reflexivity|]. cbn [app Server.total] in *.
        rewrite wrap_int_id; [lia|]. unfold Go.in_int, Go.blen in *. lia.
      - destruct Hcase as [[Epub _]|(d & Epub & _)]; rewrite Epub; [exact Hf|].
        constructor; [|exact Hf]. unfold Go.blen. lia.
      - exists g', (tr ++ new1)%list. repeat split; try assumption.
        rewrite published_app, <- Hperm, <- app_assoc.
        apply Permutation_app_swap_app. }
    destruct a as [data env| |m].
    + intros Hw Hrun. exact (Writes data env (or_introl eq_refl) Hs Hw Hrun).
    + intros Hw Hrun.
      exact (Writes [] (Server.mkEnv EmptyString false None) (or_intror eq_refl) Hs Hw Hrun).
    + assert (Server.published tr = []) as Hnone.
      { unfold Server.step_events in Ev.
        destruct (Server.delivers (Server.obj s) m); [|discriminate]. unfold Server.finish in Ev.
        destruct (Server.processFlowAck IsPrint m (Server.obj s)) as [[] w1 t1| |] eqn:E1;
          try discriminate.
        injection Ev as _ _ <-.
        exact (proj2 (proj2 (proj2 (proj2 (proj2 (processFlowAck_keeps IsPrint m _ _ _ E1)))))). }
      destruct (Server.ack_size m) as [n|].
      * destruct (Server.remove_one n g) as [g1|] eqn:Er; [|discriminate].
        destruct (remove_one_total IsPrint _ _ _ Er) as [Ht Hf1]. destruct (Hf1 Hf) as [Hf' Hn].
        pose proof (total_nonneg g1 Hf') as Hg1.
        intros Hw Hrun.
        destruct (Next g1) as (g' & new1 & Hh & Hperm & Hf2 & Hp'); try assumption; [|lia|].
        { rewrite Hs, Hp. replace (Server.total g - n) with (Server.total g1) by lia.
          apply wrap_int_id. unfold Go.in_int. lia. }
        exists g', (tr ++ new1)%list. repeat split; try assumption.
        rewrite published_app, Hnone. cbn [app].
        rewrite (remove_one_perm _ _ _ Er), <- Permutation_middle, Hperm.
        apply Permutation_middle.
      * intros Hw Hrun.
        destruct (Next g) as (g' & new1 & Hh & Hperm & Hf2 & Hp'); try assumption.
        { now rewrite Hs. }
        exists g', (tr ++ new1)%list. repeat split; try assumption.
        rewrite published_app, Hnone. exact Hperm.
Qed.

(** C1, as amended.  In every interleaving of writes and ack deliveries of
    one transfer in which each well-formed acknowledgement carries the size
    of a chunk published earlier and not acknowledged before, and in which
    the unacknowledged bytes stay within the range of [int]: the chunks
    published so far split into those the acknowledgements have taken off
    and the others, [g]; the counter is the total size of [g], the
    published and unacknowledged chunks, that is the bytes published minus
    the bytes acknowledged; hence it is never negative. *)
Theorem C1_pending_nonnegative_for_matched_acks (IsPrint : Z -> bool) (r : string)
    (acts : list Server.action) (s : Server.sys) :
  Server.well_acked IsPrint (Server.init r) [] acts = true ->
  Server.run IsPrint (Server.init r) acts = Some s ->
  0 <= Server.pending (Server.obj s)
  /\ Server.pending (Server.obj s)
     = Server.total (Server.published (Server.history s))
       - Server.total (Transfer.ack_sizes acts)
  /\ exists g,
       Permutation (Server.published (Server.history s)) (g ++ Transfer.ack_sizes acts)
       /\ Forall (fun n => 0 <= n) g
       /\ Server.pending (Server.obj s) = Server.total g.
Proof.
  intros Hw Hr.
  destruct (run_accounting IsPrint acts (Server.init r) [] s)
    as (g & new & Hh & Hperm & Hf & Hp); try assumption; try reflexivity;
    [constructor|unfold Go.int_max; cbn; lia|].
  cbn [Server.history Server.init app] in Hh. rewrite app_nil_r in Hperm. subst new.
  split; [rewrite Hp; now apply total_nonneg|]. split.
  - rewrite (total_perm _ _ Hperm), total_app, Hp. lia.
  - exists g. repeat split; assumption.
Qed.

Lemma C1_pending_nonnegative_for_matched_acks_witness :
  exists s,
    Server.run IsPrintASCII (Server.init "_INBOX.r") Transfer.three_chunks_two_acked = Some s
    /\ Server.pending (Server.obj s) = 3
    /\ Server.published (Server.history s) = [3; 3; 3]
    /\ Transfer.ack_sizes Transfer.three_chunks_two_acked = [3; 3]
    /\ 0 <= Server.pending (Server.obj s)
    /\ Server.pending (Server.obj s)
       = Server.total (Server.published (Server.history s))
         - Server.total (Transfer.ack_sizes Transfer.three_chunks_two_acked)
    /\ exists g,
         Permutation (Server.published (Server.history s))
           (g ++ Transfer.ack_sizes Transfer.three_chunks_two_acked)
         /\ Forall (fun n => 0 <= n) g
         /\ Server.pending (Server.obj s) = Server.total g.
Proof.
  eexists. split; [vm_compute; reflexivity|].
  split; [reflexivity|]. split; [reflexivity|]. split; [reflexivity|].
  apply (C1_pending_nonnegative_for_matched_acks IsPrintASCII "_INBOX.r"
           Transfer.three_chunks_two_acked); vm_compute; reflexivity.
Defined.

(** C4, what the code does: from a state whose gate is empty, however
    writes, ack deliveries and wake-ups follow each other, the gate stays
    empty and every [select] of a held-up [Write] is ended by its timer,
    never by a signal: [processFlowAck] only changes the counter. *)
Theorem C4_gate_is_never_signalled (IsPrint : Z -> bool) (s s' : Server.sys)
    (acts : list Server.action) :
  Server.gate_empty (Server.obj s) ->
  forallb Server.by_timeout (Server.history s) = true ->
  Server.run IsPrint s acts = Some s' ->
  Server.gate_empty (Server.obj s')
  /\ forallb Server.by_timeout (Server.history s') = true.
Proof.
  revert s s'. induction acts as [|a rest IH]; intros s s' G Q; cbn [Server.run].
  - intros [= <-]. auto.
  - destruct (Server.step IsPrint s a) as [s1|] eqn:E; [|discriminate].
    destruct (step_unfold IsPrint _ _ _ E) as (w & next & tr & Ev & ->).
    destruct (proj1 (step_events_shape IsPrint _ _ _ _ _ Ev) G) as [G1 Q1].
    apply IH; [exact G1|]. cbn [Server.history]. rewrite forallb_app, Q, Q1. reflexivity.
Qed.

Lemma C4_gate_is_never_signalled_witness :
  exists s',
    Server.run IsPrintASCII Sample.held_up Sample.blocked_then_acked = Some s'
    /\ Server.pending (Server.obj s') = 33554433 - 1048576 + 3
    /\ In (Server.ESelect false Server.Millisecond) (Server.history s')
    /\ Server.gate_empty (Server.obj s')
    /\ forallb Server.by_timeout (Server.history s') = true.
Proof.
  eexists. split; [vm_compute; reflexivity|].
  split; [reflexivity|]. split; [cbn; tauto|].
  apply (C4_gate_is_never_signalled IsPrintASCII Sample.held_up _ Sample.blocked_then_acked).
  - right. reflexivity.
  - reflexivity.
  - vm_compute. reflexivity.
Defined.

(** ** The requestor: validation of the header reply *)

Lemma byte_char_byteZ (c : ascii) : Go.byte_char (Go.byteZ c) = c.
Proof. destruct c as [[|] [|] [|] [|] [|] [|] [|] [|]]; reflexivity. Qed.

Lemma byteZ_range (c : ascii) : 0 <= Go.byteZ c < 256.
Proof. destruct c as [[|] [|] [|] [|] [|] [|] [|] [|]]; vm_compute; split; congruence. Qed.

Lemma prefix_app (s t : string) : String.prefix s (s +:+ t) = true.
Proof.
  induction s as [|c s IH]; [destruct t; reflexivity|].
  change (String c s +:+ t) with (String c (s +:+ t)). simpl String.prefix.
  destruct (ascii_dec c c); [exact IH|congruence].
Qed.

Lemma Contains_app (a s b : string) : Go.Contains (a +:+ s +:+ b) s = true.
Proof.
  induction a as [|c a IH].
  - change (EmptyString +:+ s +:+ b) with (s +:+ b).
    destruct (s +:+ b) eqn:E; cbn [Go.Contains]; rewrite <- E, prefix_app; reflexivity.
  - change (String c a +:+ s +:+ b) with (String c (a +:+ s +:+ b)).
    cbn [Go.Contains]. rewrite IH. apply orb_true_r.
Qed.

Section QuoteFacts.
Variable IsPrint : Z -> bool.

(** [Quote] copies printable ASCII other than the quote and the backslash. *)
Lemma quote_body_plain (s : string) :
  Go.plain_ascii IsPrint s = true -> Go.quote_body IsPrint 0 s = s.
Proof.
  induction s as [|c r IH]; [reflexivity|].
  cbn [Go.plain_ascii]. intros H.
  apply andb_prop in H as [H Hr]. apply andb_prop in H as [H Hb].
  apply andb_prop in H as [H Hq]. apply andb_prop in H as [Hlt Hp].
  apply negb_true_iff in Hb, Hq.
  cbn [Go.quote_body Go.next_rune]. rewrite Hlt. cbn [Nat.pred].
  assert ((Go.byteZ c =? Go.RuneError) = false) as Hne.
  { apply Z.eqb_neq. apply Z.ltb_lt in Hlt. unfold Go.RuneSelf, Go.RuneError in *. lia. }
  rewrite Hne, andb_false_r. unfold Go.appendEscapedRune. rewrite Hq, Hb, Hp.
  cbn [orb]. unfold Go.AppendRune.
  pose proof (byteZ_range c) as [H0 _]. apply Z.ltb_lt in Hlt.
  destruct (Z.leb_spec 0 (Go.byteZ c)); [|lia].
  destruct (Z.leb_spec (Go.byteZ c) Go.rune1Max);
    [|unfold Go.RuneSelf, Go.rune1Max in *; lia].
  cbn [andb]. rewrite byte_char_byteZ, (IH Hr). reflexivity.
Qed.

Lemma Quote_plain (s : string) :
  Go.plain_ascii IsPrint s = true ->
  Go.Quote IsPrint s = String Go.dquote (s +:+ String Go.dquote EmptyString).
Proof. intros H. unfold Go.Quote. now rewrite quote_body_plain. Qed.

End QuoteFacts.

(** C8, the claim fails: for the status [404 "x"] the error message is
    [Error retrieving resource "404 \"x\""], in which the status text
    itself does not occur. *)
Lemma C8_status_text_counterexample :
  Go.HasPrefix Sample.quoted_status "200" = false
  /\ exists msg p,
       Client.run IsPrintASCII false EmptyString None
         (Nats.RecvMsg (Sample.header_reply Sample.quoted_status None)) []
       = Client.Fatal msg p
       /\ Go.Contains msg Sample.quoted_status = false.
Proof.
  split; [reflexivity|]. eexists _, _. split; vm_compute; reflexivity.
Qed.

(** C8, as amended.  When [Status] does not start with [200] the client
    ends at once with [log.Fatalf], its message being
    [Error retrieving resource] followed by the status as [%q] prints it:
    between double quotes, with escapes; when the status is printable
    ASCII without double quote and backslash, nothing is escaped and the
    message contains the status text itself.  When [Status] starts with
    [200] and [Content-Length] is absent or is not read as an integer, the
    client ends with [Expected a Content-Length].  In both cases no body
    message has been asked for, written, printed or acknowledged. *)
Theorem C8_header_validation (IsPrint : Z -> bool) (showHeaders : bool)
    (output : string) (open_err : option string) (msg : Nats.Msg)
    (incoming : list Nats.recv) :
  let status := Nats.Get (Nats.Hdr msg) "Status" in
  let result := Client.run IsPrint showHeaders output open_err (Nats.RecvMsg msg) incoming in
  let message := "Error retrieving resource " +:+ Go.Quote IsPrint status in
  (Go.HasPrefix status "200" = false ->
     result = Client.Fatal message Client.start
     /\ (Go.plain_ascii IsPrint status = true ->
         Go.Quote IsPrint status = String Go.dquote (status +:+ String Go.dquote EmptyString)
         /\ Go.Contains message status = true))
  /\ (Go.HasPrefix status "200" = true ->
      Nats.Hdr msg !! "Content-Length" = None
      \/ Go.Atoi (Nats.Get (Nats.Hdr msg) "Content-Length") = None ->
      result = Client.Fatal "Expected a Content-Length" Client.start)
  /\ Client.body_reads Client.start = 0%nat
  /\ Client.acked Client.start = []
  /\ Client.written Client.start = []
  /\ Client.logged Client.start = [].
Proof.
  cbv zeta. split; [|split; [|repeat split]].
  - intros Hs. split.
    + unfold Client.run. rewrite Hs. reflexivity.
    + intros Hplain. split; [now apply Quote_plain|].
      rewrite (Quote_plain IsPrint _ Hplain).
      apply (Contains_app ("Error retrieving resource " +:+ String Go.dquote EmptyString)
               (Nats.Get (Nats.Hdr msg) "Status") (String Go.dquote EmptyString)).
  - intros Hs Hcl.
    assert (Go.Atoi (Nats.Get (Nats.Hdr msg) "Content-Length") = None) as Ha.
    { destruct Hcl as [Hm|Ha]; [|exact Ha]. unfold Nats.Get. rewrite Hm. reflexivity. }
    unfold Client.run. rewrite Hs, Ha. reflexivity.
Qed.

Lemma C8_header_validation_witness :
  Client.run IsPrintASCII false EmptyString None
    (Nats.RecvMsg (Sample.header_reply "404 Not Found" None))
    [Nats.RecvMsg (Sample.chunk Sample.abc 3)]
  = Client.Fatal ("Error retrieving resource " +:+ Go.Quote IsPrintASCII "404 Not Found")
      Client.start
  /\ Go.Contains ("Error retrieving resource " +:+ Go.Quote IsPrintASCII "404 Not Found")
       "404 Not Found" = true
  /\ Client.run IsPrintASCII false EmptyString None
       (Nats.RecvMsg (Sample.header_reply "200 OK" None))
       [Nats.RecvMsg (Sample.chunk Sample.abc 3)]
     = Client.Fatal "Expected a Content-Length" Client.start.
Proof.
  pose proof (C8_header_validation IsPrintASCII false EmptyString None
                (Sample.header_reply "404 Not Found" None)
                [Nats.RecvMsg (Sample.chunk Sample.abc 3)]) as H404.
  pose proof (C8_header_validation IsPrintASCII false EmptyString None
                (Sample.header_reply "200 OK" None)
                [Nats.RecvMsg (Sample.chunk Sample.abc 3)]) as H200.
  cbv zeta in H404, H200.
  destruct H404 as [Hbad _]. destruct H200 as [_ [Hlen _]].
  destruct (Hbad eq_refl) as [Hrun Hplain]. destruct (Hplain eq_refl) as [_ Hc].
  split; [exact Hrun|]. split; [exact Hc|].
  exact (Hlen eq_refl (or_introl eq_refl)).
Defined.

(** ** The requestor: the receive loop *)

Section LoopFacts.
Import Nats Client.
Variable IsPrint : Z -> bool.

Lemma body_bytes_nonneg (chunks : list Msg) : 0 <= body_bytes chunks.
Proof. induction chunks as [|m ms IH]; cbn [body_bytes]; unfold Go.blen in *; lia. Qed.

Lemma consumed_cons (fd : bool) (m : Msg) (ms : list Msg) (p : progress) :
  consumed fd ms
    (respond m (if fd then file_write (Data m) (next_msg p)
                else log_line (String "010" (Go.string_of_bytes (Data m))) (next_msg p)))
  = consumed fd (m :: ms) p.
Proof.
  unfold consumed, respond, file_write, log_line, next_msg.
  destruct fd; cbn [logged written acked body_reads map List.length];
    rewrite <- ?app_assoc, ?app_nil_r; cbn [app]; f_equal; lia.
Qed.

(** The loop takes a run of non-empty chunks one after the other as long
    as the count is below [cl] before each of them. *)
Lemma body_loop_chunks (fd : bool) (cl : Z) (chunks : list Msg) :
  forall (received : Z) (checked : bool) (rest : list recv) (p : progress),
  Forall (fun m => Go.blen (Data m) <> 0) chunks ->
  needed cl received chunks = true ->
  Go.int_min <= received -> received + body_bytes chunks <= Go.int_max ->
  checked = true \/ first_chunk_accepted IsPrint fd chunks = true ->
  exists checked',
    body_loop IsPrint fd cl received checked (map RecvMsg chunks ++ rest) p
    = body_loop IsPrint fd cl (received + body_bytes chunks) checked' rest
        (consumed fd chunks p).
Proof.
  induction chunks as [|m ms IH]; intros received checked rest p Hne Hneed Hlo Hhi Hok.
  - exists checked. cbn [map app body_bytes]. rewrite Z.add_0_r.
    unfold consumed. cbn [map List.length]. destruct fd; rewrite !app_nil_r, Nat.add_0_r;
      destruct p; reflexivity.
  - cbn [needed] in Hneed. apply andb_prop in Hneed as [Hlt Hneed].
    apply Forall_cons_1 in Hne as [Hm Hne]. cbn [body_bytes] in Hhi.
    pose proof (body_bytes_nonneg ms) as Hms.
    assert (0 <= Go.blen (Data m)) as Hlen by (unfold Go.blen; lia).
    assert ((negb checked && negb fd && negb (isPrintable IsPrint (Data m))) = false) as Hchk.
    { destruct Hok as [->|Hok]; [reflexivity|].
      unfold first_chunk_accepted in Hok. destruct fd; [now rewrite andb_false_r|].
      cbn [orb] in Hok. rewrite Hok. now rewrite andb_false_r. }
    destruct (IH (received + Go.blen (Data m))
                 (if negb checked && negb fd then true else checked) rest
                 (respond m (if fd then file_write (Data m) (next_msg p)
                             else log_line (String "010" (Go.string_of_bytes (Data m)))
                                    (next_msg p))))
      as [checked' E]; try assumption; try lia.
    { destruct fd; [right; reflexivity|]. left. destruct checked; reflexivity. }
    exists checked'. cbn [map app body_loop]. rewrite Hlt.
    destruct (Z.eqb_spec (Go.blen (Data m)) 0) as [|_]; [contradiction|].
    rewrite Hchk. rewrite wrap_int_id by (unfold Go.in_int; lia).
    rewrite E, consumed_cons. cbn [body_bytes]. now rewrite Z.add_assoc.
Qed.

End LoopFacts.

(** C9, the claim fails: [Content-Length] is 5000000, no output file is
    given, and the only chunk that arrives starts with a zero byte.  The
    next receive would time out long before the total is reached, but the
    client does not get there: it ends with [log.Fatalf] at that chunk,
    which is neither written nor acknowledged. *)
Lemma C9_binary_chunk_counterexample :
  Client.body_loop IsPrintASCII false 5000000 0 false
    [Nats.RecvMsg (Sample.chunk ["000"%byte; "a"%byte] 2)] Client.start
  = Client.Fatal Client.binary_warning (Client.next_msg Client.start)
  /\ Client.run IsPrintASCII false EmptyString None
       (Nats.RecvMsg (Sample.header_reply "200 OK" (Some "5000000")))
       [Nats.RecvMsg (Sample.chunk ["000"%byte; "a"%byte] 2)]
     = Client.Fatal Client.binary_warning (Client.next_msg Client.start).
Proof. split; vm_compute; reflexivity. Qed.

(** C9, as amended.  Let a run of non-empty chunks arrive, each asked for
    while the bytes counted so far are fewer than [Content-Length], the
    count staying within the range of [int].  Unless the first chunk is
    refused as binary data (then the client ends with [log.Fatalf] at that
    chunk): if the count is still below [Content-Length] and the next
    receive times out, fails, or brings an empty chunk, the loop ends
    normally after that one receive, with the chunks received so far
    written or printed and acknowledged; and if the count has reached
    [Content-Length], the loop ends right after the last of these chunks,
    without another receive. *)
Theorem C9_body_loop_ends (IsPrint : Z -> bool) (fd : bool) (cl : Z)
    (chunks : list Nats.Msg) (rest : list Nats.recv) (p : Client.progress) :
  Forall (fun m => Go.blen (Nats.Data m) <> 0) chunks ->
  Client.needed cl 0 chunks = true ->
  Client.body_bytes chunks <= Go.int_max ->
  let got := Client.body_bytes chunks in
  let p' := Client.consumed fd chunks p in
  let result := Client.body_loop IsPrint fd cl 0 false (map Nats.RecvMsg chunks ++ rest) p in
  (Client.first_chunk_accepted IsPrint fd chunks = true ->
     (got < cl -> Client.ends_stream rest = true ->
        result = Client.Done got (Client.next_msg p'))
     /\ (cl <= got -> result = Client.Done got p'))
  /\ (Client.first_chunk_accepted IsPrint fd chunks = false ->
      result = Client.Fatal Client.binary_warning (Client.next_msg p))
  /\ Client.body_reads (Client.next_msg p')
     = (Client.body_reads p + List.length chunks + 1)%nat
  /\ Client.body_reads p' = (Client.body_reads p + List.length chunks)%nat.
Proof.
  intros Hne Hneed Hhi. cbv zeta. split; [|split; [|split]].
  - intros Hok.
    destruct (body_loop_chunks IsPrint fd cl chunks 0 false rest p Hne Hneed)
      as [checked' E]; [unfold Go.int_min; lia|lia|now right|].
    rewrite E, Z.add_0_l. split.
    + intros Hlt Hend. apply Z.ltb_lt in Hlt.
      destruct rest as [|[err|m] rest']; cbn [Client.body_loop]; rewrite Hlt;
        [reflexivity|reflexivity|].
      cbn [Client.ends_stream] in Hend. rewrite Hend. reflexivity.
    + intros Hge. apply Z.ltb_ge in Hge.
      destruct rest as [|r rest']; cbn [Client.body_loop]; rewrite Hge; reflexivity.
  - unfold Client.first_chunk_accepted. destruct fd; [discriminate|].
    destruct chunks as [|m ms]; [discriminate|]. cbn [orb]. intros Hbin.
    cbn [Client.needed] in Hneed. apply andb_prop in Hneed as [Hlt _].
    apply Forall_cons_1 in Hne as [Hm _].
    cbn [map app Client.body_loop]. rewrite Hlt, Hbin.
    destruct (Z.eqb_spec (Go.blen (Nats.Data m)) 0) as [|_]; [contradiction|]. reflexivity.
  - cbn. lia.
  - reflexivity.
Qed.

Lemma C9_body_loop_ends_witness :
  Client.body_loop IsPrintASCII false 5000000 0 false
    (map Nats.RecvMsg [Sample.chunk Sample.abc 3; Sample.chunk Sample.abc 3] ++ []) Client.start
  = Client.Done 6
      (Client.next_msg
         (Client.consumed false [Sample.chunk Sample.abc 3; Sample.chunk Sample.abc 3]
            Client.start))
  /\ Client.body_loop IsPrintASCII true 5 0 false
       (map Nats.RecvMsg [Sample.chunk Sample.abc 3; Sample.chunk Sample.abc 3]
        ++ [Nats.RecvMsg (Sample.chunk Sample.abc 3)]) Client.start
     = Client.Done 6
         (Client.consumed true [Sample.chunk Sample.abc 3; Sample.chunk Sample.abc 3]
            Client.start).
Proof.
  split.
  - refine (proj1 (proj1 (C9_body_loop_ends IsPrintASCII false 5000000
             [Sample.chunk Sample.abc 3; Sample.chunk Sample.abc 3] [] Client.start
             _ eq_refl _) eq_refl) _ eq_refl).
    + repeat constructor; discriminate.
    + vm_compute. discriminate.
    + vm_compute. reflexivity.
  - refine (proj2 (proj1 (C9_body_loop_ends IsPrintASCII true 5
             [Sample.chunk Sample.abc 3; Sample.chunk Sample.abc 3]
             [Nats.RecvMsg (Sample.chunk Sample.abc 3)] Client.start
             _ eq_refl _) eq_refl) _).
    + repeat constructor; discriminate.
    + vm_compute. discriminate.
    + vm_compute. discriminate.
Defined.

(** * Further properties of the writer *)

Lemma disciplined_app (t1 t2 : list Server.event) : forall held,
  Transfer.disciplined held (t1 ++ t2)
  = match Transfer.disciplined held t1 with
    | Some h => Transfer.disciplined h t2
    | None => None
    end.
Proof.
  induction t1 as [|e t IH]; intros held; [reflexivity|].
  destruct e, held; cbn [app Transfer.disciplined]; try reflexivity; apply IH.
Qed.

Lemma requests_app (t1 t2 : list Server.event) :
  Transfer.requests (t1 ++ t2) = (Transfer.requests t1 ++ Transfer.requests t2)%list.
Proof.
  induction t1 as [|e t IH]; [reflexivity|].
  destruct e; cbn [app Transfer.requests]; rewrite IH; reflexivity.
Qed.

Lemma header_messages_app (t1 t2 : list Server.event) :
  Server.header_messages (t1 ++ t2)
  = (Server.header_messages t1 ++ Server.header_messages t2)%list.
Proof.
  induction t1 as [|e t IH]; [reflexivity|].
  destruct e; cbn [app Server.header_messages]; rewrite IH; reflexivity.
Qed.

Lemma delivered_app (t1 t2 : list Server.event) :
  Transfer.delivered (t1 ++ t2) = (Transfer.delivered t1 ++ Transfer.delivered t2)%list.
Proof.
  induction t1 as [|e t IH]; [reflexivity|].
  destruct e; cbn [app Transfer.delivered]; try (rewrite IH; reflexivity).
  destruct err; rewrite IH; reflexivity.
Qed.

Section MethodFacts.
Import Server.
Variable IsPrint : Z -> bool.
Variable StatusText : Z -> string.

(** [Write] on a free mutex, whatever the state of the writer: it returns,
    and what it leaves behind. *)
Lemma Write_any (data : list byte) (env : WriteEnv) (w : nrw) :
  mu w = false ->
  exists w' tr,
    Write data env w
    = Ok (match pub_err env with
          | None => (Go.blen data, None)
          | Some err => (0, Some err)
          end) w' tr
    /\ mu w' = false /\ reply w' = reply w /\ hdr w' = hdr w
    /\ inbox w' = Transfer.inbox_after env w
    /\ acks w' <> None
    /\ pending w'
       = match pub_err env with
         | None => Go.wrap_int (pending w + Go.blen data)
         | Some _ => pending w
         end
    /\ Transfer.requests tr
       = [(reply w, Transfer.inbox_after env w +:+ "." +:+ Go.fmt_d (Go.blen data), data)]
    /\ Transfer.delivered tr
       = match pub_err env with
         | None => [Nats.mkMsg (reply w)
                      (Transfer.inbox_after env w +:+ "." +:+ Go.fmt_d (Go.blen data)) ∅ data]
         | Some _ => []
         end
    /\ header_messages tr = []
    /\ Transfer.subscribed tr
       = match acks w with
         | None => [new_inbox env +:+ ".*"]
         | Some _ => []
         end
    /\ Transfer.disciplined false tr = Some false.
Proof.
  destruct w as [m0 rp h i a c ix p], env as [ni so pe]. cbn [mu]. intros ->.
  unfold Transfer.inbox_after.
  split_tests; eexists _, _; (split; [reflexivity|]); repeat split; discriminate.
Qed.

End MethodFacts.

Section ScriptFacts.
Import Server.
Variable StatusText : Z -> string.

Lemma HeaderSet_eq (key value : string) (w : nrw) :
  HeaderSet key value w
  = Ok tt (set_hdr (Some (Nats.with_header (default (Nats.NewMsg (reply w)) (hdr w))
                            (Http.Set_
                               (Nats.Hdr (default (Nats.NewMsg (reply w)) (hdr w)))
                               key value))) w) [].
Proof. destruct w as [m0 rp [m|] i a c ix p]; reflexivity. Qed.

Lemma subscribed_app (t1 t2 : list event) :
  Transfer.subscribed (t1 ++ t2) = (Transfer.subscribed t1 ++ Transfer.subscribed t2)%list.
Proof.
  induction t1 as [|e t IH]; [reflexivity|].
  destruct e; cbn [app Transfer.subscribed]; rewrite IH; reflexivity.
Qed.

(** What a script does on a writer whose mutex is free. *)
Lemma handler_shape (cs : list call) : forall w : nrw,
  mu w = false ->
  match handler StatusText cs w with
  | Ok _ w' tr =>
      Transfer.header_safe (Transfer.has_hdr w) cs = true
      /\ mu w' = false /\ reply w' = reply w
      /\ (acks w <> None -> inbox w' = inbox w /\ acks w' <> None)
      /\ Transfer.requests tr = Transfer.expected_requests (reply w) (inbox w') cs
      /\ List.length (header_messages tr) = List.length (Transfer.statuses_of cs)
      /\ Transfer.subscribed tr
         = match acks w, Transfer.writes_of cs with
           | None, _ :: _ => [inbox w' +:+ ".*"]
           | _, _ => []
           end
      /\ Transfer.disciplined false tr = Some false
  | Panic why w' tr =>
      Transfer.header_safe (Transfer.has_hdr w) cs = false
      /\ why = nil_deref /\ mu w' = true
  | Blocked _ _ => False
  end.
Proof.
  induction cs as [|c rest IH]; intros w Hmu.
  - cbn. repeat split; auto. destruct (acks w); reflexivity.
  - cbn [handler]. unfold bind at 1. destruct c as [key value|code|data env].
    + cbn [do_call]. rewrite HeaderSet_eq.
      set (w1 := set_hdr _ w).
      assert (mu w1 = false) as Hmu1 by (destruct w; exact Hmu).
      assert (reply w1 = reply w /\ acks w1 = acks w /\ inbox w1 = inbox w) as (Hr & Ha & Hi)
        by (destruct w; repeat split).
      assert (Transfer.has_hdr w1 = true) as Hh by (destruct w; reflexivity).
      specialize (IH w1 Hmu1). rewrite Hh, Hr, Ha, Hi in IH.
      cbn [Transfer.header_safe Transfer.writes_of Transfer.statuses_of].
      destruct (handler StatusText rest w1) as [[] w' tr|why w' tr|]; exact IH.
    + cbn [do_call]. destruct (hdr w) as [m|] eqn:Eh.
      * rewrite (WriteHeader_some StatusText code w m Hmu Eh). cbv zeta.
        set (w1 := set_hdr _ w).
        assert (mu w1 = false) as Hmu1 by (destruct w; exact Hmu).
        assert (reply w1 = reply w /\ acks w1 = acks w /\ inbox w1 = inbox w) as (Hr & Ha & Hi)
          by (destruct w; repeat split).
        assert (Transfer.has_hdr w1 = true) as Hh by (destruct w; reflexivity).
        assert (Transfer.has_hdr w = true) as Hh0 by (unfold Transfer.has_hdr; now rewrite Eh).
        specialize (IH w1 Hmu1). rewrite Hh, Hr, Ha, Hi in IH.
        cbn [Transfer.header_safe Transfer.writes_of Transfer.statuses_of]. rewrite Hh0.
        destruct (handler StatusText rest w1) as [[] w' tr|why w' tr|]; [|exact IH|exact IH].
        destruct IH as (Hs & Hm & Hrp & Hin & Hreq & Hhm & Hsub & Hd).
        cbn [app Transfer.requests header_messages Transfer.subscribed
             Transfer.disciplined List.length].
        repeat split; try assumption; try (apply Hin; assumption).
        now rewrite Hhm.
      * rewrite (WriteHeader_none StatusText code w Hmu Eh).
        unfold Transfer.has_hdr. rewrite Eh. repeat split.
    + cbn [do_call]. unfold bind at 1.
      destruct (Write_any data env w Hmu)
        as (w1 & t1 & EW & Hmu1 & Hr & Hh & Hi & Ha & _ & Hreq1 & _ & Hhm1 & Hsub1 & Hd1).
      rewrite EW. unfold ret. cbn [Transfer.header_safe Transfer.statuses_of].
      assert (Transfer.has_hdr w1 = Transfer.has_hdr w) as Hhh
        by (unfold Transfer.has_hdr; now rewrite Hh).
      specialize (IH w1 Hmu1). rewrite Hhh, Hr in IH.
      destruct (handler StatusText rest w1) as [[] w' tr|why w' tr|]; [|exact IH|exact IH].
      destruct IH as (Hs & Hm & Hrp & Hin & Hreq & Hhm & Hsub & Hd).
      destruct (Hin Ha) as [Hi' Ha'].
      repeat split; try assumption.
      * rewrite Hi'. rewrite Hi. unfold Transfer.inbox_after.
        destruct (acks w); [reflexivity|congruence].
      * rewrite app_nil_r, requests_app, Hreq1, Hreq.
        unfold Transfer.expected_requests. cbn [Transfer.writes_of map app].
        now rewrite Hi', Hi.
      * rewrite app_nil_r, header_messages_app, Hhm1. exact Hhm.
      * rewrite app_nil_r, subscribed_app, Hsub1, Hsub.
        destruct (acks w1) as [k|] eqn:Ea1; [|congruence].
        cbn [Transfer.writes_of]. rewrite app_nil_r.
        unfold Transfer.inbox_after in Hi.
        destruct (acks w); [reflexivity|].
        rewrite Hi', Hi. reflexivity.
      * rewrite app_nil_r, disciplined_app, Hd1. exact Hd.
Qed.

End ScriptFacts.

(** X1.  The goroutine of a request, for any handler script: it never
    blocks on its own mutex; it panics, with a nil dereference, exactly
    when the script calls [WriteHeader] before any [Header]; otherwise it
    ends with the mutex free and the ack subscription, if there is one,
    unsubscribed, having taken and released the mutex in order around
    every call on the connection. *)
Theorem serve_outcome (StatusText : Z -> string) (m : Nats.Msg) (cs : list Server.call) :
  match Server.serve StatusText m cs with
  | Server.Ok _ w tr =>
      Transfer.header_safe false cs = true
      /\ Server.mu w = false
      /\ (forall sb, Server.asub w = Some sb -> Server.sub_active sb = false)
      /\ Transfer.disciplined false tr = Some false
  | Server.Panic why _ _ =>
      Transfer.header_safe false cs = false /\ why = Server.nil_deref
  | Server.Blocked _ _ => False
  end.
Proof.
  unfold Server.serve, Server.bind.
  pose proof (handler_shape StatusText cs (Server.new_nrw (Nats.Reply m)) eq_refl) as H.
  destruct (Server.handler StatusText cs (Server.new_nrw (Nats.Reply m)))
    as [[] w1 t1|why w1 t1|]; [|tauto|exact H].
  destruct H as (Hs & Hmu & _ & _ & _ & _ & _ & Hd).
  rewrite (close_eq w1 Hmu). repeat split.
  - exact Hs.
  - destruct w1; exact Hmu.
  - intros sb. destruct w1 as [m0 r h i [sb0|] c ix p]; cbn; [|discriminate].
    intros [= <-]. reflexivity.
  - rewrite disciplined_app, Hd. reflexivity.
Qed.

(** ** The ack addresses and the ack subscription *)

Lemma Split_app_sep (a t : string) (sep : ascii) :
  Go.Split (a +:+ String sep t) sep = (Go.Split a sep ++ Go.Split t sep)%list.
Proof.
  induction a as [|c a IH].
  - change (EmptyString +:+ String sep t) with (String sep t).
    cbn [Go.Split]. now rewrite Ascii.eqb_refl.
  - change (String c a +:+ String sep t) with (String c (a +:+ String sep t)).
    cbn [Go.Split]. rewrite IH. destruct (Ascii.eqb c sep); [reflexivity|].
    pose proof (Split_nonempty a sep) as Hne.
    destruct (Go.Split a sep) as [|t0 ts]; [congruence|reflexivity].
Qed.

Lemma tokens_match_star (ps : list string) (t : string) :
  forallb (fun p => negb (String.eqb p EmptyString) && negb (String.eqb p ">")
                    && negb (String.eqb p "*")) ps = true ->
  t <> EmptyString ->
  Server.tokens_match (ps ++ ["*"]) (ps ++ [t]) = true.
Proof.
  intros Hps Ht. induction ps as [|p ps IH].
  - cbn. apply String.eqb_neq in Ht. now rewrite Ht.
  - cbn [forallb] in Hps. apply andb_prop in Hps as [Hp Hps].
    apply andb_prop in Hp as [Hp _]. apply andb_prop in Hp as [Hp1 Hp2].
    apply negb_true_iff in Hp1, Hp2.
    cbn [app Server.tokens_match]. rewrite Hp2, Hp1, String.eqb_refl, orb_true_r.
    cbn [andb negb]. exact (IH Hps).
Qed.

Lemma fmt_d_nonempty (n : Z) : Go.fmt_d n <> EmptyString.
Proof.
  unfold Go.fmt_d. destruct (Z.ltb_spec n 0); [discriminate|].
  destruct (fmt_digits_head (Z.to_nat (Z.log2 n)) n EmptyString) as (c & r & E & _); [lia|].
  rewrite E. discriminate.
Qed.

(** The reply address [inbox.len] is covered by the subject [inbox.*],
    for an inbox without empty or wildcard tokens. *)
Lemma ack_address_matches (inbox : string) (n : Z) :
  Transfer.plain_subject inbox = true ->
  Server.subject_matches (inbox +:+ ".*") (inbox +:+ "." +:+ Go.fmt_d n) = true.
Proof.
  intros Hplain. unfold Server.subject_matches, Transfer.plain_subject in *.
  change (inbox +:+ ".*") with (inbox +:+ String "."%char "*").
  change (inbox +:+ "." +:+ Go.fmt_d n) with (inbox +:+ String "."%char (Go.fmt_d n)).
  rewrite !Split_app_sep.
  rewrite (Split_no_sep "*" "." eq_refl), (Split_no_sep _ "." (fmt_d_no_dot n)).
  apply tokens_match_star; [exact Hplain|apply fmt_d_nonempty].
Qed.

Lemma Write_asub (data : list byte) (env : Server.WriteEnv) (w w1 : Server.nrw) r tr :
  Server.Write data env w = Server.Ok r w1 tr ->
  Server.asub w1
  = match Server.acks w with
    | None => if Server.sub_ok env
              then Some (Server.mkSub (Server.new_inbox env +:+ ".*") true)
              else None
    | Some _ => Server.asub w
    end.
Proof.
  destruct w as [m0 rp h i a c ix p], env as [ni so pe].
  split_tests; intros H; inversion H; reflexivity.
Qed.

(** X2.  Whether the acknowledgement of a chunk reaches [processFlowAck].
    Take a [Write] on a free mutex that is the first of its transfer, or
    that finds the writer subscribed to [inbox.*] for its own inbox, the
    inbox having no empty or wildcard tokens.  The chunk is published with
    a reply address; a message sent to that address is delivered to the
    writer's callback if the subscription was there already or if the
    [Subscribe] of this first [Write] succeeded, and is not delivered if
    that [Subscribe] failed: its error is dropped and the writer goes on
    without a subscription.  When it is delivered, the writer is
    subscribed to [inbox.*] for its inbox afterwards, so the same holds
    for the next [Write]. *)
Theorem ack_reaches_processFlowAck (data : list byte) (env : Server.WriteEnv)
    (w : Server.nrw) :
  Server.mu w = false ->
  Transfer.plain_subject (Transfer.inbox_after env w) = true ->
  Server.acks w = None
  \/ Server.asub w = Some (Server.mkSub (Server.inbox w +:+ ".*") true) ->
  exists w1 t1 rep,
    Server.Write data env w
    = Server.Ok (match Server.pub_err env with
                 | None => (Go.blen data, None)
                 | Some err => (0, Some err)
                 end) w1 t1
    /\ Transfer.requests t1 = [(Server.reply w, rep, data)]
    /\ Server.delivers w1 (Nats.mkMsg rep EmptyString ∅ [])
       = match Server.acks w with
         | None => Server.sub_ok env
         | Some _ => true
         end
    /\ Server.acks w1 <> None
    /\ (Server.delivers w1 (Nats.mkMsg rep EmptyString ∅ []) = true ->
        Server.asub w1 = Some (Server.mkSub (Server.inbox w1 +:+ ".*") true)).
Proof.
  intros Hmu Hplain Hsub.
  destruct (Write_any data env w Hmu)
    as (w1 & t1 & EW & _ & _ & _ & Hi & Ha & _ & Hreq & _).
  pose proof (Write_asub _ _ _ _ _ _ EW) as Hasub.
  exists w1, t1, (Transfer.inbox_after env w +:+ "." +:+ Go.fmt_d (Go.blen data)).
  split; [exact EW|]. split; [exact Hreq|].
  assert (Server.delivers w1
            (Nats.mkMsg (Transfer.inbox_after env w +:+ "." +:+ Go.fmt_d (Go.blen data))
               EmptyString ∅ [])
          = match Server.acks w with
            | None => Server.sub_ok env
            | Some _ => true
            end
          /\ (match Server.acks w with None => Server.sub_ok env | Some _ => true end = true ->
              Server.asub w1 = Some (Server.mkSub (Server.inbox w1 +:+ ".*") true))) as [Hd Hs].
  { unfold Server.delivers. rewrite Hasub, Hi. unfold Transfer.inbox_after in *.
    cbn [Nats.Subject].
    destruct (Server.acks w) as [k|].
    - destruct Hsub as [Hn|Hs]; [discriminate Hn|]. rewrite Hs.
      cbn [Server.sub_active Server.sub_subject andb].
      split; [now apply ack_address_matches|reflexivity].
    - destruct (Server.sub_ok env); [|split; [reflexivity|discriminate]].
      cbn [Server.sub_active Server.sub_subject andb].
      split; [now apply ack_address_matches|reflexivity]. }
  split; [exact Hd|]. split; [exact Ha|].
  rewrite Hd. exact Hs.
Qed.

Lemma ack_reaches_processFlowAck_witness :
  (exists w1 t1 rep,
     Server.Write Sample.abc Sample.env (Server.new_nrw "_INBOX.r")
     = Server.Ok (Go.blen Sample.abc, None) w1 t1
     /\ Transfer.requests t1 = [("_INBOX.r", rep, Sample.abc)]
     /\ Server.delivers w1 (Nats.mkMsg rep EmptyString ∅ []) = true
     /\ Server.acks w1 <> None
     /\ (Server.delivers w1 (Nats.mkMsg rep EmptyString ∅ []) = true ->
         Server.asub w1 = Some (Server.mkSub (Server.inbox w1 +:+ ".*") true)))
  /\ (exists w1 t1 rep,
        Server.Write Sample.abc (Server.mkEnv "_INBOX.x" false None) (Server.new_nrw "_INBOX.r")
        = Server.Ok (Go.blen Sample.abc, None) w1 t1
        /\ Transfer.requests t1 = [("_INBOX.r", rep, Sample.abc)]
        /\ Server.delivers w1 (Nats.mkMsg rep EmptyString ∅ []) = false
        /\ Server.acks w1 <> None
        /\ (Server.delivers w1 (Nats.mkMsg rep EmptyString ∅ []) = true ->
            Server.asub w1 = Some (Server.mkSub (Server.inbox w1 +:+ ".*") true))).
Proof.
  split.
  - exact (ack_reaches_processFlowAck Sample.abc Sample.env (Server.new_nrw "_INBOX.r")
             eq_refl eq_refl (or_introl eq_refl)).
  - exact (ack_reaches_processFlowAck Sample.abc (Server.mkEnv "_INBOX.x" false None)
             (Server.new_nrw "_INBOX.r") eq_refl eq_refl (or_introl eq_refl)).
Defined.

(** X3.  A handler script on the writer of a new request that runs to its
    end publishes the payloads of its [Write] calls in order, each on the
    reply subject of the request and each with the reply address
    [inbox.len(data)] in one and the same inbox; it subscribes once, to
    [inbox.*], if it writes at all and not otherwise; and it publishes one
    header message for each [WriteHeader]. *)
Theorem script_publishes_in_order (StatusText : Z -> string) (r : string)
    (cs : list Server.call) (w : Server.nrw) (tr : list Server.event) :
  Server.handler StatusText cs (Server.new_nrw r) = Server.Ok tt w tr ->
  Transfer.requests tr
  = map (fun d => (r, Server.inbox w +:+ "." +:+ Go.fmt_d (Go.blen d), d))
        (Transfer.writes_of cs)
  /\ Transfer.subscribed tr
     = match Transfer.writes_of cs with
       | [] => []
       | _ :: _ => [Server.inbox w +:+ ".*"]
       end
  /\ List.length (Server.header_messages tr) = List.length (Transfer.statuses_of cs).
Proof.
  intros E. pose proof (handler_shape StatusText cs (Server.new_nrw r) eq_refl) as H.
  rewrite E in H. destruct H as (_ & _ & _ & _ & Hreq & Hhm & Hsub & _).
  repeat split; [exact Hreq| |exact Hhm].
  rewrite Hsub. cbn [Server.acks Server.new_nrw]. destruct (Transfer.writes_of cs); reflexivity.
Qed.

Lemma script_publishes_in_order_witness :
  exists w tr,
    Server.handler StatusTextExcerpt
      [Server.CHeaderSet "Content-Length" "6"; Server.CWriteHeader 200;
       Server.CWrite Sample.abc Sample.env; Server.CWrite Sample.abc Sample.env]
      (Server.new_nrw "_INBOX.r") = Server.Ok tt w tr
    /\ Transfer.requests tr
       = [("_INBOX.r", "_INBOX.x.3", Sample.abc); ("_INBOX.r", "_INBOX.x.3", Sample.abc)]
    /\ Transfer.subscribed tr = ["_INBOX.x.*"].
Proof.
  eexists _, _. split; [vm_compute; reflexivity|].
  match goal with
  | |- Transfer.requests ?tr = _ /\ _ =>
      destruct (script_publishes_in_order StatusTextExcerpt "_INBOX.r"
                  [Server.CHeaderSet "Content-Length" "6"; Server.CWriteHeader 200;
                   Server.CWrite Sample.abc Sample.env; Server.CWrite Sample.abc Sample.env]
                  _ tr ltac:(vm_compute; reflexivity)) as (H1 & H2 & _)
  end.
  split; [exact H1|exact H2].
Defined.

(** ** The counter over a whole transfer *)

Lemma bytes_of_nonneg (datas : list (list byte)) : 0 <= Transfer.bytes_of datas.
Proof. induction datas; cbn [Transfer.bytes_of]; unfold Go.blen in *; lia. Qed.

Lemma wrap_int_sub (a n : Z) : Go.wrap_int (Go.wrap_int a - n) = Go.wrap_int (a - n).
Proof.
  unfold Go.wrap_int. f_equal.
  replace ((a + 2 ^ 63) mod 2 ^ 64 - 2 ^ 63 - n + 2 ^ 63) with ((a + 2 ^ 63) mod 2 ^ 64 - n) by lia.
  rewrite Zminus_mod_idemp_l. f_equal. lia.
Qed.

Section CounterFacts.
Import Server.
Variable IsPrint : Z -> bool.
Variable StatusText : Z -> string.

(** The chunks a script gets published, and the counter after it. *)
Lemma handler_delivery (cs : list call) : forall (w w' : nrw) (tr : list event),
  mu w = false ->
  0 <= pending w ->
  pending w + Transfer.bytes_of (Transfer.accepted_of cs) <= Go.int_max ->
  handler StatusText cs w = Ok tt w' tr ->
  pending w' = pending w + Transfer.bytes_of (Transfer.accepted_of cs)
  /\ Transfer.delivered tr
     = map (fun d => Nats.mkMsg (reply w) (inbox w' +:+ "." +:+ Go.fmt_d (Go.blen d)) ∅ d)
           (Transfer.accepted_of cs).
Proof.
  induction cs as [|c rest IH]; intros w w' tr Hmu Hp Hmax.
  - cbn. intros [= <- <-]. split; [lia|reflexivity].
  - cbn [handler]. unfold bind at 1.
    destruct (do_call StatusText c w) as [[] w1 t1| |] eqn:Ec; try discriminate.
    destruct (handler StatusText rest w1) as [[] w2 t2| |] eqn:Er; try discriminate.
    intros [= <- <-].
    pose proof (handler_shape StatusText rest w1) as Hsh. rewrite Er in Hsh.
    pose proof (bytes_of_nonneg (Transfer.accepted_of rest)) as Hrest.
    destruct c as [key value|code|data env]; cbn [do_call] in Ec.
    + rewrite HeaderSet_eq in Ec. injection Ec as <- <-.
      cbn [Transfer.accepted_of] in *.
      apply IH in Er; destruct w; assumption.
    + destruct (hdr w) as [m|] eqn:Eh;
        [rewrite (WriteHeader_some StatusText code w m Hmu Eh) in Ec
        |rewrite (WriteHeader_none StatusText code w Hmu Eh) in Ec; discriminate].
      injection Ec as <- <-. cbn [Transfer.accepted_of] in *.
      apply IH in Er; destruct w; assumption.
    + unfold bind, ret in Ec.
      destruct (Write_any data env w Hmu)
        as (w0 & t0 & EW & Hmu0 & Hr & _ & Hi & Ha & Hpe & _ & Hdel & _).
      rewrite EW in Ec. injection Ec as <- <-. rewrite app_nil_r.
      destruct (Hsh Hmu0) as (_ & _ & _ & Hin & _). destruct (Hin Ha) as [Hi2 _].
      cbn [Transfer.accepted_of] in *. rewrite delivered_app, Hdel.
      destruct (pub_err env) as [err|].
      * apply IH in Er; [|exact Hmu0|now rewrite Hpe|now rewrite Hpe].
        destruct Er as [Hp2 Hd2].
        split; [now rewrite Hp2, Hpe|]. now rewrite Hd2, Hr.
      * cbn [Transfer.bytes_of] in Hmax.
        assert (0 <= Go.blen data) as Hlen by (unfold Go.blen; lia).
        rewrite wrap_int_id in Hpe by (unfold Go.in_int, Go.int_min; lia).
        apply IH in Er; [|exact Hmu0|rewrite Hpe; lia|rewrite Hpe; lia].
        destruct Er as [Hp2 Hd2].
        split; [rewrite Hp2, Hpe; cbn [Transfer.bytes_of]; lia|].
        cbn [map app]. rewrite Hd2, Hr, Hi2, Hi. reflexivity.
Qed.

(** [processFlowAck] over a sequence of acknowledgements. *)
Lemma deliver_total (ms : list Nats.Msg) : forall w : nrw,
  mu w = false -> Go.in_int (pending w) ->
  exists tr,
    Transfer.deliver IsPrint ms w
    = Ok tt (set_pending (Go.wrap_int (pending w - Transfer.acked_bytes ms)) w) tr.
Proof.
  induction ms as [|m rest IH]; intros w Hmu Hin.
  - exists []. cbn [Transfer.deliver Transfer.acked_bytes]. unfold ret.
    rewrite Z.sub_0_r, wrap_int_id by exact Hin. destruct w; reflexivity.
  - cbn [Transfer.deliver Transfer.acked_bytes]. unfold bind.
    rewrite (processFlowAck_ack_size IsPrint m w Hmu).
    destruct (ack_size m) as [n|]; cbn [from_option id].
    + unfold good_ack.
      destruct (IH (set_pending (Go.wrap_int (pending w - n)) w)) as [tr E].
      { destruct w; exact Hmu. }
      { destruct w; apply wrap_int_range. }
      rewrite E.
      exists ([ELock; EStorePending (Go.wrap_int (pending w - n)); EUnlock] ++ tr)%list.
      f_equal. destruct w.
      cbv beta iota delta [set_pending pending mu reply hdr inbox asub acks index].
      rewrite wrap_int_sub. do 2 f_equal. lia.
    + unfold bad_ack. destruct (IH w Hmu Hin) as [tr E]. rewrite E.
      eexists. reflexivity.
Qed.

End CounterFacts.

Lemma acked_bytes_perm (ms ms' : list Nats.Msg) :
  Permutation ms ms' -> Transfer.acked_bytes ms = Transfer.acked_bytes ms'.
Proof. induction 1; cbn [Transfer.acked_bytes]; lia. Qed.

(** X4.  On a free mutex, a sequence of acknowledgements leaves the
    counter at [pending] minus the sum of the byte counts the well-formed
    ones carry (in Go's [int] arithmetic) and changes nothing else; the
    same acknowledgements in any other order leave the writer in the same
    state. *)
Theorem acks_in_any_order (IsPrint : Z -> bool) (ms ms' : list Nats.Msg) (w : Server.nrw) :
  Permutation ms ms' ->
  Server.mu w = false ->
  Go.in_int (Server.pending w) ->
  exists tr tr',
    Transfer.deliver IsPrint ms w
    = Server.Ok tt
        (Server.set_pending (Go.wrap_int (Server.pending w - Transfer.acked_bytes ms)) w) tr
    /\ Transfer.deliver IsPrint ms' w
       = Server.Ok tt
           (Server.set_pending (Go.wrap_int (Server.pending w - Transfer.acked_bytes ms)) w) tr'.
Proof.
  intros Hperm Hmu Hin.
  destruct (deliver_total IsPrint ms w Hmu Hin) as [tr E].
  destruct (deliver_total IsPrint ms' w Hmu Hin) as [tr' E'].
  exists tr, tr'. split; [exact E|].
  rewrite (acked_bytes_perm ms ms' Hperm). exact E'.
Qed.

Lemma acks_in_any_order_witness :
  exists tr tr',
    Transfer.deliver IsPrintASCII
      [Sample.ack "_INBOX.x.3"; Sample.ack "_INBOX.x.oops"; Sample.ack "_INBOX.x.1024"]
      (Sample.streaming 4096)
    = Server.Ok tt
        (Server.set_pending
           (Go.wrap_int
              (Server.pending (Sample.streaming 4096)
               - Transfer.acked_bytes
                   [Sample.ack "_INBOX.x.3"; Sample.ack "_INBOX.x.oops";
                    Sample.ack "_INBOX.x.1024"]))
           (Sample.streaming 4096)) tr
    /\ Transfer.deliver IsPrintASCII
         [Sample.ack "_INBOX.x.1024"; Sample.ack "_INBOX.x.3"; Sample.ack "_INBOX.x.oops"]
         (Sample.streaming 4096)
       = Server.Ok tt
           (Server.set_pending
              (Go.wrap_int
                 (Server.pending (Sample.streaming 4096)
                  - Transfer.acked_bytes
                      [Sample.ack "_INBOX.x.3"; Sample.ack "_INBOX.x.oops";
                       Sample.ack "_INBOX.x.1024"]))
              (Sample.streaming 4096)) tr'.
Proof.
  apply (acks_in_any_order IsPrintASCII
           [Sample.ack "_INBOX.x.3"; Sample.ack "_INBOX.x.oops"; Sample.ack "_INBOX.x.1024"]
           [Sample.ack "_INBOX.x.1024"; Sample.ack "_INBOX.x.3"; Sample.ack "_INBOX.x.oops"]
           (Sample.streaming 4096)).
  - apply Permutation_sym. apply (Permutation_cons_app [_; _] []). reflexivity.
  - reflexivity.
  - unfold Go.in_int, Go.int_min, Go.int_max. cbn. lia.
Defined.

Example acks_in_any_order_value :
  Go.wrap_int
    (Server.pending (Sample.streaming 4096)
     - Transfer.acked_bytes
         [Sample.ack "_INBOX.x.3"; Sample.ack "_INBOX.x.oops"; Sample.ack "_INBOX.x.1024"])
  = 3069.
Proof. vm_compute. reflexivity. Qed.

Lemma ack_size_address (pre rep : string) (h : Nats.Header) (d : list byte) (n : Z) :
  Go.in_int n ->
  Server.ack_size (Nats.mkMsg (pre +:+ "." +:+ Go.fmt_d n) rep h d) = Some n.
Proof.
  intros Hn. unfold Server.ack_size. cbn [Nats.Subject].
  change (pre +:+ "." +:+ Go.fmt_d n) with (pre +:+ String "."%char (Go.fmt_d n)).
  destruct (Split_app_last pre (Go.fmt_d n) "." (fmt_d_no_dot n)) as (toks & Hne & E).
  rewrite E, List.length_app, List.last_last.
  destruct toks as [|t0 ts]; [congruence|]. cbn [List.length Nat.add Nat.leb].
  replace (List.length ts + 1)%nat with (S (List.length ts)) by lia.
  now apply Atoi_fmt_d.
Qed.

(** X5.  A successful [Write] followed by the acknowledgement sent to the
    reply address of its chunk leaves the counter where it was before the
    write (for a counter that is not negative and stays within [int]). *)
Theorem ack_undoes_write (IsPrint : Z -> bool) (data : list byte)
    (env : Server.WriteEnv) (w : Server.nrw) :
  Server.mu w = false ->
  Server.pub_err env = None ->
  0 <= Server.pending w ->
  Server.pending w + Go.blen data <= Go.int_max ->
  exists w1 t1 rep w2 t2,
    Server.Write data env w = Server.Ok (Go.blen data, None) w1 t1
    /\ Transfer.requests t1 = [(Server.reply w, rep, data)]
    /\ Server.pending w1 = Server.pending w + Go.blen data
    /\ Server.processFlowAck IsPrint (Nats.mkMsg rep EmptyString ∅ []) w1 = Server.Ok tt w2 t2
    /\ w2 = Server.set_pending (Server.pending w) w1.
Proof.
  intros Hmu Hpub Hp Hmax.
  assert (0 <= Go.blen data) as Hlen by (unfold Go.blen; lia).
  destruct (Write_any data env w Hmu)
    as (w1 & t1 & EW & Hmu1 & _ & _ & _ & _ & Hpe & Hreq & _).
  rewrite Hpub in EW, Hpe.
  rewrite wrap_int_id in Hpe by (unfold Go.in_int, Go.int_min; lia).
  eexists w1, t1, _, _, _. split; [exact EW|]. split; [exact Hreq|]. split; [exact Hpe|].
  rewrite (processFlowAck_ack_size IsPrint _ w1 Hmu1).
  rewrite ack_size_address by (unfold Go.in_int, Go.int_min; lia).
  unfold Server.good_ack. split; [reflexivity|].
  rewrite Hpe. replace (Server.pending w + Go.blen data - Go.blen data) with (Server.pending w) by lia.
  rewrite wrap_int_id by (unfold Go.in_int, Go.int_min; lia). reflexivity.
Qed.

Lemma ack_undoes_write_witness :
  exists w1 t1 rep w2 t2,
    Server.Write Sample.abc Sample.env (Server.new_nrw "_INBOX.r")
    = Server.Ok (Go.blen Sample.abc, None) w1 t1
    /\ Transfer.requests t1 = [("_INBOX.r", rep, Sample.abc)]
    /\ Server.pending w1 = 0 + Go.blen Sample.abc
    /\ Server.processFlowAck IsPrintASCII (Nats.mkMsg rep EmptyString ∅ []) w1
       = Server.Ok tt w2 t2
    /\ w2 = Server.set_pending 0 w1.
Proof.
  refine (ack_undoes_write IsPrintASCII Sample.abc Sample.env (Server.new_nrw "_INBOX.r")
            eq_refl eq_refl _ _); vm_compute; discriminate.
Defined.

(** X6.  A handler script on the writer of a new request that runs to its
    end leaves the counter at the total length of the payloads whose
    publish succeeded (as long as that total fits an [int]); a write whose
    publish failed adds nothing.  Exactly those payloads reach the
    subscriber of the reply subject, in order, each with its reply address
    [inbox.len(data)]. *)
Theorem counter_after_script (StatusText : Z -> string) (r : string)
    (cs : list Server.call) (w : Server.nrw) (tr : list Server.event) :
  Transfer.bytes_of (Transfer.accepted_of cs) <= Go.int_max ->
  Server.handler StatusText cs (Server.new_nrw r) = Server.Ok tt w tr ->
  Server.pending w = Transfer.bytes_of (Transfer.accepted_of cs)
  /\ Transfer.delivered tr
     = map (fun d => Nats.mkMsg r (Server.inbox w +:+ "." +:+ Go.fmt_d (Go.blen d)) ∅ d)
           (Transfer.accepted_of cs).
Proof.
  intros Hmax E.
  destruct (handler_delivery StatusText cs (Server.new_nrw r) w tr eq_refl) as [Hp Hd];
    [cbn; lia|exact Hmax|exact E|].
  split; [exact Hp|exact Hd].
Qed.

Lemma counter_after_script_witness :
  exists w tr,
    Server.handler StatusTextExcerpt
      [Server.CWrite Sample.abc Sample.env; Server.CWrite Sample.abc Sample.env_fail;
       Server.CWrite Sample.abc Sample.env] (Server.new_nrw "_INBOX.r") = Server.Ok tt w tr
    /\ Server.pending w = 6
    /\ List.length (Transfer.delivered tr) = 2%nat.
Proof.
  eexists _, _. split; [vm_compute; reflexivity|].
  match goal with
  | |- Server.pending ?w = _ /\ List.length (Transfer.delivered ?tr) = _ =>
      destruct (counter_after_script StatusTextExcerpt "_INBOX.r"
                  [Server.CWrite Sample.abc Sample.env; Server.CWrite Sample.abc Sample.env_fail;
                   Server.CWrite Sample.abc Sample.env] w tr
                  ltac:(vm_compute; discriminate) ltac:(vm_compute; reflexivity)) as [H1 H2]
  end.
  split; [exact H1|]. rewrite H2. reflexivity.
Defined.

(** ** A whole transfer: writer, requestor, acknowledgements *)

Section WholeTransfer.
Import Server.
Variable IsPrint : Z -> bool.
Variable StatusText : Z -> string.

Lemma write_all_projections (inbox : string) (datas : list (list byte)) :
  Transfer.accepted_of (Transfer.write_all inbox datas) = datas
  /\ Transfer.header_safe false (Transfer.write_all inbox datas) = true.
Proof.
  unfold Transfer.write_all.
  induction datas as [|d rest [IH1 IH2]]; [split; reflexivity|].
  cbn [map Transfer.accepted_of Transfer.header_safe pub_err]. now rewrite IH1, IH2.
Qed.

Lemma needed_total (cl : Z) (chunks : list Nats.Msg) : forall received : Z,
  Forall (fun m => Go.blen (Nats.Data m) <> 0) chunks ->
  received + Client.body_bytes chunks <= cl ->
  Client.needed cl received chunks = true.
Proof.
  induction chunks as [|m ms IH]; intros received Hne Hle; [reflexivity|].
  apply Forall_cons_1 in Hne as [Hm Hne]. cbn [Client.needed Client.body_bytes] in *.
  pose proof (body_bytes_nonneg ms).
  assert (0 <= Go.blen (Nats.Data m)) by (unfold Go.blen; lia).
  apply andb_true_intro. split; [apply Z.ltb_lt; lia|apply IH; [exact Hne|lia]].
Qed.

Lemma chunks_of_datas (r inbox : string) (datas : list (list byte)) :
  let chunks := map (fun d => Nats.mkMsg r (inbox +:+ "." +:+ Go.fmt_d (Go.blen d)) ∅ d) datas in
  Client.body_bytes chunks = Transfer.bytes_of datas
  /\ map Nats.Data chunks = datas
  /\ (Forall (fun d => Go.blen d <> 0) datas ->
      Forall (fun m => Go.blen (Nats.Data m) <> 0) chunks)
  /\ (Transfer.bytes_of datas <= Go.int_max ->
      Transfer.acked_bytes (Transfer.responses (map Nats.Reply chunks))
      = Transfer.bytes_of datas).
Proof.
  cbv zeta. induction datas as [|d rest (IH1 & IH2 & IH3 & IH4)].
  - repeat split; constructor.
  - cbn [map Client.body_bytes Transfer.bytes_of Nats.Data Nats.Reply
         Transfer.responses Transfer.acked_bytes].
    fold (Transfer.responses
            (map Nats.Reply
               (map (fun d => Nats.mkMsg r (inbox +:+ "." +:+ Go.fmt_d (Go.blen d)) ∅ d) rest))).
    pose proof (bytes_of_nonneg rest) as Hrest.
    assert (0 <= Go.blen d) as Hd by (unfold Go.blen; lia).
    repeat split.
    + now rewrite IH1.
    + now rewrite IH2.
    + intros Hne. apply Forall_cons_1 in Hne as [Hd0 Hne]. constructor; [exact Hd0|auto].
    + intros Hmax. rewrite ack_size_address by (unfold Go.in_int, Go.int_min; lia).
      cbn [from_option id]. rewrite IH4 by lia. reflexivity.
Qed.

(** X7.  A transfer from end to end.  The handler writes non-empty
    payloads whose publishes succeed; the requestor, told their total
    length as [Content-Length] and not refusing the first chunk as binary,
    receives the chunks that were published; its acknowledgements are then
    processed by the writer.  The requestor ends at [Content-Length]
    exactly, having taken the payloads in order and without reading
    further; the writer's counter, which stood at the total length after
    the writes, is back at zero. *)
Theorem transfer_round_trip (r name : string) (datas : list (list byte)) (fd : bool)
    (later : list Nats.recv) :
  Forall (fun d => Go.blen d <> 0) datas ->
  Transfer.bytes_of datas <= Go.int_max ->
  fd = true \/ match datas with [] => True | d :: _ => Client.isPrintable IsPrint d = true end ->
  exists w tr p w' tr',
    handler StatusText (Transfer.write_all name datas) (new_nrw r) = Ok tt w tr
    /\ pending w = Transfer.bytes_of datas
    /\ map Nats.Data (Transfer.delivered tr) = datas
    /\ Client.body_loop IsPrint fd (Transfer.bytes_of datas) 0 false
         (map Nats.RecvMsg (Transfer.delivered tr) ++ later) Client.start
       = Client.Done (Transfer.bytes_of datas) p
    /\ (if fd then Client.written p = datas else Client.written p = [])
    /\ Client.body_reads p = List.length datas
    /\ Transfer.deliver IsPrint (Transfer.responses (Client.acked p)) w = Ok tt w' tr'
    /\ pending w' = 0.
Proof.
  intros Hne Hmax Hok.
  destruct (write_all_projections name datas) as [Hacc Hsafe].
  pose proof (handler_shape StatusText (Transfer.write_all name datas) (new_nrw r) eq_refl)
    as Hsh.
  destruct (handler StatusText (Transfer.write_all name datas) (new_nrw r))
    as [[] w tr|why w tr|] eqn:E; [|destruct Hsh as [Hs _]; cbn in Hs; congruence|tauto].
  destruct Hsh as (_ & Hmu & _).
  destruct (handler_delivery StatusText (Transfer.write_all name datas) (new_nrw r) w tr)
    as [Hp Hd]; [reflexivity|cbn; lia|rewrite Hacc; cbn; lia|exact E|].
  rewrite Hacc in Hp, Hd. cbn [pending reply new_nrw] in Hp, Hd. rewrite Z.add_0_l in Hp.
  destruct (chunks_of_datas r (inbox w) datas) as (Hb & Hdat & Hnz & Hack).
  cbv zeta in Hb, Hdat, Hnz, Hack. rewrite <- Hd in Hb, Hdat, Hnz, Hack.
  set (chunks := Transfer.delivered tr) in *.
  destruct (body_loop_chunks IsPrint fd (Transfer.bytes_of datas) chunks 0 false later
              Client.start (Hnz Hne)) as [checked' EL].
  { apply needed_total; [exact (Hnz Hne)|lia]. }
  { unfold Go.int_min. lia. }
  { lia. }
  { right. unfold Client.first_chunk_accepted. destruct Hok as [->|Hok]; [reflexivity|].
    destruct fd; [reflexivity|]. cbn [orb].
    destruct chunks as [|m ms] eqn:Ec; [reflexivity|].
    destruct datas as [|d ds]; [discriminate Hdat|]. injection Hdat as <- _. exact Hok. }
  assert (mu w = false /\ Go.in_int (pending w)) as [Hmuw Hinw].
  { split; [exact Hmu|]. rewrite Hp. pose proof (bytes_of_nonneg datas).
    unfold Go.in_int, Go.int_min. lia. }
  destruct (deliver_total IsPrint
              (Transfer.responses (Client.acked (Client.consumed fd chunks Client.start)))
              w Hmuw Hinw) as [tr' ED].
  subst chunks.
  eexists w, tr, (Client.consumed fd (Transfer.delivered tr) Client.start), _, tr'.
  split; [reflexivity|]. split; [exact Hp|]. split; [exact Hdat|]. split.
  { rewrite EL, Z.add_0_l, Hb.
    destruct later as [|x l]; cbn [Client.body_loop]; rewrite Z.ltb_irrefl; reflexivity. }
  split.
  { unfold Client.consumed. cbn [Client.written Client.start app]. destruct fd; [exact Hdat|reflexivity]. }
  split.
  { unfold Client.consumed. cbn [Client.body_reads Client.start Nat.add].
    rewrite <- Hdat. now rewrite List.length_map. }
  split; [exact ED|].
  cbn [pending set_pending]. unfold Client.consumed. cbn [Client.acked Client.start app].
  rewrite (Hack Hmax), Hp, Z.sub_diag. destruct w; reflexivity.
Qed.

End WholeTransfer.

Lemma transfer_round_trip_witness :
  exists w tr p w' tr',
    Server.handler StatusTextExcerpt (Transfer.write_all "_INBOX.x" [Sample.abc; Sample.abc])
      (Server.new_nrw "_INBOX.r") = Server.Ok tt w tr
    /\ Server.pending w = Transfer.bytes_of [Sample.abc; Sample.abc]
    /\ map Nats.Data (Transfer.delivered tr) = [Sample.abc; Sample.abc]
    /\ Client.body_loop IsPrintASCII false (Transfer.bytes_of [Sample.abc; Sample.abc]) 0 false
         (map Nats.RecvMsg (Transfer.delivered tr) ++ []) Client.start
       = Client.Done (Transfer.bytes_of [Sample.abc; Sample.abc]) p
    /\ (if false then Client.written p = [Sample.abc; Sample.abc] else Client.written p = [])
    /\ Client.body_reads p = List.length [Sample.abc; Sample.abc]
    /\ Transfer.deliver IsPrintASCII (Transfer.responses (Client.acked p)) w
       = Server.Ok tt w' tr'
    /\ Server.pending w' = 0.
Proof.
  apply (transfer_round_trip IsPrintASCII StatusTextExcerpt "_INBOX.r" "_INBOX.x"
           [Sample.abc; Sample.abc] false []).
  - repeat constructor; discriminate.
  - vm_compute. discriminate.
  - right. reflexivity.
Defined.

(** ** The mutex across interleavings *)

Section MutexFacts.
Import Server.
Variable IsPrint : Z -> bool.

Lemma write_enter_mutex (env : WriteEnv) (w w1 : nrw) (b : bool) tr :
  write_enter env w = Ok b w1 tr ->
  mu w = false /\ mu w1 = negb b /\ Transfer.disciplined false tr = Some (negb b).
Proof.
  destruct w as [m0 rp h i a c ix p], env as [ni so pe].
  split_tests; intros H; inversion H; subst; repeat split.
Qed.

Lemma write_wait_mutex (w w1 : nrw) tr :
  write_wait w = Ok tt w1 tr ->
  mu w = false /\ mu w1 = true /\ Transfer.disciplined false tr = Some true.
Proof.
  destruct w as [m0 rp h i a c ix p].
  split_tests; intros H; inversion H; subst; repeat split.
Qed.

Lemma write_publish_mutex (data : list byte) (env : WriteEnv) (w w1 : nrw) r tr :
  write_publish data env w = Ok r w1 tr ->
  mu w = true /\ mu w1 = false /\ Transfer.disciplined true tr = Some false.
Proof.
  destruct w as [m0 rp h i a c ix p], env as [ni so pe].
  split_tests; intros H; inversion H; subst; repeat split.
Qed.

Lemma processFlowAck_mutex (m : Nats.Msg) (w w1 : nrw) tr :
  mu w = false ->
  processFlowAck IsPrint m w = Ok tt w1 tr ->
  mu w1 = false /\ Transfer.disciplined false tr = Some false.
Proof.
  intros Hmu. rewrite (processFlowAck_ack_size IsPrint m w Hmu).
  destruct (ack_size m); unfold good_ack, bad_ack; intros [= <- <-];
    (split; [destruct w; exact Hmu|reflexivity]).
Qed.

End MutexFacts.

(** X8.  In every interleaving of writes, wake-ups and ack deliveries of
    one transfer, the mutex is free between the steps, and over the whole
    history it is taken only when free and released only when held; every
    call on the connection and every store to the counter happens with
    the mutex held ([PublishRequest] included), and every [select] with
    the mutex released. *)
Theorem mutex_discipline (IsPrint : Z -> bool) (r : string)
    (acts : list Server.action) (s : Server.sys) :
  Server.run IsPrint (Server.init r) acts = Some s ->
  Server.mu (Server.obj s) = false
  /\ Transfer.disciplined false (Server.history s) = Some false.
Proof.
  assert (forall acts s0 s1,
            Server.mu (Server.obj s0) = false ->
            Transfer.disciplined false (Server.history s0) = Some false ->
            Server.run IsPrint s0 acts = Some s1 ->
            Server.mu (Server.obj s1) = false
            /\ Transfer.disciplined false (Server.history s1) = Some false) as G.
  { clear. intros acts. induction acts as [|a rest IH]; intros s0 s1 Hmu Hd; cbn [Server.run].
    - intros [= <-]. auto.
    - destruct (Server.step IsPrint s0 a) as [s'|] eqn:E; [|discriminate].
      destruct (step_unfold IsPrint _ _ _ E) as (w & next & tr & Ev & ->).
      assert (Server.mu w = false /\ Transfer.disciplined false tr = Some false) as [Hw Ht].
      { unfold Server.step_events in Ev. destruct a as [data env| |m].
        - destruct (Server.pc s0); [|discriminate].
          destruct (Server.write_enter env (Server.obj s0)) as [b w1 t1| |] eqn:E1; try discriminate.
          destruct (write_enter_mutex _ _ _ _ _ E1) as (_ & Hm1 & Hd1).
          destruct b.
          + injection Ev as <- _ <-. auto.
          + destruct (Server.write_publish data env w1) as [x w2 t2| |] eqn:E2; try discriminate.
            destruct (write_publish_mutex _ _ _ _ _ _ E2) as (_ & Hm2 & Hd2).
            injection Ev as <- _ <-. split; [exact Hm2|].
            rewrite disciplined_app, Hd1. exact Hd2.
        - destruct (Server.pc s0) as [|data env]; [discriminate|].
          unfold Server.finish, Server.bind in Ev.
          destruct (Server.write_wait (Server.obj s0)) as [[] w1 t1| |] eqn:E1; try discriminate.
          destruct (write_wait_mutex _ _ _ E1) as (_ & Hm1 & Hd1).
          destruct (Server.write_publish data env w1) as [x w2 t2| |] eqn:E2; try discriminate.
          destruct (write_publish_mutex _ _ _ _ _ _ E2) as (_ & Hm2 & Hd2).
          injection Ev as <- _ <-. split; [exact Hm2|].
          rewrite disciplined_app, Hd1. exact Hd2.
        - destruct (Server.delivers (Server.obj s0) m); [|discriminate].
          unfold Server.finish in Ev.
          destruct (Server.processFlowAck IsPrint m (Server.obj s0)) as [[] w1 t1| |] eqn:E1;
            try discriminate.
          injection Ev as <- _ <-. exact (processFlowAck_mutex IsPrint _ _ _ _ Hmu E1). }
      apply (IH _ s1); [exact Hw|].
      cbn [Server.history]. rewrite disciplined_app, Hd. exact Ht. }
  intros Hr. exact (G acts (Server.init r) s eq_refl eq_refl Hr).
Qed.

Lemma mutex_discipline_witness :
  exists s,
    Server.run IsPrintASCII (Server.init "_INBOX.r") Sample.two_chunks_acked = Some s
    /\ Server.mu (Server.obj s) = false
    /\ Transfer.disciplined false (Server.history s) = Some false.
Proof.
  eexists. split; [vm_compute; reflexivity|].
  apply (mutex_discipline IsPrintASCII "_INBOX.r" Sample.two_chunks_acked). vm_compute. reflexivity.
Defined.


(** * Further properties of the requestor *)

Section LoopMore.
Import Nats Client.
Variable IsPrint : Z -> bool.

Lemma consumed_nil (fd : bool) (p : progress) : consumed fd [] p = p.
Proof.
  unfold consumed. cbn [map List.length]. destruct fd, p;
    cbn [logged written acked body_reads]; rewrite !app_nil_r, Nat.add_0_r; reflexivity.
Qed.

(** Once the first chunk has been checked, or with an output file, the
    loop cannot end in [log.Fatalf]. *)
Lemma body_loop_no_refusal (fd : bool) (cl : Z) (incoming : list recv) :
  forall (received : Z) (checked : bool) (p : progress),
  fd = true \/ checked = true ->
  exists r p', body_loop IsPrint fd cl received checked incoming p = Done r p'.
Proof.
  induction incoming as [|x rest IH]; intros received checked p Hok; cbn [body_loop].
  - destruct (received <? cl); eauto.
  - destruct (received <? cl); [|eauto]. destruct x as [err|m]; [eauto|].
    destruct (Go.blen (Data m) =? 0); [eauto|].
    assert ((negb checked && negb fd) = false) as Hc
      by (destruct Hok as [-> | ->]; [apply andb_false_r|reflexivity]).
    rewrite Hc. cbn [andb]. apply IH. exact Hok.
Qed.

(** How any run of the loop decomposes, when the byte count cannot
    overflow. *)
Lemma body_loop_decompose (fd : bool) (cl : Z) (incoming : list recv) :
  forall (received : Z) (checked : bool) (p : progress),
  Go.int_min <= received ->
  received + Transfer.offered_bytes incoming <= Go.int_max ->
  exists chunks rest,
    incoming = (map RecvMsg chunks ++ rest)%list
    /\ Forall (fun m => Go.blen (Data m) <> 0) chunks
    /\ needed cl received chunks = true
    /\ match body_loop IsPrint fd cl received checked incoming p with
       | Done r p' =>
           r = received + body_bytes chunks
           /\ ((cl <= r /\ p' = consumed fd chunks p)
               \/ (r < cl /\ ends_stream rest = true /\ p' = next_msg (consumed fd chunks p)))
       | Fatal msg p' =>
           msg = binary_warning /\ p' = next_msg (consumed fd chunks p)
       end.
Proof.
  induction incoming as [|x rest IH]; intros received checked p Hlo Hhi.
  - exists [], []. cbn [body_loop map app body_bytes needed]. rewrite consumed_nil, Z.add_0_r.
    repeat split; [constructor|].
    destruct (Z.ltb_spec received cl); (split; [reflexivity|]); [right|left]; auto.
  - cbn [body_loop].
    destruct (Z.ltb_spec received cl) as [Hlt|Hge].
    2:{ exists [], (x :: rest). cbn [map app body_bytes needed].
        rewrite consumed_nil, Z.add_0_r. repeat split; [constructor|]. left. auto. }
    destruct x as [err|m].
    { exists [], (RecvErr err :: rest). cbn [map app body_bytes needed ends_stream].
      rewrite consumed_nil, Z.add_0_r. repeat split; [constructor|]. right. auto. }
    destruct (Z.eqb_spec (Go.blen (Data m)) 0) as [Hz|Hnz].
    { exists [], (RecvMsg m :: rest). cbn [map app body_bytes needed ends_stream].
      rewrite consumed_nil, Z.add_0_r. repeat split; [constructor|]. right.
      repeat split; [exact Hlt|now apply Z.eqb_eq]. }
    destruct (negb checked && negb fd && negb (isPrintable IsPrint (Data m))) eqn:Eref.
    { exists [], (RecvMsg m :: rest). cbn [map app body_bytes needed].
      rewrite consumed_nil. repeat split. constructor. }
    cbn [Transfer.offered_bytes] in Hhi.
    assert (0 <= Go.blen (Data m)) as Hlen by (unfold Go.blen; lia).
    assert (0 <= Transfer.offered_bytes rest) as Hoff.
    { clear. induction rest as [|[e|m'] l IHl]; cbn [Transfer.offered_bytes];
        unfold Go.blen in *; lia. }
    rewrite wrap_int_id by (unfold Go.in_int; lia).
    destruct (IH (received + Go.blen (Data m))
                 (if negb checked && negb fd then true else checked)
                 (respond m (if fd then file_write (Data m) (next_msg p)
                             else log_line (String "010" (Go.string_of_bytes (Data m)))
                                    (next_msg p))))
      as (chunks & rest' & Hsplit & Hne & Hneed & Hres); [lia|lia|].
    exists (m :: chunks), rest'. cbn [map app body_bytes needed].
    rewrite <- consumed_cons, Z.add_assoc.
    split; [now rewrite Hsplit|]. split; [constructor; assumption|].
    split; [apply andb_true_intro; split; [now apply Z.ltb_lt|exact Hneed]|].
    exact Hres.
Qed.

End LoopMore.

(** X9.  The receive loop ends in [log.Fatalf] exactly when no output
    file is open, no chunk has been checked yet, the byte count is below
    [Content-Length], and the next message is a non-empty chunk that
    [isPrintable] rejects.  The message is then the binary-data warning,
    and that chunk has been asked for but is neither printed nor
    acknowledged.  Later chunks are never checked. *)
Theorem refusal_only_on_first_chunk (IsPrint : Z -> bool) (fd : bool) (cl received : Z)
    (checked : bool) (incoming : list Nats.recv) (p : Client.progress) :
  ((exists msg p', Client.body_loop IsPrint fd cl received checked incoming p
                   = Client.Fatal msg p')
   <-> (fd = false /\ checked = false /\ received < cl
        /\ exists m rest, incoming = Nats.RecvMsg m :: rest
                          /\ Go.blen (Nats.Data m) <> 0
                          /\ Client.isPrintable IsPrint (Nats.Data m) = false))
  /\ (forall msg p',
        Client.body_loop IsPrint fd cl received checked incoming p = Client.Fatal msg p' ->
        msg = Client.binary_warning /\ p' = Client.next_msg p).
Proof.
  assert ((exists msg p', Client.body_loop IsPrint fd cl received checked incoming p
                          = Client.Fatal msg p')
          -> fd = false /\ checked = false /\ received < cl
             /\ exists m rest, incoming = Nats.RecvMsg m :: rest
                               /\ Go.blen (Nats.Data m) <> 0
                               /\ Client.isPrintable IsPrint (Nats.Data m) = false) as Hfwd.
  { intros (msg & p' & E).
    destruct incoming as [|x rest]; cbn [Client.body_loop] in E.
    { destruct (received <? cl); discriminate. }
    destruct (Z.ltb_spec received cl) as [Hlt|]; [|discriminate].
    destruct x as [err|m]; [discriminate|].
    destruct (Z.eqb_spec (Go.blen (Nats.Data m)) 0) as [|Hnz]; [discriminate|].
    destruct fd.
    { destruct (body_loop_no_refusal IsPrint true cl (Nats.RecvMsg m :: rest) received
                  checked p (or_introl eq_refl)) as (r & p2 & E2).
      cbn [Client.body_loop] in E2. apply Z.ltb_lt in Hlt. rewrite Hlt in E2.
      destruct (Z.eqb_spec (Go.blen (Nats.Data m)) 0); [contradiction|].
      rewrite E2 in E. discriminate. }
    destruct checked.
    { destruct (body_loop_no_refusal IsPrint false cl (Nats.RecvMsg m :: rest) received
                  true p (or_intror eq_refl)) as (r & p2 & E2).
      cbn [Client.body_loop] in E2. apply Z.ltb_lt in Hlt. rewrite Hlt in E2.
      destruct (Z.eqb_spec (Go.blen (Nats.Data m)) 0); [contradiction|].
      rewrite E2 in E. discriminate. }
    cbn [negb andb] in E.
    destruct (Client.isPrintable IsPrint (Nats.Data m)) eqn:Ep.
    { cbn [negb] in E.
      destruct (body_loop_no_refusal IsPrint false cl rest
                  (Go.wrap_int (received + Go.blen (Nats.Data m))) true
                  (Client.respond m
                     (Client.log_line (String "010" (Go.string_of_bytes (Nats.Data m)))
                        (Client.next_msg p))) (or_intror eq_refl)) as (r & p2 & E2).
      rewrite E2 in E. discriminate. }
    repeat split; try assumption. exists m, rest. repeat split; assumption. }
  assert (fd = false /\ checked = false /\ received < cl
          /\ (exists m rest, incoming = Nats.RecvMsg m :: rest
                             /\ Go.blen (Nats.Data m) <> 0
                             /\ Client.isPrintable IsPrint (Nats.Data m) = false)
          -> Client.body_loop IsPrint fd cl received checked incoming p
             = Client.Fatal Client.binary_warning (Client.next_msg p)) as Hbwd.
  { intros (-> & -> & Hlt & m & rest & -> & Hnz & Ep).
    cbn [Client.body_loop]. apply Z.ltb_lt in Hlt. rewrite Hlt, Ep.
    destruct (Z.eqb_spec (Go.blen (Nats.Data m)) 0); [contradiction|]. reflexivity. }
  split; [split|].
  - exact Hfwd.
  - intros H. rewrite (Hbwd H). eauto.
  - intros msg p' E. assert (Hc := Hfwd (ex_intro _ msg (ex_intro _ p' E))).
    rewrite (Hbwd Hc) in E. injection E as <- <-. split; reflexivity.
Qed.

(** X10.  Every run of the receive loop, for whatever arrives (the byte
    count staying within [int]): the requestor has taken a run of
    non-empty chunks from the front of what arrived, each asked for while
    the count was below [Content-Length]; it has written or printed them
    in order and acknowledged each once, on its own reply address.  If
    the loop returns, the count is the number of body bytes in these
    chunks, and either it has reached [Content-Length] and nothing more
    was asked for, or one more receive was made and it timed out, failed
    or brought an empty chunk.  If the client ends in [log.Fatalf], one
    more message was asked for and nothing of it was kept. *)
Theorem body_loop_outcome (IsPrint : Z -> bool) (fd : bool) (cl : Z)
    (incoming : list Nats.recv) (p : Client.progress) :
  Transfer.offered_bytes incoming <= Go.int_max ->
  exists chunks rest,
    incoming = (map Nats.RecvMsg chunks ++ rest)%list
    /\ Forall (fun m => Go.blen (Nats.Data m) <> 0) chunks
    /\ Client.needed cl 0 chunks = true
    /\ match Client.body_loop IsPrint fd cl 0 false incoming p with
       | Client.Done r p' =>
           r = Client.body_bytes chunks
           /\ ((cl <= r /\ p' = Client.consumed fd chunks p)
               \/ (r < cl /\ Client.ends_stream rest = true
                   /\ p' = Client.next_msg (Client.consumed fd chunks p)))
       | Client.Fatal msg p' =>
           msg = Client.binary_warning
           /\ p' = Client.next_msg (Client.consumed fd chunks p)
       end.
Proof.
  intros Hmax.
  destruct (body_loop_decompose IsPrint fd cl incoming 0 false p)
    as (chunks & rest & H1 & H2 & H3 & H4); [unfold Go.int_min; lia|lia|].
  exists chunks, rest. repeat split; try assumption.
Qed.

Lemma body_loop_outcome_witness :
  exists chunks rest,
    [Nats.RecvMsg (Sample.chunk Sample.abc 3); Nats.RecvErr "nats: timeout";
     Nats.RecvMsg (Sample.chunk Sample.abc 3)]
    = (map Nats.RecvMsg chunks ++ rest)%list
    /\ Forall (fun m => Go.blen (Nats.Data m) <> 0) chunks
    /\ Client.needed 10 0 chunks = true
    /\ match Client.body_loop IsPrintASCII false 10 0 false
               [Nats.RecvMsg (Sample.chunk Sample.abc 3); Nats.RecvErr "nats: timeout";
                Nats.RecvMsg (Sample.chunk Sample.abc 3)] Client.start with
       | Client.Done r p' =>
           r = Client.body_bytes chunks
           /\ ((10 <= r /\ p' = Client.consumed false chunks Client.start)
               \/ (r < 10 /\ Client.ends_stream rest = true
                   /\ p' = Client.next_msg (Client.consumed false chunks Client.start)))
       | Client.Fatal msg p' =>
           msg = Client.binary_warning
           /\ p' = Client.next_msg (Client.consumed false chunks Client.start)
       end.
Proof.
  apply (body_loop_outcome IsPrintASCII false 10
           [Nats.RecvMsg (Sample.chunk Sample.abc 3); Nats.RecvErr "nats: timeout";
            Nats.RecvMsg (Sample.chunk Sample.abc 3)] Client.start).
  vm_compute. discriminate.
Defined.

(** ** The request, from the requestor to the handler *)

Lemma Get_Add_same (h : Nats.Header) (key value : string) :
  h !! key = None -> Nats.Get (Nats.Add h key value) key = value.
Proof.
  intros Hn. unfold Nats.Get, Nats.Add. rewrite lookup_insert_eq, Hn. reflexivity.
Qed.

Lemma Get_Add_other (h : Nats.Header) (key key' value : string) :
  key <> key' -> Nats.Get (Nats.Add h key value) key' = Nats.Get h key'.
Proof.
  intros Hne. unfold Nats.Get, Nats.Add. rewrite lookup_insert_ne by exact Hne. reflexivity.
Qed.

(** X11.  The request the requestor builds for [subject] and an optional
    target, as the callback of [natsHandleFunc] takes it apart: the method
    is [GET]; the target is the one given, or [/] when none was given or
    it is empty; the headers go to the request as they came; the writer is
    new and replies to the requestor's inbox.  When [http.NewRequest]
    rejects method or target, the callback logs the error and then panics
    on the nil request, and no handler is started. *)
Theorem request_round_trip (NewRequest_err : string -> string -> option string)
    (subject inbox : string) (more : list string) :
  exists m,
    Request.build (subject :: more) inbox = Some m
    /\ Nats.Subject m = subject /\ Nats.Reply m = inbox /\ Nats.Data m = []
    /\ let target := match more with
                     | t :: _ => if String.eqb t EmptyString then "/" else t
                     | [] => "/"
                     end in
       Request.on_message NewRequest_err m
       = match NewRequest_err "GET" target with
         | Some err =>
             Request.Crash Server.nil_deref ["Error creating http request: " +:+ err]
         | None =>
             Request.Go_handler (Request.mkReq "GET" target (Nats.Hdr m) [])
               (Server.new_nrw inbox) []
         end.
Proof.
  eexists. split; [reflexivity|]. repeat split. cbv zeta.
  unfold Request.on_message. cbn [Nats.Hdr Nats.Data Nats.Reply].
  set (h3 := Http.Add (Http.Add (Http.Add ∅ "Accept" "*/*") "User-Agent" "nats-fs-client/0.1")
               "Method" "GET").
  assert (Nats.Get h3 "Method" = "GET") as Hm3 by (vm_compute; reflexivity).
  assert (h3 !! "Url" = None) as Hu3 by (vm_compute; reflexivity).
  unfold Http.Get.
  change (Http.CanonicalMIMEHeaderKey "Method") with "Method".
  change (Http.CanonicalMIMEHeaderKey "URL") with "Url".
  destruct more as [|t more'].
  - rewrite Hm3. unfold Nats.Get at 1. rewrite Hu3. reflexivity.
  - unfold Http.Add. change (Http.CanonicalMIMEHeaderKey "URL") with "Url".
    rewrite !(Get_Add_other h3 "Url" "Method" t) by discriminate. rewrite !Hm3.
    rewrite !(Get_Add_same h3 "Url" t Hu3).
    cbn [String.eqb negb]. reflexivity.
Qed.

(** ** The header message, from the handler to the requestor *)

(** X12.  The header round trip.  A handler that sets [Content-Length] to
    the decimal text of [n] and then calls [WriteHeader(200)] publishes
    one header message, on the reply subject of the request; the
    requestor, receiving that message with no output file given, accepts
    the status, reads [n] back as the content length and enters the
    receive loop with it. *)
Theorem header_round_trip (IsPrint : Z -> bool) (StatusText : Z -> string) (r : string)
    (n : Z) (showHeaders : bool) (incoming : list Nats.recv) :
  Go.in_int n ->
  exists w tr m,
    Server.handler StatusText
      [Server.CHeaderSet "Content-Length" (Go.fmt_d n); Server.CWriteHeader 200]
      (Server.new_nrw r) = Server.Ok tt w tr
    /\ Server.header_messages tr = [m]
    /\ Nats.Subject m = r
    /\ Nats.Get (Nats.Hdr m) "Status" = "200 " +:+ StatusText 200
    /\ Nats.Get (Nats.Hdr m) "Content-Length" = Go.fmt_d n
    /\ Client.run IsPrint showHeaders EmptyString None (Nats.RecvMsg m) incoming
       = Client.body_loop IsPrint false n 0 false incoming
           (if showHeaders
            then Client.mkProgress (Client.header_lines m) [] [] 0
            else Client.start).
Proof.
  intros Hn.
  set (h1 := <["Content-Length" := [Go.fmt_d n]]> (∅ : gmap string (list string))).
  set (m := Nats.with_header (Nats.with_header (Nats.NewMsg r) h1)
              (Nats.Add h1 "Status" (Server.status_line StatusText 200))).
  assert (Server.status_line StatusText 200 = "200 " +:+ StatusText 200) as Hline
    by reflexivity.
  assert (Nats.Get (Nats.Hdr m) "Status" = "200 " +:+ StatusText 200) as Hst.
  { unfold m. cbn [Nats.with_header Nats.Hdr]. rewrite Get_Add_same; [exact Hline|].
    unfold h1. rewrite lookup_insert_ne by discriminate. apply lookup_empty. }
  assert (Nats.Get (Nats.Hdr m) "Content-Length" = Go.fmt_d n) as Hcl.
  { unfold m. cbn [Nats.with_header Nats.Hdr]. rewrite Get_Add_other by discriminate.
    unfold Nats.Get, h1. rewrite lookup_insert_eq. reflexivity. }
  eexists _, _, m. split; [reflexivity|]. split; [reflexivity|]. split; [reflexivity|].
  split; [exact Hst|]. split; [exact Hcl|].
  unfold Client.run. rewrite Hst, Hcl, (Atoi_fmt_d n Hn).
  assert (Go.HasPrefix ("200 " +:+ StatusText 200) "200" = true) as Hp.
  { unfold Go.HasPrefix. exact (prefix_app "200" (" " +:+ StatusText 200)). }
  rewrite Hp. cbn [negb String.eqb]. destruct showHeaders; reflexivity.
Qed.

Lemma header_round_trip_witness :
  exists w tr m,
    Server.handler StatusTextExcerpt
      [Server.CHeaderSet "Content-Length" (Go.fmt_d 11); Server.CWriteHeader 200]
      (Server.new_nrw "_INBOX.r") = Server.Ok tt w tr
    /\ Server.header_messages tr = [m]
    /\ Nats.Subject m = "_INBOX.r"
    /\ Nats.Get (Nats.Hdr m) "Status" = "200 " +:+ StatusTextExcerpt 200
    /\ Nats.Get (Nats.Hdr m) "Content-Length" = Go.fmt_d 11
    /\ Client.run IsPrintASCII false EmptyString None (Nats.RecvMsg m) []
       = Client.body_loop IsPrintASCII false 11 0 false []
           (if false then Client.mkProgress (Client.header_lines m) [] [] 0
            else Client.start).
Proof.
  apply (header_round_trip IsPrintASCII StatusTextExcerpt "_INBOX.r" 11 false []).
  unfold Go.in_int, Go.int_min, Go.int_max. lia.
Defined.

(** ** The classifier on ASCII *)

(** X13.  When the first 32 bytes of a payload are all ASCII, the
    classifier tests them one by one: the payload is accepted exactly when
    each of these bytes, taken as a rune, is printable.  Bytes from the
    33rd on are not looked at. *)
Theorem isPrintable_on_ascii (IsPrint : Z -> bool) (data : list byte) :
  Forall (fun b => Go.byteZ (ascii_of_byte b) < Go.RuneSelf) (take 32 data) ->
  Client.isPrintable IsPrint data
  = forallb (fun b => IsPrint (Go.byteZ (ascii_of_byte b))) (take 32 data).
Proof.
  rewrite isPrintable_snippet. generalize (take 32 data). clear data.
  intros l Hl. induction Hl as [|b l Hb Hl IH]; [reflexivity|].
  rewrite string_of_bytes_cons. cbn [Client.all_printable Go.next_rune forallb].
  apply Z.ltb_lt in Hb. rewrite Hb. cbn [Nat.pred].
  destruct (IsPrint (Go.byteZ (ascii_of_byte b))); [exact IH|reflexivity].
Qed.

Lemma isPrintable_on_ascii_witness :
  Client.isPrintable IsPrintASCII (Go.bytes_of_string "hello world")
  = forallb (fun b => IsPrintASCII (Go.byteZ (ascii_of_byte b)))
            (take 32 (Go.bytes_of_string "hello world")).
Proof.
  apply (isPrintable_on_ascii IsPrintASCII (Go.bytes_of_string "hello world")).
  repeat constructor.
Defined.

Lemma decoderune_single (c : ascii) :
  Go.decoderune (String c EmptyString) = (Go.RuneError, 1%nat).
Proof.
  unfold Go.decoderune.
  destruct ((Go.t2 <=? Go.byteZ c) && (Go.byteZ c <? Go.t3)); [reflexivity|].
  destruct ((Go.t3 <=? Go.byteZ c) && (Go.byteZ c <? Go.t4)); [reflexivity|].
  destruct ((Go.t4 <=? Go.byteZ c) && (Go.byteZ c <? Go.t5)); reflexivity.
Qed.

Lemma take_app_one {A} (pre : list A) (c : A) (rest : list A) :
  take (S (List.length pre)) (pre ++ c :: rest) = (pre ++ [c])%list.
Proof. induction pre as [|x pre IH]; cbn; [rewrite take_0|rewrite IH]; reflexivity. Qed.

(** X14.  The cut at 32 bytes can fall inside a character.  When 31 ASCII
    bytes are followed by a byte of 0x80 or more, that byte is the last
    one looked at and is tested as U+FFFD, whatever character it starts
    and whatever follows it: the payload is accepted exactly when the 31
    bytes are printable and U+FFFD is. *)
Theorem cut_character_is_replacement (IsPrint : Z -> bool) (pre : list byte) (c : byte)
    (rest : list byte) :
  List.length pre = 31%nat ->
  Forall (fun b => Go.byteZ (ascii_of_byte b) < Go.RuneSelf) pre ->
  Go.RuneSelf <= Go.byteZ (ascii_of_byte c) ->
  Client.isPrintable IsPrint (pre ++ c :: rest)
  = forallb (fun b => IsPrint (Go.byteZ (ascii_of_byte b))) pre && IsPrint Go.RuneError.
Proof.
  intros Hlen Hpre Hc. rewrite isPrintable_snippet.
  change 32%nat with (S 31). rewrite <- Hlen, take_app_one. clear Hlen.
  induction Hpre as [|b l Hb Hl IH].
  - cbn [app forallb andb]. rewrite string_of_bytes_cons.
    change (Go.string_of_bytes []) with EmptyString.
    cbn [Client.all_printable Go.next_rune].
    apply Z.ltb_ge in Hc. rewrite Hc, decoderune_single. cbn [Nat.pred].
    destruct (IsPrint Go.RuneError); reflexivity.
  - cbn [app forallb]. rewrite string_of_bytes_cons.
    cbn [Client.all_printable Go.next_rune].
    apply Z.ltb_lt in Hb. rewrite Hb. cbn [Nat.pred].
    destruct (IsPrint (Go.byteZ (ascii_of_byte b))); [exact IH|reflexivity].
Qed.

Lemma cut_character_is_replacement_witness :
  Client.isPrintable IsPrintASCII
    (repeat "a"%byte 31 ++ "195"%byte :: ["169"%byte; "a"%byte])
  = forallb (fun b => IsPrintASCII (Go.byteZ (ascii_of_byte b))) (repeat "a"%byte 31)
    && IsPrintASCII Go.RuneError.
Proof.
  apply (cut_character_is_replacement IsPrintASCII (repeat "a"%byte 31) "195"%byte
           ["169"%byte; "a"%byte]).
  - reflexivity.
  - repeat constructor.
  - vm_compute. discriminate.
Defined.

(** A header set under a key in another case is stored under the canonical
    key, where [Get] and the requestor look for it. *)
Example HeaderSet_canonical_key :
  exists w,
    Server.HeaderSet "content-length" "3" (Server.new_nrw "_INBOX.r") = Server.Ok tt w []
    /\ option_map (fun m => Nats.Get (Nats.Hdr m) "Content-Length") (Server.hdr w) = Some "3"
    /\ option_map (fun m => Nats.Hdr m !! "content-length") (Server.hdr w) = Some None.
Proof. eexists. split; [vm_compute; reflexivity|]. split; vm_compute; reflexivity. Qed.
